(** * Airbnb scanner backend: the extraction engine of [src/ml]

    A shallow embedding of the Python sources
      - [email-classifier.py]      (class [AirbnbEmailClassifier]),
      - [ml_extractor.py]          (class [MLDataExtractor]),
      - [enhanced_payout_parser.py] and [classify_email.py]
                                   (class [EnhancedPayoutParser]),
    together with the part of the Python runtime these functions call:
    [str] methods, [int], [float], [datetime] and the [re] module.

    Conventions.
      - A Python [str] is a list of Unicode code points ([text]); string
        literals of the sources are written as UTF-8 literals and decoded
        by [u].
      - A Python exception is a value [Raise e] of the type [result];
        [try]/[except] is [catch].
      - A [float] is the exact decimal value it was parsed from ([Fin q]),
        or an infinity or a NaN; rounding to binary64 is not modelled.
      - [ml_extractor.py] is stored as a Shift-JIS reading of its UTF-8
        bytes (the euro sign shows as two kana, the backslash as a yen
        sign); its patterns and literals are read here in the original
        UTF-8. *)

From Stdlib Require Import String Ascii ZArith NArith QArith Bool Lia List.
Import ListNotations.

Set Implicit Arguments.
Local Open Scope Z_scope.

(* ================================================================== *)
(** * Part I. The Python runtime                                       *)
(* ================================================================== *)

Module Py.

(** ** Exceptions *)

Inductive exn := ValueError | TypeError | AttributeError | KeyError.

Inductive result (A : Type) : Type :=
| Ok (a : A)
| Raise (e : exn).
Arguments Ok {A} a.
Arguments Raise {A} e.

Definition bind {A B} (m : result A) (f : A -> result B) : result B :=
  match m with
  | Ok a => f a
  | Raise e => Raise e
  end.

Notation "x <- m ;; k" := (bind m (fun x => k))
  (at level 61, m at next level, right associativity).

(** [try: m  except ValueError: h] *)
Definition catch_value_error {A} (m : result A) (h : result A) : result A :=
  match m with
  | Raise ValueError => h
  | other => other
  end.

(** [try: m  except: h]  (a bare [except], or one that lists every
    exception the body can raise) *)
Definition catch {A} (m : result A) (h : result A) : result A :=
  match m with
  | Ok a => Ok a
  | Raise _ => h
  end.

(** ** Text *)

Definition code := N.
Bind Scope N_scope with code.
Definition text := list code.

Fixpoint bytes_of (s : string) : list N :=
  match s with
  | EmptyString => []
  | String a s' => N_of_ascii a :: bytes_of s'
  end.

(** UTF-8 decoding of a well-formed byte sequence. *)
Fixpoint utf8 (bs : list N) : text :=
  match bs with
  | [] => []
  | b :: r =>
      if (b <? 128)%N then b :: utf8 r
      else if (b <? 224)%N then
        match r with
        | b2 :: r' => ((b - 192) * 64 + (b2 - 128))%N :: utf8 r'
        | _ => []
        end
      else if (b <? 240)%N then
        match r with
        | b2 :: b3 :: r' =>
            ((b - 224) * 4096 + (b2 - 128) * 64 + (b3 - 128))%N :: utf8 r'
        | _ => []
        end
      else
        match r with
        | b2 :: b3 :: b4 :: r' =>
            ((b - 240) * 262144 + (b2 - 128) * 4096
             + (b3 - 128) * 64 + (b4 - 128))%N :: utf8 r'
        | _ => []
        end
  end.

(** A source literal as text. *)
Definition u (s : string) : text := utf8 (bytes_of s).

Definition nl : text := [10%N].

Fixpoint text_eqb (a b : text) : bool :=
  match a, b with
  | [], [] => true
  | x :: a', y :: b' => (x =? y)%N && text_eqb a' b'
  | _, _ => false
  end.

(** ** Character tables

    [str.isspace] is the table of CPython.  Decimal digits are the ASCII
    digits; letters and case pairs are those of Basic Latin, Latin-1
    Supplement and Latin Extended-A/B (the scripts of the Swedish and
    English mail the code reads); other code points are caseless
    non-word characters in this model. *)

Definition between (lo hi c : code) : bool := ((lo <=? c) && (c <=? hi))%N.

Definition is_space (c : code) : bool :=
  between 9 13 c || between 28 32 c || (c =? 133)%N || (c =? 160)%N
  || (c =? 5760)%N || between 8192 8202 c || (c =? 8232)%N
  || (c =? 8233)%N || (c =? 8239)%N || (c =? 8287)%N || (c =? 12288)%N.

Definition is_digit (c : code) : bool := between 48 57 c.

Definition is_word (c : code) : bool :=
  is_digit c || between 65 90 c || between 97 122 c || (c =? 95)%N
  || (c =? 170)%N || (c =? 178)%N || (c =? 179)%N || (c =? 181)%N
  || (c =? 185)%N || (c =? 186)%N || between 188 190 c
  || between 192 214 c || between 216 246 c || between 248 591 c.

Definition is_alpha (c : code) : bool :=
  between 65 90 c || between 97 122 c || (c =? 170)%N || (c =? 181)%N
  || (c =? 186)%N || between 192 214 c || between 216 246 c
  || between 248 591 c.

Definition lower_code (c : code) : code :=
  if between 65 90 c then (c + 32)%N
  else if between 192 222 c && negb (c =? 215)%N then (c + 32)%N
  else if (c =? 376)%N then 255%N
  else c.

Definition upper_code (c : code) : code :=
  if between 97 122 c then (c - 32)%N
  else if between 224 254 c && negb (c =? 247)%N then (c - 32)%N
  else if (c =? 255)%N then 376%N
  else c.

(** ** [str] methods *)

Definition lower (s : text) : text := map lower_code s.
Definition upper (s : text) : text := map upper_code s.

Fixpoint starts_with (p s : text) : bool :=
  match p, s with
  | [], _ => true
  | x :: p', y :: s' => (x =? y)%N && starts_with p' s'
  | _ :: _, [] => false
  end.

(** [needle in hay] *)
Fixpoint contains (needle hay : text) : bool :=
  starts_with needle hay ||
  match hay with
  | [] => false
  | _ :: hay' => contains needle hay'
  end.

(** [c in s] for a one-character string [c] *)
Definition has_char (c : code) (s : text) : bool :=
  existsb (fun x => (x =? c)%N) s.

(** [s.replace(c, '')] *)
Definition remove_char (c : code) (s : text) : text :=
  filter (fun x => negb (x =? c)%N) s.

(** [s.replace(a, b)] for one-character strings *)
Definition replace_char (a b : code) (s : text) : text :=
  map (fun x => if (x =? a)%N then b else x) s.

(** [re.sub(r'[\s\u00a0]+', '', s)]: every run of white space goes. *)
Definition remove_spaces (s : text) : text :=
  filter (fun x => negb (is_space x || (x =? 160)%N)) s.

(** [s.rfind(c)]: the last index of [c], or [-1]. *)
Fixpoint rfind_from (c : code) (s : text) (i : Z) (last : Z) : Z :=
  match s with
  | [] => last
  | x :: s' => rfind_from c s' (i + 1) (if (x =? c)%N then i else last)
  end.
Definition rfind (c : code) (s : text) : Z := rfind_from c s 0 (-1).

(** [s.split(c)] *)
Fixpoint split_on (c : code) (s : text) : list text :=
  match s with
  | [] => [[]]
  | x :: s' =>
      match split_on c s' with
      | [] => [[]]
      | w :: ws => if (x =? c)%N then [] :: w :: ws else (x :: w) :: ws
      end
  end.

Definition lstrip_by (p : code -> bool) (s : text) : text :=
  (fix go (s : text) : text :=
     match s with
     | x :: s' => if p x then go s' else s
     | [] => []
     end) s.

Definition strip_by (p : code -> bool) (s : text) : text :=
  rev (lstrip_by p (rev (lstrip_by p s))).

(** [s.strip()] *)
Definition strip (s : text) : text := strip_by is_space s.

(** [s[a:b]] with [0 <= a] *)
Definition slice (a b : nat) (s : text) : text := firstn (b - a) (skipn a s).

(** [s.zfill(2)] for an unsigned string *)
Definition zfill2 (s : text) : text :=
  match s with
  | [] => [48; 48]%N
  | [c] => [48%N; c]
  | _ => s
  end.

(** Truth value of a string: the empty string is false. *)
Definition truthy (s : text) : bool :=
  match s with [] => false | _ => true end.

(** ** [int] and [str(int)] *)

Definition digit_val (c : code) : Z := Z.of_N (c - 48).

Definition digits_val (ds : text) : Z :=
  fold_left (fun acc c => 10 * acc + digit_val c) ds 0.

(** digit (["_"] digit)*: the digits read and what is left. *)
Fixpoint digitpart (s : text) : text * text :=
  match s with
  | c :: s' =>
      if is_digit c then
        match s' with
        | 95%N :: ((d :: _) as s'') =>
            if is_digit d then
              let (ds, r) := digitpart s'' in (c :: ds, r)
            else ([c], s')
        | _ => let (ds, r) := digitpart s' in (c :: ds, r)
        end
      else ([], s)
  | [] => ([], [])
  end.

Definition split_sign (s : text) : bool * text :=
  match s with
  | 43%N :: r => (false, r)
  | 45%N :: r => (true, r)
  | _ => (false, s)
  end.

(** [int(s)] on a string *)
Definition py_int (s : text) : result Z :=
  let (neg, r) := split_sign (strip s) in
  match digitpart r with
  | (d :: ds, []) =>
      let v := digits_val (d :: ds) in Ok (if neg then - v else v)
  | _ => Raise ValueError
  end.

Fixpoint pos_digits (fuel : nat) (n : Z) (acc : text) : text :=
  match fuel with
  | O => acc
  | S f =>
      let acc' := (Z.to_N (n mod 10) + 48)%N :: acc in
      if n <? 10 then acc' else pos_digits f (n / 10) acc'
  end.

(** [str(n)] *)
Definition str_of_Z (n : Z) : text :=
  if n <? 0
  then 45%N :: pos_digits (S (Z.to_nat (Z.log2 (- n)))) (- n) []
  else pos_digits (S (Z.to_nat (Z.log2 n))) n [].

(** ** [float] *)

Inductive pyfloat :=
| Fin (q : Q)
| Inf (negative : bool)
| NaN.

(** The number [m * 10^e], in lowest terms. *)
Definition decimal (m e : Z) : Q :=
  if 0 <=? e then Qred (Qmake (m * 10 ^ e) 1)
  else Qred (Qmake m (Z.to_pos (10 ^ (- e)))).

Definition zero : pyfloat := Fin (decimal 0 0).

(** [(e|E) [sign] digitpart], when present *)
Definition exponent (s : text) : option (Z * text) :=
  match s with
  | c :: r =>
      if (c =? 101)%N || (c =? 69)%N then
        let (neg, r1) := split_sign r in
        match digitpart r1 with
        | (d :: ds, r2) =>
            let v := digits_val (d :: ds) in
            Some (if neg then - v else v, r2)
        | _ => None
        end
      else None
  | [] => None
  end.

(** [float(s)] on a string: white space is stripped, then
    [sign] ("inf" | "infinity" | "nan" | number [exponent]). *)
Definition py_float (s : text) : result pyfloat :=
  let (neg, r) := split_sign (strip s) in
  let low := lower r in
  if text_eqb low (u "inf") || text_eqb low (u "infinity") then Ok (Inf neg)
  else if text_eqb low (u "nan") then Ok NaN
  else
    let (ip, r1) := digitpart r in
    let (fp, r2) :=
      match r1 with
      | 46%N :: r' => digitpart r'
      | _ => ([], r1)
      end in
    match ip ++ fp with
    | [] => Raise ValueError
    | ds =>
        let (ex, r3) :=
          match exponent r2 with
          | Some (e, r') => (e, r')
          | None => (0, r2)
          end in
        match r3 with
        | [] =>
            let m := digits_val ds in
            Ok (Fin (decimal (if neg then - m else m)
                             (ex - Z.of_nat (length fp))))
        | _ => Raise ValueError
        end
    end.

(** Comparisons of a float with a number; a NaN compares false. *)
Definition flt_gt (x : pyfloat) (q : Q) : bool :=
  match x with
  | Fin v => negb (Qle_bool v q)
  | Inf negative => negb negative
  | NaN => false
  end.

Definition flt_le (x : pyfloat) (q : Q) : bool :=
  match x with
  | Fin v => Qle_bool v q
  | Inf negative => negative
  | NaN => false
  end.

Definition flt_ge (x : pyfloat) (q : Q) : bool :=
  match x with
  | Fin v => Qle_bool q v
  | Inf negative => negb negative
  | NaN => false
  end.

(** Truth value of a float: zero is false. *)
Definition flt_truthy (x : pyfloat) : bool :=
  match x with
  | Fin v => negb (Qeq_bool v 0)
  | _ => true
  end.

(** ** [datetime.date]

    The proleptic Gregorian calendar of CPython's [datetime]: years 1 to
    9999, [toordinal] counts days from 0001-01-01 = 1. *)

Record date := mkdate { year_of : Z; month_of : Z; day_of : Z }.

Definition is_leap (y : Z) : bool :=
  (y mod 4 =? 0) && (negb (y mod 100 =? 0) || (y mod 400 =? 0)).

Definition days_in_month (y m : Z) : Z :=
  if m =? 2 then (if is_leap y then 29 else 28)
  else if (m =? 4) || (m =? 6) || (m =? 9) || (m =? 11) then 30
  else 31.

Definition days_before_year (y : Z) : Z :=
  let p := y - 1 in p * 365 + p / 4 - p / 100 + p / 400.

Definition days_before_month (y m : Z) : Z :=
  match m with
  | 1 => 0 | 2 => 31 | 3 => 59 | 4 => 90 | 5 => 120 | 6 => 151
  | 7 => 181 | 8 => 212 | 9 => 243 | 10 => 273 | 11 => 304 | _ => 334
  end + (if (2 <? m) && is_leap y then 1 else 0).

Definition valid_date (y m d : Z) : bool :=
  (1 <=? y) && (y <=? 9999) && (1 <=? m) && (m <=? 12)
  && (1 <=? d) && (d <=? days_in_month y m).

(** [datetime(y, m, d).date()] *)
Definition make_date (y m d : Z) : result date :=
  if valid_date y m d then Ok (mkdate y m d) else Raise ValueError.

Definition toordinal (t : date) : Z :=
  days_before_year (year_of t)
  + days_before_month (year_of t) (month_of t) + day_of t.

(** [(a - b).days] *)
Definition days_between (a b : date) : Z := toordinal a - toordinal b.

(** ** The [re] module

    Patterns are parsed from the text of the source ([compile]) and run
    by a backtracking matcher with the priorities of CPython's engine:
    alternatives left to right, greedy repetition longest first, lazy
    repetition shortest first.  Supported: literals, [.], classes with
    ranges and [\d \s \w], groups, [(?:...)], [|], the quantifiers
    [* + ? {m} {m,} {m,n}] and their lazy forms, [^], [$], and a
    look-behind on one character class.  Every repeated sub-pattern of
    the sources consumes input, and an iteration is required to. *)

Inductive citem :=
| CChar (c : code)
| CRange (lo hi : code)
| CDigit
| CSpace
| CWord.

Inductive regex :=
| REmpty
| RChar (c : code)
| RAny
| RSet (negated : bool) (items : list citem)
| RCat (a b : regex)
| RAlt (a b : regex)
| RRep (a : regex) (lo : nat) (hi : option nat) (greedy : bool)
| RGroup (k : nat) (a : regex)
| RBol
| REol
| RBehind (negated : bool) (items : list citem).

Definition item_has (it : citem) (x : code) : bool :=
  match it with
  | CChar c => (x =? c)%N
  | CRange lo hi => between lo hi x
  | CDigit => is_digit x
  | CSpace => is_space x
  | CWord => is_word x
  end.

(** Membership in a class; under IGNORECASE the other case of the
    character counts too. *)
Definition set_has (ic : bool) (items : list citem) (x : code) : bool :=
  existsb (fun it =>
             item_has it x
             || (ic && (item_has it (lower_code x)
                        || item_has it (upper_code x)))) items.

Definition char_eq (ic : bool) (c x : code) : bool :=
  if ic then (lower_code c =? lower_code x)%N else (c =? x)%N.

(** Captured groups, the latest binding first: the number of the group,
    how much text was left where it began, and the text it took. *)
Definition caps := list (nat * (nat * text)).

Fixpoint cap_get (k : nat) (cs : caps) : option (nat * text) :=
  match cs with
  | [] => None
  | (j, w) :: cs' => if (j =? k)%nat then Some w else cap_get k cs'
  end.

(** A matcher state: the character before the cursor, the text from the
    cursor on, the groups so far. *)
Definition cont := option code -> text -> caps -> option (caps * text).
Definition matcher :=
  option code -> text -> caps -> cont -> option (caps * text).

Fixpoint rep_loop (step : matcher) (fuel lo : nat) (hi : option nat)
    (greedy : bool) (prev : option code) (s : text) (cs : caps) (k : cont)
    : option (caps * text) :=
  match fuel with
  | O => None
  | S f =>
      if greedy then
        match
          match hi with
          | Some O => None
          | _ =>
              step prev s cs (fun p' s' cs' =>
                if (length s' <? length s)%nat
                then rep_loop step f (pred lo) (option_map pred hi)
                              greedy p' s' cs' k
                else None)
          end
        with
        | Some x => Some x
        | None => match lo with O => k prev s cs | S _ => None end
        end
      else
        match (match lo with O => k prev s cs | S _ => None end) with
        | Some x => Some x
        | None =>
            match hi with
            | Some O => None
            | _ =>
                step prev s cs (fun p' s' cs' =>
                  if (length s' <? length s)%nat
                  then rep_loop step f (pred lo) (option_map pred hi)
                                greedy p' s' cs' k
                  else None)
            end
        end
  end.

(** Where [$] matches: at the end, or before a last line feed. *)
Definition at_end (s : text) : bool :=
  match s with
  | [] => true
  | [x] => (x =? 10)%N
  | _ => false
  end.

Fixpoint rmatch (ic : bool) (r : regex) (prev : option code) (s : text)
    (cs : caps) (k : cont) {struct r} : option (caps * text) :=
  match r with
  | REmpty => k prev s cs
  | RChar c =>
      match s with
      | x :: s' => if char_eq ic c x then k (Some x) s' cs else None
      | [] => None
      end
  | RAny =>
      match s with
      | x :: s' => if (x =? 10)%N then None else k (Some x) s' cs
      | [] => None
      end
  | RSet negated items =>
      match s with
      | x :: s' =>
          if xorb negated (set_has ic items x) then k (Some x) s' cs
          else None
      | [] => None
      end
  | RCat a b =>
      rmatch ic a prev s cs (fun p' s' cs' => rmatch ic b p' s' cs' k)
  | RAlt a b =>
      match rmatch ic a prev s cs k with
      | Some x => Some x
      | None => rmatch ic b prev s cs k
      end
  | RRep a lo hi greedy =>
      rep_loop (rmatch ic a) (S (length s)) lo hi greedy prev s cs k
  | RGroup n a =>
      rmatch ic a prev s cs (fun p' s' cs' =>
        k p' s' ((n, (length s, firstn (length s - length s') s)) :: cs'))
  | RBol => match prev with None => k prev s cs | Some _ => None end
  | REol => if at_end s then k prev s cs else None
  | RBehind negated items =>
      match prev with
      | Some c =>
          if xorb negated (set_has ic items c) then k prev s cs else None
      | None => if negated then k prev s cs else None
      end
  end.

(** What a successful run of [rmatch] has read: [matches ic r p s cs
    p' s' cs'] says that [r] takes the text from [s] to its suffix [s'],
    with [p] and [p'] the characters before the cursor and the groups
    growing from [cs] to [cs']. *)
Inductive matches (ic : bool) :
  regex -> option code -> text -> caps ->
  option code -> text -> caps -> Prop :=
| M_empty : forall p s cs, matches ic REmpty p s cs p s cs
| M_char : forall c x p s cs,
    char_eq ic c x = true ->
    matches ic (RChar c) p (x :: s) cs (Some x) s cs
| M_any : forall x p s cs,
    (x =? 10)%N = false ->
    matches ic RAny p (x :: s) cs (Some x) s cs
| M_set : forall negated items x p s cs,
    xorb negated (set_has ic items x) = true ->
    matches ic (RSet negated items) p (x :: s) cs (Some x) s cs
| M_cat : forall a b p s cs p1 s1 cs1 p2 s2 cs2,
    matches ic a p s cs p1 s1 cs1 ->
    matches ic b p1 s1 cs1 p2 s2 cs2 ->
    matches ic (RCat a b) p s cs p2 s2 cs2
| M_alt_l : forall a b p s cs p' s' cs',
    matches ic a p s cs p' s' cs' ->
    matches ic (RAlt a b) p s cs p' s' cs'
| M_alt_r : forall a b p s cs p' s' cs',
    matches ic b p s cs p' s' cs' ->
    matches ic (RAlt a b) p s cs p' s' cs'
| M_rep_stop : forall a hi greedy p s cs,
    matches ic (RRep a 0 hi greedy) p s cs p s cs
| M_rep_more : forall a lo hi greedy p s cs p1 s1 cs1 p2 s2 cs2,
    hi <> Some 0%nat ->
    matches ic a p s cs p1 s1 cs1 ->
    (length s1 < length s)%nat ->
    matches ic (RRep a (pred lo) (option_map pred hi) greedy)
            p1 s1 cs1 p2 s2 cs2 ->
    matches ic (RRep a lo hi greedy) p s cs p2 s2 cs2
| M_group : forall n a p s cs p' s' cs',
    matches ic a p s cs p' s' cs' ->
    matches ic (RGroup n a) p s cs p' s'
            ((n, (length s, firstn (length s - length s') s)) :: cs')
| M_bol : forall s cs, matches ic RBol None s cs None s cs
| M_eol : forall p s cs,
    at_end s = true -> matches ic REol p s cs p s cs
| M_behind : forall negated items c s cs,
    xorb negated (set_has ic items c) = true ->
    matches ic (RBehind negated items) (Some c) s cs (Some c) s cs
| M_behind_start : forall items s cs,
    matches ic (RBehind true items) None s cs None s cs.

(** Patterns without a group. *)
Fixpoint group_free (r : regex) : bool :=
  match r with
  | RCat a b | RAlt a b => group_free a && group_free b
  | RRep a _ _ _ => group_free a
  | RGroup _ _ => false
  | _ => true
  end.

(** A match object. *)
Record rmatch_obj := mkmatch {
  m_start : nat;
  m_end : nat;
  m_text : text;       (* group(0) *)
  m_caps : caps
}.

(** [m.group(k)]; [None] when the group took no part in the match. *)
Definition group (m : rmatch_obj) (k : nat) : option text :=
  option_map snd (cap_get k (m_caps m)).

(** [m.start(k)] in a text of [n] characters *)
Definition group_start (n : nat) (m : rmatch_obj) (k : nat) : nat :=
  match cap_get k (m_caps m) with
  | Some (remaining, _) => (n - remaining)%nat
  | None => 0%nat
  end.

(** [a or b] on groups: the first that is neither [None] nor empty. *)
Definition group_or (a b : option text) : option text :=
  match a with
  | Some (c :: w) => Some (c :: w)
  | _ => b
  end.

(** One attempt at the cursor. *)
Definition match_here (ic : bool) (r : regex) (prev : option code)
    (s : text) (pos : nat) : option rmatch_obj :=
  match rmatch ic r prev s [] (fun _ s' cs => Some (cs, s')) with
  | Some (cs, s') =>
      let n := (length s - length s')%nat in
      Some (mkmatch pos (pos + n) (firstn n s) cs)
  | None => None
  end.

Fixpoint search_from (ic : bool) (r : regex) (prev : option code)
    (s : text) (pos : nat) : option rmatch_obj :=
  match match_here ic r prev s pos with
  | Some m => Some m
  | None =>
      match s with
      | [] => None
      | x :: s' => search_from ic r (Some x) s' (S pos)
      end
  end.

(** [re.search(r, s)] and [re.search(r, s, re.IGNORECASE)] *)
Definition search (ic : bool) (r : regex) (s : text) : option rmatch_obj :=
  search_from ic r None s 0.

(** [re.match(r, s)] *)
Definition match_start (ic : bool) (r : regex) (s : text)
    : option rmatch_obj :=
  match_here ic r None s 0.

Definition last_code (prev : option code) (w : text) : option code :=
  match rev w with
  | c :: _ => Some c
  | [] => prev
  end.

(** [re.finditer(r, s)]: the matches from left to right, the next
    search starting where the last match ended. *)
Fixpoint finditer_from (fuel : nat) (ic : bool) (r : regex)
    (prev : option code) (s : text) (pos : nat) : list rmatch_obj :=
  match fuel with
  | O => []
  | S f =>
      match search_from ic r prev s pos with
      | None => []
      | Some m =>
          let rest := skipn (m_end m - pos) s in
          match m_text m, rest with
          | [], [] => [m]
          | [], x :: rest' =>
              m :: finditer_from f ic r (Some x) rest' (S (m_end m))
          | _ :: _, _ =>
              m :: finditer_from f ic r
                     (last_code prev (firstn (m_end m - pos) s))
                     rest (m_end m)
          end
      end
  end.

Definition finditer (ic : bool) (r : regex) (s : text) : list rmatch_obj :=
  finditer_from (S (length s)) ic r None s 0.

(** A group as [re.findall] returns it: the empty string when the group
    took no part. *)
Definition group_str (m : rmatch_obj) (k : nat) : text :=
  match group m k with
  | Some w => w
  | None => []
  end.

(** *** Reading a pattern *)

Definition hex_val (c : code) : option N :=
  if is_digit c then Some (c - 48)%N
  else if between 97 102 c then Some (c - 87)%N
  else if between 65 70 c then Some (c - 55)%N
  else None.

(** The item an escape [\c] stands for. *)
Definition escape_item (c : code) : option citem :=
  if (c =? 100)%N then Some CDigit
  else if (c =? 115)%N then Some CSpace
  else if (c =? 119)%N then Some CWord
  else if (c =? 110)%N then Some (CChar 10)
  else if (c =? 116)%N then Some (CChar 9)
  else if (c =? 114)%N then Some (CChar 13)
  else if is_digit c || between 65 90 c || between 97 122 c then None
  else Some (CChar c).

(** An escape at the head of [s] (after the backslash). *)
Definition read_escape (s : text) : option (citem * text) :=
  match s with
  | 117%N :: a :: b :: c :: d :: s' =>
      match hex_val a, hex_val b, hex_val c, hex_val d with
      | Some x, Some y, Some z, Some w =>
          Some (CChar (((x * 16 + y) * 16 + z) * 16 + w)%N, s')
      | _, _, _, _ => None
      end
  | c :: s' =>
      match escape_item c with
      | Some it => Some (it, s')
      | None => None
      end
  | [] => None
  end.

(** The items of a class, up to the closing bracket. *)
Fixpoint read_class (fuel : nat) (s : text) (first : bool)
    : option (list citem * text) :=
  match fuel with
  | O => None
  | S f =>
      match s with
      | [] => None
      | 93%N :: s' =>
          if first then
            match read_class f s' false with
            | Some (its, r) => Some (CChar 93 :: its, r)
            | None => None
            end
          else Some ([], s')
      | 92%N :: s' =>
          match read_escape s' with
          | Some (it, r) =>
              match read_class f r false with
              | Some (its, r') => Some (it :: its, r')
              | None => None
              end
          | None => None
          end
      | a :: 45%N :: b :: s' =>
          if (b =? 93)%N then
            match read_class f (45%N :: b :: s') false with
            | Some (its, r) => Some (CChar a :: its, r)
            | None => None
            end
          else if (b =? 92)%N then None
          else
            match read_class f s' false with
            | Some (its, r) => Some (CRange a b :: its, r)
            | None => None
            end
      | a :: s' =>
          match read_class f s' false with
          | Some (its, r) => Some (CChar a :: its, r)
          | None => None
          end
      end
  end.

Definition read_set (s : text) : option (bool * list citem * text) :=
  match s with
  | 94%N :: s' =>
      match read_class (S (length s')) s' true with
      | Some (its, r) => Some (true, its, r)
      | None => None
      end
  | _ =>
      match read_class (S (length s)) s true with
      | Some (its, r) => Some (false, its, r)
      | None => None
      end
  end.

Definition read_nat (s : text) : option (nat * text) :=
  match digitpart s with
  | (d :: ds, r) => Some (Z.to_nat (digits_val (d :: ds)), r)
  | _ => None
  end.

(** The bounds of a quantifier at the head of [s]. *)
Definition read_bounds (s : text) : option (nat * option nat * text) :=
  match s with
  | 42%N :: r => Some (0%nat, None, r)
  | 43%N :: r => Some (1%nat, None, r)
  | 63%N :: r => Some (0%nat, Some 1%nat, r)
  | 123%N :: r =>
      match read_nat r with
      | Some (lo, 125%N :: r') => Some (lo, Some lo, r')
      | Some (lo, 44%N :: 125%N :: r') => Some (lo, None, r')
      | Some (lo, 44%N :: r') =>
          match read_nat r' with
          | Some (hi, 125%N :: r'') => Some (lo, Some hi, r'')
          | _ => None
          end
      | _ => None
      end
  | _ => None
  end.

Definition quantify (a : regex) (s : text) : regex * text :=
  match read_bounds s with
  | Some (lo, hi, 63%N :: r) => (RRep a lo hi false, r)
  | Some (lo, hi, r) => (RRep a lo hi true, r)
  | None => (a, s)
  end.

Definition cat (a b : regex) : regex :=
  match b with
  | REmpty => a
  | _ => RCat a b
  end.

Definition item_regex (it : citem) : regex :=
  match it with
  | CChar c => RChar c
  | _ => RSet false [it]
  end.

(** alternatives, sequences and atoms; [n] is the number of groups
    opened so far. *)
Fixpoint read_alt (fuel : nat) (s : text) (n : nat)
    : option (regex * text * nat) :=
  match fuel with
  | O => None
  | S f =>
      match read_seq f s n with
      | Some (a, 124%N :: s', n') =>
          match read_alt f s' n' with
          | Some (b, s'', n'') => Some (RAlt a b, s'', n'')
          | None => None
          end
      | other => other
      end
  end
with read_seq (fuel : nat) (s : text) (n : nat)
    : option (regex * text * nat) :=
  match fuel with
  | O => None
  | S f =>
      match s with
      | [] => Some (REmpty, [], n)
      | c :: _ =>
          if (c =? 124)%N || (c =? 41)%N then Some (REmpty, s, n)
          else
            match read_atom f s n with
            | Some (a, s1, n1) =>
                let (a', s2) := quantify a s1 in
                match read_seq f s2 n1 with
                | Some (b, s3, n3) => Some (cat a' b, s3, n3)
                | None => None
                end
            | None => None
            end
      end
  end
with read_atom (fuel : nat) (s : text) (n : nat)
    : option (regex * text * nat) :=
  match fuel with
  | O => None
  | S f =>
      match s with
      | 40%N :: 63%N :: 58%N :: s' =>
          match read_alt f s' n with
          | Some (a, 41%N :: s'', n') => Some (a, s'', n')
          | _ => None
          end
      | 40%N :: 63%N :: 60%N :: 61%N :: 91%N :: s' =>
          match read_set s' with
          | Some (false, its, 41%N :: r) => Some (RBehind false its, r, n)
          | _ => None
          end
      | 40%N :: 63%N :: 60%N :: 33%N :: 91%N :: s' =>
          match read_set s' with
          | Some (false, its, 41%N :: r) => Some (RBehind true its, r, n)
          | _ => None
          end
      | 40%N :: 63%N :: _ => None
      | 40%N :: s' =>
          match read_alt f s' (S n) with
          | Some (a, 41%N :: s'', n') => Some (RGroup (S n) a, s'', n')
          | _ => None
          end
      | 91%N :: s' =>
          match read_set s' with
          | Some (negated, its, r) => Some (RSet negated its, r, n)
          | None => None
          end
      | 92%N :: s' =>
          match read_escape s' with
          | Some (it, r) => Some (item_regex it, r, n)
          | None => None
          end
      | 46%N :: s' => Some (RAny, s', n)
      | 94%N :: s' => Some (RBol, s', n)
      | 36%N :: s' => Some (REol, s', n)
      | c :: s' =>
          if (c =? 42)%N || (c =? 43)%N || (c =? 63)%N || (c =? 123)%N
          then None
          else Some (RChar c, s', n)
      | [] => None
      end
  end.

(** [re.compile] of a pattern of the sources; a pattern outside the
    supported syntax compiles to one that matches nothing. *)
Definition compile (pattern : string) : regex :=
  let s := u pattern in
  match read_alt (3 * S (length s)) s 0 with
  | Some (r, [], _) => r
  | _ => RSet false []
  end.

(** [re.escape(w)] as a pattern: the literal text [w]. *)
Fixpoint literal (w : text) : regex :=
  match w with
  | [] => REmpty
  | [c] => RChar c
  | c :: w' => RCat (RChar c) (literal w')
  end.

(** ** [datetime.strptime(s, '%Y-%m-%d')]

    [_strptime] turns the format into the pattern below, matches it at
    the start of [s], refuses data left over, and builds the date. *)

Definition strptime_re : regex :=
  Eval vm_compute in
  compile "(\d\d\d\d)-(1[0-2]|0[1-9]|[1-9])-(3[01]|[12]\d|0[1-9]|[1-9]| [1-9])".

Definition strptime_ymd (s : text) : result date :=
  match match_start true strptime_re s with
  | Some m =>
      if (m_end m =? length s)%nat then
        bind (py_int (group_str m 1)) (fun y =>
        bind (py_int (group_str m 2)) (fun mo =>
        bind (py_int (group_str m 3)) (fun d =>
        make_date y mo d)))
      else Raise ValueError
  | None => Raise ValueError
  end.

End Py.

(* ================================================================== *)
(** * Part II. [email-classifier.py]: class [AirbnbEmailClassifier]    *)
(* ================================================================== *)

Module EmailClassifier.
Import Py.

(** ** Values and the [data] dictionary of [extract_booking_data] *)

Inductive pyval :=
| VNone
| VStr (s : text)
| VInt (n : Z)
| VFloat (x : pyfloat).

(** Truth value, as [if data.get(k):] reads it. *)
Definition val_truthy (v : pyval) : bool :=
  match v with
  | VNone => false
  | VStr s => truthy s
  | VInt n => negb (n =? 0)
  | VFloat x => flt_truthy x
  end.

(** The keys [extract_booking_data] writes. *)
Inductive key :=
| emailType | bookingCode | guestName | amount | currency
| checkInDate | checkOutDate | nights
| guestTotalEur | hostEarningsEur | cleaningFeeEur | nightlyRateEur
| serviceFeeEur | propertyTaxEur
| guestTotalSek | hostEarningsSek | cleaningFeeSek | serviceFeeSek
| guestCount
| originalCheckInDate | originalCheckOutDate.

Scheme Equality for key.

(** A dictionary over these keys; [data.get(k)] is application, an
    absent key reads [VNone]. *)
Definition dict := key -> pyval.

Definition set (k : key) (v : pyval) (d : dict) : dict :=
  fun k' => if key_beq k k' then v else d k'.

Definition has (d : dict) (k : key) : bool := val_truthy (d k).

(** The seven email types the classifier and its callers know. *)
Definition booking_confirmation := u "booking_confirmation".
Definition booking_reminder := u "booking_reminder".
Definition payout := u "payout".
Definition cancellation := u "cancellation".
Definition change_request := u "change_request".
Definition modification := u "modification".

(** ** [self.patterns] and the patterns written in line

    The dictionary is the one [__init__] builds; [save_model] pickles it
    and [load_model] restores it. *)

Definition pat_booking_code : regex :=
  Eval vm_compute in compile
  "HM[A-Z0-9]{8,}".

Definition pat_amount_sek : regex :=
  Eval vm_compute in compile
  "([\d]{1,3}(?:[\s\u00a0,]\d{3})*(?:[.,]\d{2})?)[\s\u00a0]*kr".

Definition pat_amount_eur : regex :=
  Eval vm_compute in compile
  "€\s*([\d\s,]+)".

Definition pat_guest_name_confirmation_0 : regex :=
  Eval vm_compute in compile
  "Bokning bekräftad - (.+?) anländer".

Definition pat_guest_name_confirmation_1 : regex :=
  Eval vm_compute in compile
  "bokning.*?bekräftad.*?([A-ZÅÄÖ][a-zåäöA-ZÅÄÖ\s]+?) anländer".

Definition pat_guest_name_confirmation_2 : regex :=
  Eval vm_compute in compile
  "([A-ZÅÄÖ][a-zåäöA-ZÅÄÖ\s]+?) anländer".

Definition pat_guest_name_confirmation_3 : regex :=
  Eval vm_compute in compile
  "bekräftad.*?([A-ZÅÄÖ][a-zåäöA-ZÅÄÖ\s]{3,}?) anländer".

Definition pat_guest_name_confirmation_4 : regex :=
  Eval vm_compute in compile
  "Reservation confirmed - (.+?) arrives".

Definition pat_guest_name_confirmation_5 : regex :=
  Eval vm_compute in compile
  "confirmed.*?([A-Z][a-zA-Z\s]+?) arrives".

Definition pat_guest_name_confirmation_6 : regex :=
  Eval vm_compute in compile
  "([A-Z][a-zA-Z\s]+?) arrives".

Definition pat_guest_name_confirmation_7 : regex :=
  Eval vm_compute in compile
  "bekräftelse.*?([A-ZÅÄÖ][a-zåäöA-ZÅÄÖ\s]{3,}?) anländer".

Definition pat_guest_name_confirmation_8 : regex :=
  Eval vm_compute in compile
  "(.+?) anländer.*?bekräftad".

Definition pat_guest_name_confirmation_9 : regex :=
  Eval vm_compute in compile
  "reservation.*?confirmed.*?([A-Z][a-zA-Z\s]{3,}?) arrives".

Definition pat_private_booking_patterns_0 : regex :=
  Eval vm_compute in compile
  "Bokning bekräftad för (.+)".

Definition pat_private_booking_patterns_1 : regex :=
  Eval vm_compute in compile
  "Reservation confirmed for (.+)".

Definition pat_private_booking_patterns_2 : regex :=
  Eval vm_compute in compile
  "bekräftad för (.+)".

Definition pat_guest_name_reminder_0 : regex :=
  Eval vm_compute in compile
  "Bokningspåminnelse: (.+?) anländer".

Definition pat_guest_name_reminder_1 : regex :=
  Eval vm_compute in compile
  "påminnelse.*?([A-ZÅÄÖ][a-zåäöA-ZÅÄÖ\s]+?) anländer".

Definition pat_swedish_date : regex :=
  Eval vm_compute in compile
  "(\d{1,2})\s+(jan|feb|mar|apr|maj|jun|jul|aug|sep|okt|nov|dec)".

Definition pat_date_range : regex :=
  Eval vm_compute in compile
  "(\d{1,2})–(\d{1,2})\s+(jan|feb|mar|apr|maj|jun|jul|aug|sep|okt|nov|dec)".

Definition pat_nights : regex :=
  Eval vm_compute in compile
  "(?:Antal nätter|nätter?):\s*(\d+)|(\d+)\s+nätter?".

Definition pat_change_request_guest : regex :=
  Eval vm_compute in compile
  "^(.+?)\s+vill ändra".

Definition pat_original_dates_pattern : regex :=
  Eval vm_compute in compile
  "URSPRUNGLIGA DATUM\s*(\d{1,2}\s+\w+\.?\s+\d{4})\s*-\s*(\d{1,2}\s+\w+\.?\s+\d{4})".

Definition pat_requested_dates_pattern : regex :=
  Eval vm_compute in compile
  "EFTERFRÅGADE DATUM\s*(\d{1,2}\s+\w+\.?\s+\d{4})\s*-\s*(\d{1,2}\s+\w+\.?\s+\d{4})".

Definition pat_modification_guest : regex :=
  Eval vm_compute in compile
  "(?:DIN BOKNING MED (.+?) HAR UPPDATERATS|Din bokning med (.+?) har uppdaterats)".

Definition pat_booking_code_url : regex :=
  Eval vm_compute in compile
  "/details/([A-Z0-9]{10})".

Definition pat_nightly_rate_eur : regex :=
  Eval vm_compute in compile
  "€\s*([\d\s,]+)\s*x\s*\d+\s*nätter".

Definition pat_guest_total_eur : regex :=
  Eval vm_compute in compile
  "(?:TOTALT\s*\([^\)]*\)|Gästens totala kostnad|Guest total|Total)\s*:?\s*€\s*([\d\s,]+)".

Definition pat_host_earnings_eur : regex :=
  Eval vm_compute in compile
  "(?:du tjänar|dina intäkter|your earnings|host earnings|Du tjänar|Dina intäkter)(?:\s*:?\s*\n?\s*€\s*([\d\s,.]+)|[^€]*?€\s*([\d\s,.]+)|\s*\n\s*€\s*([\d\s,.]+))".

Definition pat_host_earnings_sek : regex :=
  Eval vm_compute in compile
  "(?:du tjänar|dina intäkter|your earnings|host earnings|Du tjänar|Dina intäkter)(?:\s*:?\s*\n?\s*([\d\s,.]+)\s*kr|[^0-9]*?([\d\s,.]+)\s*kr|\s*\n\s*([\d\s,.]+)\s*kr)".

Definition pat_host_earnings_2020_sek : regex :=
  Eval vm_compute in compile
  "Utbetalning\s+([\d\s,.]+)\s*kr\s+SEK.*?Nätter\s+([\d\s,.]+)\s*kr\s+SEK".

Definition pat_guest_total_2020_sek : regex :=
  Eval vm_compute in compile
  "Totalt\s+([\d\s,.]+)\s*kr\s+SEK".

Definition pat_cleaning_fee_2020_sek : regex :=
  Eval vm_compute in compile
  "Städavgift\s+([\d\s,.]+)\s*kr\s+SEK".

Definition pat_service_fee_2020_sek : regex :=
  Eval vm_compute in compile
  "Serviceavgift\s+(?:−)?([\d\s,.]+)\s*kr\s+SEK".

Definition pat_host_earnings_2020_sek_en : regex :=
  Eval vm_compute in compile
  "(?:Payout|Earnings)\s+([\d\s,.]+)\s*kr\s+SEK.*?(?:nights?|Nights?)\s+([\d\s,.]+)\s*kr\s+SEK".

Definition pat_guest_total_2020_sek_en : regex :=
  Eval vm_compute in compile
  "Total\s+([\d\s,.]+)\s*kr\s+SEK".

Definition pat_cleaning_fee_2020_sek_en : regex :=
  Eval vm_compute in compile
  "Cleaning fee\s+([\d\s,.]+)\s*kr\s+SEK".

Definition pat_service_fee_2020_sek_en : regex :=
  Eval vm_compute in compile
  "Service fee\s+(?:−)?([\d\s,.]+)\s*kr\s+SEK".

Definition pat_host_earnings_table : regex :=
  Eval vm_compute in compile
  "€[^\d]*?([\d\s,]+)(?:\s*\n[^\n]*?€[^\d]*?([\d\s,]+)){3,}".

Definition pat_cleaning_fee_eur : regex :=
  Eval vm_compute in compile
  "(?:Städavgift|Cleaning fee)\s*:?\s*€\s*([\d\s,]+)".

Definition pat_service_fee_eur : regex :=
  Eval vm_compute in compile
  "(?:Serviceavgift för värdar|Serviceavgift|Service fee)[^€]*€\s*([\d\s,]+)".

Definition pat_property_tax_eur : regex :=
  Eval vm_compute in compile
  "(?:Fastighetsskatter|Property tax)\s*:?\s*€\s*([\d\s,]+)".

Definition pat_checkin_date : regex :=
  Eval vm_compute in compile
  "(?:Incheckning|Inch[eé�\ufffd]ckning)\s*:?\s*(\w{3})\s+(\d{1,2})\s+(\w+)\.?\s*(?:(\d{4}))?".

Definition pat_checkout_date : regex :=
  Eval vm_compute in compile
  "(?:Utcheckning)\s*:?\s*(\w{3})\s+(\d{1,2})\s+(\w+)\.?\s*(?:(\d{4}))?".

Definition pat_checkin_checkout_combined : regex :=
  Eval vm_compute in compile
  "(?:Incheckning|Inch[eé�\ufffd]ckning)\s+(?:Utcheckning\s+)?(\w{3})\s+(\d{1,2})\s+(\w+)\.?\s*(?:(\d{4}))?\s+(\w{3})\s+(\d{1,2})\s+(\w+)\.?\s*(?:(\d{4}))?".

Definition pat_date_pair_pattern : regex :=
  Eval vm_compute in compile
  "([a-zA-ZÅÄÖåäö]{3})\s+(\d{1,2})\s+(jan|feb|mar|apr|maj|jun|jul|aug|sep|okt|nov|dec|januari|februari|mars|april|maj|juni|juli|augusti|september|oktober|november|december)\.?\s*(?:(\d{4}))?\s*(?:[-–]\s*|till\s*|to\s*)?([a-zA-ZÅÄÖåäö]{3})?\s*(\d{1,2})\s+(jan|feb|mar|apr|maj|jun|jul|aug|sep|okt|nov|dec|januari|februari|mars|april|maj|juni|juli|augusti|september|oktober|november|december)\.?\s*(?:(\d{4}))?".

Definition pat_guest_count : regex :=
  Eval vm_compute in compile
  "(?:Antal gäster|Number of guests|gäster):\s*(\d+)|(\d+)\s+(?:vuxna|adults|gäster)".

Definition parse_swedish_date_re : regex :=
  Eval vm_compute in compile
  "(\d{1,2})\s+(\w+)\.?\s+(\d{4})".

Definition subject_date_sv_re : regex :=
  Eval vm_compute in compile
  "anländer (\d{1,2}) ([a-zåäö]+)".

Definition subject_date_en_re : regex :=
  Eval vm_compute in compile
  "arrives ([a-z]+) (\d{1,2})".

Definition all_dates_pattern : regex :=
  Eval vm_compute in compile
  "(\d{1,2})\s+(jan|feb|mar|apr|maj|jun|jul|aug|sep|okt|nov|dec|januari|februari|mars|april|maj|juni|juli|augusti|september|oktober|november|december)\.?\s*(\d{4})?".

Definition year_specific_pattern : regex :=
  Eval vm_compute in compile
  "(\d{1,2})\s+(jan|feb|mar|apr|maj|jun|jul|aug|sep|okt|nov|dec|januari|februari|mars|april|maj|juni|juli|augusti|september|oktober|november|december)\s+(\d{4})".

Definition du_tjanar_pattern : regex :=
  Eval vm_compute in compile
  "(?:Du tj[äå�\ufffd][nr][ar]+|DU TJ[ÄÅ�\ufffd][NR][AR]+)[^\d]*€[^\d]*?([\d\s,]+)".

Definition du_tjanar_sek_pattern : regex :=
  Eval vm_compute in compile
  "(?:Du tj[äå�\ufffd][nr][ar]+|DU TJ[ÄÅ�\ufffd][NR][AR]+)[^\d]*?([\d\s,.]+)\s*kr".

Definition euro_amounts_re : regex :=
  Eval vm_compute in compile
  "€[^\d]*?([\d\s,]+)".

Definition date_range_pattern_0 : regex :=
  Eval vm_compute in compile
  "(\d{1,2})\s+([a-zåäö]+)\s*-\s*(\d{1,2})\s+([a-zåäö]+)".

Definition date_range_pattern_1 : regex :=
  Eval vm_compute in compile
  "(\d{1,2})\s+([A-ZÅÄÖa-zåäö]{3})\s*-\s*(\d{1,2})\s+([A-ZÅÄÖa-zåäö]{3})".

Definition date_range_pattern_2 : regex :=
  Eval vm_compute in compile
  "(\d{1,2})\s+([a-zåäö]+)\s*–\s*(\d{1,2})\s+([a-zåäö]+)".

Definition guest_name_confirmation : list regex :=
  [pat_guest_name_confirmation_0; pat_guest_name_confirmation_1;
   pat_guest_name_confirmation_2; pat_guest_name_confirmation_3;
   pat_guest_name_confirmation_4; pat_guest_name_confirmation_5;
   pat_guest_name_confirmation_6; pat_guest_name_confirmation_7;
   pat_guest_name_confirmation_8; pat_guest_name_confirmation_9].

Definition private_booking_patterns : list regex :=
  [pat_private_booking_patterns_0; pat_private_booking_patterns_1;
   pat_private_booking_patterns_2].

Definition guest_name_reminder : list regex :=
  [pat_guest_name_reminder_0; pat_guest_name_reminder_1].

Definition date_range_patterns : list regex :=
  [date_range_pattern_0; date_range_pattern_1; date_range_pattern_2].

(** A table from literal keys. *)
Fixpoint lookup (table : list (string * string)) (k : text) : option text :=
  match table with
  | [] => None
  | (a, b) :: rest => if text_eqb (u a) k then Some (u b) else lookup rest k
  end.

Definition swedish_months_table : list (string * string) :=
  [("jan", "01"); ("januari", "01"); ("feb", "02"); ("februari", "02");
   ("mar", "03"); ("mars", "03"); ("apr", "04"); ("april", "04");
   ("maj", "05"); ("jun", "06"); ("juni", "06"); ("jul", "07");
   ("juli", "07"); ("aug", "08"); ("augusti", "08"); ("sep", "09");
   ("september", "09"); ("okt", "10"); ("oktober", "10"); ("nov", "11");
   ("november", "11"); ("dec", "12"); ("december", "12")]%string.

(** [self.swedish_months.get(m)] *)
Definition swedish_months (m : text) : option text :=
  lookup swedish_months_table m.

Definition english_months_table : list (string * string) :=
  [("january", "01"); ("jan", "01"); ("february", "02"); ("feb", "02");
   ("march", "03"); ("mar", "03"); ("april", "04"); ("apr", "04");
   ("may", "05"); ("june", "06"); ("jun", "06"); ("july", "07");
   ("jul", "07"); ("august", "08"); ("aug", "08"); ("september", "09");
   ("sep", "09"); ("october", "10"); ("oct", "10"); ("november", "11");
   ("nov", "11"); ("december", "12"); ("dec", "12")]%string.

Definition english_months (m : text) : option text :=
  lookup english_months_table m.

Definition month_abbrev_table : list (string * string) :=
  [("jan", "01"); ("feb", "02"); ("mar", "03"); ("apr", "04");
   ("maj", "05"); ("jun", "06"); ("jul", "07"); ("aug", "08");
   ("sep", "09"); ("okt", "10"); ("nov", "11"); ("dec", "12")]%string.

Definition month_abbrev_map (m : text) : option text :=
  lookup month_abbrev_table m.

(** ** [get_reference_year] *)

Section Extraction.

(** [datetime.now().date()] at the time of the call. *)
Variable now : date.

(** The reference date and year: the email date when it parses, else the
    middle of the scanning year, else today. *)
Definition reference_of (email_date : option text) (scanning_year : option Z)
    : result (date * Z) :=
  if match email_date with Some w => truthy w | None => false end then
    catch (reference_date <- strptime_ymd
                               (match email_date with
                                | Some w => w
                                | None => []
                                end) ;;
           Ok (reference_date, year_of reference_date))
          (Ok (now, year_of now))
  else
    match scanning_year with
    | Some y =>
        if y =? 0 then Ok (now, year_of now)
        else reference_date <- make_date y 6 15 ;; Ok (reference_date, y)
    | None => Ok (now, year_of now)
    end.

Definition get_reference_year (email_date : option text) (month day : Z)
    (scanning_year : option Z) : result Z :=
  ref <- reference_of email_date scanning_year ;;
  let reference_date := fst ref in
  let reference_year := snd ref in
  candidate_date <- make_date reference_year month day ;;
  let days_diff := days_between candidate_date reference_date in
  if (11 <=? month_of reference_date) && (month <=? 2)
     && (days_diff <? -300)
  then Ok (reference_year + 1)
  else if days_diff <? 0 then
    next_year_candidate <- make_date (reference_year + 1) month day ;;
    let next_year_diff := days_between next_year_candidate reference_date in
    if (1 <=? next_year_diff) && (next_year_diff <=? 540)
    then Ok (reference_year + 1)
    else Ok reference_year
  else if 540 <? days_diff then Ok (reference_year - 1)
  else Ok reference_year.

(** ** Helpers of [extract_booking_data] *)

(** [f"{year}-{mm}-{day.zfill(2)}"] *)
Definition fmt_date (year mm day : text) : text :=
  year ++ u "-" ++ mm ++ u "-" ++ zfill2 day.

(** [re.sub(r'[\s\u00a0]+', '', w).replace(',', '.')], then [float]
    with a [ValueError] passed over. *)
Definition swedish_float (w : text) : option pyfloat :=
  match py_float (replace_char 44 46 (remove_spaces w)) with
  | Ok x => Some x
  | Raise _ => None
  end.

(** [re.sub(r'\s+', ' ', s)] *)
Fixpoint collapse_spaces (s : text) (in_run : bool) : text :=
  match s with
  | [] => []
  | c :: s' =>
      if is_space c then
        if in_run then collapse_spaces s' true
        else 32%N :: collapse_spaces s' true
      else c :: collapse_spaces s' false
  end.

(** [s.strip(' .!,')] *)
Definition strip_punct (s : text) : text :=
  strip_by (fun c => (c =? 32)%N || (c =? 46)%N || (c =? 33)%N
                     || (c =? 44)%N) s.

Definition opt_truthy (o : option text) : bool :=
  match o with
  | Some w => truthy w
  | None => false
  end.

Definition opt_text (o : option text) : text :=
  match o with
  | Some w => w
  | None => []
  end.

(** The tiered name patterns: the first match of length 3 or more is
    stored and ends the loop; [guest_name] keeps the last value read. *)
Fixpoint guest_name_loop (pats : list regex) (subject : text)
    (guest_name : option text) (data : dict) : option text * dict :=
  match pats with
  | [] => (guest_name, data)
  | p :: rest =>
      match search true p subject with
      | Some m =>
          let g :=
            strip_punct (collapse_spaces (strip (group_str m 1)) false) in
          if (3 <=? length g)%nat
          then (Some g, set guestName (VStr g) data)
          else guest_name_loop rest subject (Some g) data
      | None => guest_name_loop rest subject guest_name data
      end
  end.

Fixpoint private_booking_loop (pats : list regex) (subject : text)
    (data : dict) : dict :=
  match pats with
  | [] => data
  | p :: rest =>
      match search true p subject with
      | Some m =>
          let location := strip (group_str m 1) in
          set guestName
              (VStr (u "Private booking (" ++ location ++ u ")")) data
      | None => private_booking_loop rest subject data
      end
  end.

(** The year of a date without one: [str(self.get_reference_year(...))]
    on [int(mm)] and [int(day)]. *)
Definition resolved_year (email_date : option text) (mm day : text)
    (scanning_year : option Z) : result text :=
  parsed_month <- py_int mm ;;
  parsed_day <- py_int day ;;
  y <- get_reference_year email_date parsed_month parsed_day scanning_year ;;
  Ok (str_of_Z y).

(** *** Check-in date from the subject *)
Definition subject_date_block (subject : text) (email_date : option text)
    (scanning_year : option Z) (data : dict) : result dict :=
  match search false subject_date_sv_re (lower subject) with
  | Some m =>
      let day := group_str m 1 in
      let month_sv := group_str m 2 in
      match swedish_months month_sv with
      | Some mm =>
          y <- resolved_year email_date mm day scanning_year ;;
          Ok (set checkInDate (VStr (fmt_date y mm day)) data)
      | None => Ok data
      end
  | None =>
      match search false subject_date_en_re (lower subject) with
      | Some m =>
          let month_en := group_str m 1 in
          let day := group_str m 2 in
          match english_months month_en with
          | Some mm =>
              y <- resolved_year email_date mm day scanning_year ;;
              Ok (set checkInDate (VStr (fmt_date y mm day)) data)
          | None => Ok data
          end
      | None => Ok data
      end
  end.

(** *** The combined check-in/check-out pattern *)
Definition combined_block (body : text) (email_date : option text)
    (scanning_year : option Z) (data : dict) : result dict :=
  match search true pat_checkin_checkout_combined body with
  | None => Ok data
  | Some m =>
      let day1 := group_str m 2 in
      let month1 := group_str m 3 in
      let day2 := group_str m 6 in
      let month2 := group_str m 7 in
      st <- match swedish_months (lower month1) with
            | Some mm1 =>
                year1 <- (if opt_truthy (group m 4)
                          then Ok (group_str m 4)
                          else resolved_year email_date mm1 day1
                                             scanning_year) ;;
                Ok (set checkInDate (VStr (fmt_date year1 mm1 day1)) data,
                    Some year1)
            | None => Ok (data, group m 4)
            end ;;
      let data1 := fst st in
      let year1 := snd st in
      match swedish_months (lower month2) with
      | Some mm2 =>
          year2 <-
            (if opt_truthy (group m 8) then Ok (group_str m 8)
             else
               parsed_month <- py_int mm2 ;;
               y <- resolved_year email_date mm2 day2 scanning_year ;;
               match swedish_months (lower month1) with
               | None => Raise KeyError
               | Some mm1 =>
                   checkin_month_num <- py_int mm1 ;;
                   if parsed_month <? checkin_month_num then
                     match year1 with
                     | Some y1 => n <- py_int y1 ;; Ok (str_of_Z (n + 1))
                     | None => Raise TypeError
                     end
                   else Ok y
               end) ;;
          Ok (set checkOutDate (VStr (fmt_date year2 mm2 day2)) data1)
      | None => Ok data1
      end
  end.

(** *** The separate check-in and check-out patterns *)
Definition checkin_block (body : text) (email_date : option text)
    (scanning_year : option Z) (data : dict) : result dict :=
  if has data checkInDate then Ok data
  else
    match search true pat_checkin_date body with
    | None => Ok data
    | Some m =>
        let day := group_str m 2 in
        match swedish_months (lower (group_str m 3)) with
        | Some mm =>
            y <- (if opt_truthy (group m 4) then Ok (group_str m 4)
                  else resolved_year email_date mm day scanning_year) ;;
            Ok (set checkInDate (VStr (fmt_date y mm day)) data)
        | None => Ok data
        end
    end.

Definition checkout_block (body : text) (email_date : option text)
    (scanning_year : option Z) (data : dict) : result dict :=
  if has data checkOutDate then Ok data
  else
    match search true pat_checkout_date body with
    | None => Ok data
    | Some m =>
        let day := group_str m 2 in
        match swedish_months (lower (group_str m 3)) with
        | Some mm =>
            y <- (if opt_truthy (group m 4) then Ok (group_str m 4)
                  else
                    parsed_month <- py_int mm ;;
                    y0 <- resolved_year email_date mm day scanning_year ;;
                    if has data checkInDate then
                      match data checkInDate with
                      | VStr ci =>
                          match strptime_ymd ci with
                          | Ok checkin_date =>
                              if parsed_month <? month_of checkin_date
                              then n <- py_int y0 ;; Ok (str_of_Z (n + 1))
                              else Ok y0
                          | Raise ValueError => Ok y0
                          | Raise e => Raise e
                          end
                      | _ => Ok y0
                      end
                    else Ok y0) ;;
            Ok (set checkOutDate (VStr (fmt_date y mm day)) data)
        | None => Ok data
        end
    end.

(** The later blocks run when a date is missing or both are equal. *)
Definition dates_unsettled (data : dict) : bool :=
  negb (has data checkInDate) || negb (has data checkOutDate)
  || match data checkInDate, data checkOutDate with
     | VStr a, VStr b => text_eqb a b
     | _, _ => false
     end.

(** *** The date-pair pattern *)
Definition date_pair_block (body : text) (email_date : option text)
    (scanning_year : option Z) (data : dict) : result dict :=
  if dates_unsettled data then
    match search true pat_date_pair_pattern body with
    | None => Ok data
    | Some m =>
        let date1 := group_str m 2 in
        let month1 := group_str m 3 in
        let date2 := group_str m 6 in
        let month2 := group_str m 7 in
        match swedish_months (lower month1), swedish_months (lower month2)
        with
        | Some mm1, Some mm2 =>
            year1 <- (if opt_truthy (group m 4) then Ok (group_str m 4)
                      else resolved_year email_date mm1 date1
                                         scanning_year) ;;
            year2 <- (if opt_truthy (group m 8) then Ok (group_str m 8)
                      else
                        checkin_month_num <- py_int mm1 ;;
                        checkout_month_num <- py_int mm2 ;;
                        if checkout_month_num <? checkin_month_num
                        then n <- py_int year1 ;; Ok (str_of_Z (n + 1))
                        else Ok year1) ;;
            let s1 := fmt_date year1 mm1 date1 in
            let s2 := fmt_date year2 mm2 date2 in
            match strptime_ymd s1, strptime_ymd s2 with
            | Ok date1_obj, Ok date2_obj =>
                if toordinal date1_obj <=? toordinal date2_obj
                then Ok (set checkOutDate (VStr s2)
                           (set checkInDate (VStr s1) data))
                else Ok (set checkOutDate (VStr s1)
                           (set checkInDate (VStr s2) data))
            | _, _ => Ok data
            end
        | _, _ => Ok data
        end
    end
  else Ok data.

(** *** The final fallback: every Swedish date of the body *)

Definition date_token := (text * text * text)%type.   (* day, month, year *)

(** [re.findall] of a pattern with three groups *)
Definition findall3 (ic : bool) (r : regex) (s : text) : list date_token :=
  map (fun m => (group_str m 1, group_str m 2, group_str m 3))
      (finditer ic r s).

(** The dates with a year first, then those of [all_dates] whose day and
    month have no version with a year. *)
Definition combine_dates (year_dates all_dates : list date_token)
    : list date_token :=
  year_dates ++
  filter (fun t =>
            let '(d, mo, _) := t in
            negb (existsb (fun t' =>
                             let '(d', mo', _) := t' in
                             text_eqb d' d && text_eqb mo' mo) year_dates))
         all_dates.

(** [parsed_dates]: the tokens that name a month and a real date, each
    date string once. *)
Fixpoint parse_dates (email_date : option text) (scanning_year : option Z)
    (combined : list date_token) (parsed : list (date * text))
    : result (list (date * text)) :=
  match combined with
  | [] => Ok parsed
  | (d, mo, y) :: rest =>
      match swedish_months (lower mo) with
      | Some mm =>
          yr <- (if truthy y then Ok y
                 else resolved_year email_date mm d scanning_year) ;;
          let date_str := fmt_date yr mm d in
          match strptime_ymd date_str with
          | Ok date_obj =>
              if existsb (text_eqb date_str) (map snd parsed)
              then parse_dates email_date scanning_year rest parsed
              else parse_dates email_date scanning_year rest
                               (parsed ++ [(date_obj, date_str)])
          | Raise _ => parse_dates email_date scanning_year rest parsed
          end
      | None => parse_dates email_date scanning_year rest parsed
      end
  end.

(** [parsed_dates.sort(key=lambda x: x[0])]: a stable sort. *)
Fixpoint insert_by_date (x : date * text) (l : list (date * text))
    : list (date * text) :=
  match l with
  | [] => [x]
  | h :: t =>
      if toordinal (fst x) <? toordinal (fst h) then x :: l
      else h :: insert_by_date x t
  end.

Definition sort_by_date (l : list (date * text)) : list (date * text) :=
  fold_left (fun acc x => insert_by_date x acc) l [].

(** [int(s.split('-')[k])], [None] where the source passes over the
    error. *)
Definition int_field (k : nat) (s : text) : option Z :=
  match nth_error (split_on 45 s) k with
  | Some w => match py_int w with Ok n => Some n | Raise _ => None end
  | None => None
  end.

(** Whether a date of the pair came with a year in the text. *)
Definition has_explicit_year (year_dates : list date_token) (t : date)
    (month_num : option Z) : bool :=
  existsb (fun tok =>
             let '(d, mo, y) := tok in
             truthy y
             && text_eqb d (str_of_Z (day_of t))
             && match swedish_months (lower mo), month_num with
                | Some mm, Some k =>
                    match py_int mm with
                    | Ok n => n =? k
                    | Raise _ => false
                    end
                | _, _ => false
                end) year_dates.

(** The score of a candidate pair. *)
Definition pair_score (year_dates : list date_token)
    (checkin checkout : date * text) : Z :=
  let checkin_date := fst checkin in
  let checkout_date := fst checkout in
  let nights_ := days_between checkout_date checkin_date in
  let checkin_month := int_field 1 (snd checkin) in
  let checkout_month :=
    match checkin_month with
    | Some _ => int_field 1 (snd checkout)
    | None => None
    end in
  (if has_explicit_year year_dates checkin_date checkin_month
      && has_explicit_year year_dates checkout_date checkout_month
   then 20 else 0)
  + (if day_of checkin_date =? day_of checkout_date then 0 else 10)
  + (if year_of checkin_date =? year_of checkout_date then 3
     else if (Z.abs (year_of checkin_date - year_of checkout_date) =? 1)
             && (nights_ <=? 14) then 4
     else 0)
  + (if (2 <=? nights_) && (nights_ <=? 7) then 3
     else if (8 <=? nights_) && (nights_ <=? 14) then 2
     else 0).

(** The state of the search: [best_pair] and [best_score]. *)
Definition best := (option (text * text) * Z)%type.

(** One candidate: kept when it beats the best score, or ties it with a
    later check-in year. *)
Definition consider (year_dates : list date_token)
    (checkin checkout : date * text) (st : best) : result best :=
  let nights_ := days_between (fst checkout) (fst checkin) in
  if (1 <=? nights_) && (nights_ <=? 30) then
    let score := pair_score year_dates checkin checkout in
    let best_score := snd st in
    tie <- match fst st with
           | Some best_pair =>
               if score =? best_score then
                 match nth_error (split_on 45 (fst best_pair)) 0 with
                 | Some w =>
                     y <- py_int w ;; Ok (y <? year_of (fst checkin))
                 | None => Raise ValueError
                 end
               else Ok false
           | None => Ok false
           end ;;
    if (best_score <? score) || tie
    then Ok (Some (snd checkin, snd checkout), score)
    else Ok st
  else Ok st.

Fixpoint inner_loop (year_dates : list date_token) (checkin : date * text)
    (later : list (date * text)) (st : best) : result best :=
  match later with
  | [] => Ok st
  | checkout :: rest =>
      st' <- consider year_dates checkin checkout st ;;
      inner_loop year_dates checkin rest st'
  end.

Fixpoint outer_loop (year_dates : list date_token)
    (parsed : list (date * text)) (st : best) : result best :=
  match parsed with
  | [] => Ok st
  | checkin :: rest =>
      st' <- inner_loop year_dates checkin rest st ;;
      outer_loop year_dates rest st'
  end.

(** The pair the fallback settles on, from the sorted dates. *)
Definition select_best_pair (year_dates : list date_token)
    (parsed_dates : list (date * text)) : result (option (text * text)) :=
  st <- outer_loop year_dates parsed_dates (None, 0) ;;
  match fst st with
  | Some best_pair => Ok (Some best_pair)
  | None =>
      match parsed_dates with
      | a :: b :: _ => Ok (Some (snd a, snd b))
      | _ => Ok None
      end
  end.

Definition fallback_block (body : text) (email_date : option text)
    (scanning_year : option Z) (data : dict) : result dict :=
  if dates_unsettled data then
    let all_dates := findall3 true all_dates_pattern body in
    let year_dates := findall3 true year_specific_pattern body in
    let combined_dates := combine_dates year_dates all_dates in
    parsed <- parse_dates email_date scanning_year combined_dates [] ;;
    pair <- select_best_pair year_dates (sort_by_date parsed) ;;
    match pair with
    | Some (ci, co) =>
        Ok (set checkOutDate (VStr co) (set checkInDate (VStr ci) data))
    | None => Ok data
    end
  else Ok data.

(** *** Nights *)

(** Nights from the two dates, when both are there and the difference
    is positive. *)
Definition nights_of_dates (data : dict) : dict :=
  if has data checkInDate && has data checkOutDate then
    match data checkInDate, data checkOutDate with
    | VStr ci, VStr co =>
        match strptime_ymd ci, strptime_ymd co with
        | Ok checkin, Ok checkout =>
            let nights_ := days_between checkout checkin in
            if 0 <? nights_ then set nights (VInt nights_) data else data
        | _, _ => data
        end
    | _, _ => data
    end
  else data.

(** Nights from the text, when the dates gave none. *)
Definition nights_of_text (body : text) (data : dict) : dict :=
  if has data nights then data
  else
    match search false pat_nights body with
    | Some m =>
        match group_or (group m 1) (group m 2) with
        | Some nights_num =>
            match py_int nights_num with
            | Ok n => set nights (VInt n) data
            | Raise _ => data
            end
        | None => data
        end
    | None => data
    end.

Definition nights_block (body : text) (data : dict) : dict :=
  nights_of_text body (nights_of_dates data).

(** *** Money *)

(** A field read by one pattern in the Swedish number format. *)
Definition amount_field (ic : bool) (r : regex) (k : key) (body : text)
    (data : dict) : dict :=
  match search ic r body with
  | Some m =>
      match swedish_float (group_str m 1) with
      | Some x => set k (VFloat x) data
      | None => data
      end
  | None => data
  end.

Definition guest_total_block (body : text) (data : dict) : dict :=
  amount_field true pat_guest_total_eur guestTotalEur body data.

(** [m.group(1) or m.group(2) or m.group(3)] *)
Definition group_or3 (m : rmatch_obj) : option text :=
  group_or (group m 1) (group_or (group m 2) (group m 3)).

Definition host_earnings_eur_block (body : text) (data : dict)
    : result dict :=
  match search true pat_host_earnings_eur body with
  | Some m =>
      match group_or3 m with
      | None => Raise TypeError
      | Some w =>
          let amount_str := remove_spaces w in
          let amount_str :=
            if has_char 44 amount_str && has_char 46 amount_str
            then remove_char 44 amount_str
            else if has_char 44 amount_str
                    && negb (has_char 46 amount_str)
            then replace_char 44 46 amount_str
            else amount_str in
          match py_float amount_str with
          | Ok x =>
              Ok (set currency (VStr (u "EUR"))
                    (set hostEarningsEur (VFloat x) data))
          | Raise _ => Ok data
          end
      end
  | None => Ok data
  end.

Definition host_earnings_sek_block (body : text) (data : dict)
    : result dict :=
  if has data hostEarningsEur then Ok data
  else
    match search true pat_host_earnings_sek body with
    | Some m =>
        match group_or3 m with
        | None => Raise TypeError
        | Some w =>
            match swedish_float w with
            | Some x =>
                Ok (set currency (VStr (u "SEK"))
                      (set hostEarningsSek (VFloat x) data))
            | None => Ok data
            end
        end
    | None => Ok data
    end.

(** [re.search(a, body) or re.search(b, body)], ignoring case *)
Definition search2 (a b : regex) (body : text) : option rmatch_obj :=
  match search true a body with
  | Some m => Some m
  | None => search true b body
  end.

(** The 2020 layout: amounts followed by "kr SEK". *)
Definition sek_2020_block (body : text) (data : dict) : dict :=
  if negb (has data hostEarningsEur) && negb (has data hostEarningsSek)
  then
    let data1 :=
      match search2 pat_host_earnings_2020_sek
                    pat_host_earnings_2020_sek_en body with
      | Some m =>
          match swedish_float (group_str m 2) with
          | Some x =>
              set currency (VStr (u "SEK"))
                  (set hostEarningsSek (VFloat x) data)
          | None => data
          end
      | None => data
      end in
    let data2 :=
      if has data1 guestTotalSek then data1
      else
        match search2 pat_guest_total_2020_sek
                      pat_guest_total_2020_sek_en body with
        | Some m =>
            match swedish_float (group_str m 1) with
            | Some x => set guestTotalSek (VFloat x) data1
            | None => data1
            end
        | None => data1
        end in
    let data3 :=
      if has data2 cleaningFeeSek then data2
      else
        match search2 pat_cleaning_fee_2020_sek
                      pat_cleaning_fee_2020_sek_en body with
        | Some m =>
            match swedish_float (group_str m 1) with
            | Some x => set cleaningFeeSek (VFloat x) data2
            | None => data2
            end
        | None => data2
        end in
    if has data3 serviceFeeSek then data3
    else
      match search2 pat_service_fee_2020_sek
                    pat_service_fee_2020_sek_en body with
      | Some m =>
          let amount_str :=
            replace_char 44 46 (remove_spaces (group_str m 1)) in
          let amount_str :=
            if has_char 8722 (m_text m) || has_char 45 (m_text m)
            then 45%N :: amount_str else amount_str in
          match py_float amount_str with
          | Ok x => set serviceFeeSek (VFloat x) data3
          | Raise _ => data3
          end
      | None => data3
      end
  else data.

(** [re.findall] of a pattern with one group *)
Definition findall1 (ic : bool) (r : regex) (s : text) : list text :=
  map (fun m => group_str m 1) (finditer ic r s).

Fixpoint insert_q (x : Q) (l : list Q) : list Q :=
  match l with
  | [] => [x]
  | h :: t => if Qle_bool h x then h :: insert_q x t else x :: l
  end.

Definition sort_q (l : list Q) : list Q :=
  fold_left (fun acc x => insert_q x acc) l [].

(** The values of the table that lie between [lo] and [hi]. *)
Definition amounts_between (lo hi : Q) (ws : list text) : list Q :=
  flat_map (fun w =>
              match swedish_float w with
              | Some (Fin q) =>
                  if Qle_bool lo q && Qle_bool q hi then [q] else []
              | _ => []
              end) ws.

(** The "Du tjänar" patterns that allow for a damaged letter, then the
    tables of euro amounts. *)
Definition earnings_fallback_block (body : text) (data : dict) : dict :=
  if negb (has data hostEarningsEur) && negb (has data hostEarningsSek)
  then
    let data1 :=
      match search true du_tjanar_pattern body with
      | Some m =>
          match swedish_float (group_str m 1) with
          | Some x =>
              set currency (VStr (u "EUR"))
                  (set hostEarningsEur (VFloat x) data)
          | None => data
          end
      | None =>
          match search true du_tjanar_sek_pattern body with
          | Some m =>
              match swedish_float (group_str m 1) with
              | Some x =>
                  set currency (VStr (u "SEK"))
                      (set hostEarningsSek (VFloat x) data)
              | None => data
              end
          | None => data
          end
      end in
    if negb (has data1 hostEarningsEur) && negb (has data1 hostEarningsSek)
    then
      let euro_amounts := findall1 false euro_amounts_re body in
      if (8 <=? length euro_amounts)%nat then
        match sort_q (amounts_between 1 1000 euro_amounts) with
        | [] => data1
        | smallest :: others =>
            let potential_earnings :=
              if Qle_bool smallest 100 then smallest
              else last others smallest in
            set hostEarningsEur (VFloat (Fin potential_earnings)) data1
        end
      else if (4 <=? length euro_amounts)%nat then
        let n := length euro_amounts in
        match rev (amounts_between 20 500
                     (firstn 2 (skipn (n - 3) euro_amounts))) with
        | potential_earnings :: _ =>
            if flt_truthy (Fin potential_earnings)
            then set hostEarningsEur (VFloat (Fin potential_earnings)) data1
            else data1
        | [] => data1
        end
      else data1
    else data1
  else data.

Definition guest_count_block (body : text) (data : dict) : dict :=
  match search false pat_guest_count body with
  | Some m =>
      match group_or (group m 1) (group m 2) with
      | Some guest_num =>
          match py_int guest_num with
          | Ok n => set guestCount (VInt n) data
          | Raise _ => data
          end
      | None => data
      end
  | None => data
  end.

(** *** The other email types *)

(** [parse_swedish_date]: "28 oktober 2025" to "2025-10-28". *)
Definition parse_swedish_date (date_str : text) : option text :=
  match match_start false parse_swedish_date_re (strip date_str) with
  | Some m =>
      match swedish_months (lower (group_str m 2)) with
      | Some mm => Some (fmt_date (group_str m 3) mm (group_str m 1))
      | None => None
      end
  | None => None
  end.

(** [format_date_for_ml]: "YYYY-MM-DD" to "MM/DD/YYYY". *)
Definition format_date_for_ml (date_str : text) : text :=
  match split_on 45 date_str with
  | [y; mo; d] => mo ++ u "/" ++ d ++ u "/" ++ y
  | _ => date_str
  end.

(** The SEK amount of a payout, from the subject or the body. *)
Definition payout_amount_block (full_text : text) (data : dict) : dict :=
  match search false pat_amount_sek full_text with
  | Some m =>
      let amount_str := group_str m 1 in
      let amount_str :=
        if has_char 44 amount_str && has_char 46 amount_str
        then remove_char 44 amount_str
        else if has_char 44 amount_str && negb (has_char 46 amount_str)
        then replace_char 44 46 (remove_spaces amount_str)
        else remove_spaces amount_str in
      match py_float amount_str with
      | Ok x => set currency (VStr (u "SEK")) (set amount (VFloat x) data)
      | Raise _ => data
      end
  | None => data
  end.

(** A month name of a payout range: the full table, else the first
    three letters. *)
Definition payout_month (name : text) : option text :=
  match swedish_months (lower name) with
  | Some mm => Some mm
  | None => month_abbrev_map (firstn 3 (lower name))
  end.

Fixpoint payout_dates_loop (pats : list regex) (full_text : text)
    (email_date : option text) (scanning_year : option Z) (data : dict)
    : result dict :=
  match pats with
  | [] => Ok data
  | p :: rest =>
      match search false p (lower full_text) with
      | Some m =>
          let start_day := group_str m 1 in
          let end_day := group_str m 3 in
          match payout_month (group_str m 2), payout_month (group_str m 4)
          with
          | Some start_month_num, Some end_month_num =>
              y <- resolved_year email_date start_month_num start_day
                                 scanning_year ;;
              Ok (set checkOutDate
                      (VStr (fmt_date y end_month_num end_day))
                    (set checkInDate
                         (VStr (fmt_date y start_month_num start_day))
                       data))
          | _, _ =>
              payout_dates_loop rest full_text email_date scanning_year
                                data
          end
      | None =>
          payout_dates_loop rest full_text email_date scanning_year data
      end
  end.

(** The cancellation branch: the date range of the subject. *)
Definition cancellation_block (subject : text) (data : dict) : dict :=
  match search false pat_date_range subject with
  | Some m =>
      let start_day := group_str m 1 in
      let end_day := group_str m 2 in
      let month_sv := group_str m 3 in
      match swedish_months month_sv with
      | Some mm =>
          set checkOutDate (VStr (u "2025-" ++ mm ++ u "-" ++ zfill2 end_day))
            (set checkInDate
                 (VStr (u "2025-" ++ mm ++ u "-" ++ zfill2 start_day)) data)
      | None => data
      end
  | None => data
  end.

Definition dates_pattern_block (r : regex) (kin kout : key) (body : text)
    (data : dict) : dict :=
  match search true r body with
  | Some m =>
      match parse_swedish_date (group_str m 1),
            parse_swedish_date (group_str m 2) with
      | Some a, Some b =>
          if truthy a && truthy b
          then set kout (VStr (format_date_for_ml b))
                 (set kin (VStr (format_date_for_ml a)) data)
          else data
      | _, _ => data
      end
  | None => data
  end.

Definition change_request_block (subject body : text) (data : dict)
    : dict :=
  let data1 :=
    match search true pat_change_request_guest subject with
    | Some m => set guestName (VStr (strip (group_str m 1))) data
    | None => data
    end in
  let data2 :=
    dates_pattern_block pat_original_dates_pattern
      originalCheckInDate originalCheckOutDate body data1 in
  dates_pattern_block pat_requested_dates_pattern
    checkInDate checkOutDate body data2.

Definition modification_block (body : text) (data : dict) : result dict :=
  data1 <- match search true pat_modification_guest body with
           | Some m =>
               match group_or (group m 1) (group m 2) with
               | Some w => Ok (set guestName (VStr (strip w)) data)
               | None => Raise AttributeError
               end
           | None => Ok data
           end ;;
  match search false pat_booking_code_url body with
  | Some m => Ok (set bookingCode (VStr (group_str m 1)) data1)
  | None => Ok data1
  end.

(** ** [extract_booking_data] *)

Definition initial_data (email_type : text) : dict :=
  fun k =>
    match k with
    | emailType => VStr email_type
    | _ => VNone
    end.

Definition booking_code_block (full_text : text) (data : dict) : dict :=
  match search false pat_booking_code full_text with
  | Some m => set bookingCode (VStr (m_text m)) data
  | None => data
  end.

Definition guest_name_block (subject : text) (data : dict) : dict :=
  let (guest_name, data1) :=
    guest_name_loop guest_name_confirmation subject None data in
  if opt_truthy guest_name then data1
  else private_booking_loop private_booking_patterns subject data1.

(** The branch of a booking confirmation, block after block in the
    order of the source. *)
Definition confirmation_branch (subject body : text)
    (email_date : option text) (scanning_year : option Z) (data : dict)
    : result dict :=
  let d0 := guest_name_block subject data in
  d1 <- subject_date_block subject email_date scanning_year d0 ;;
  d2 <- combined_block body email_date scanning_year d1 ;;
  d3 <- checkin_block body email_date scanning_year d2 ;;
  d4 <- checkout_block body email_date scanning_year d3 ;;
  d5 <- date_pair_block body email_date scanning_year d4 ;;
  d6 <- fallback_block body email_date scanning_year d5 ;;
  let d7 := nights_block body d6 in
  let d8 := guest_total_block body d7 in
  d9 <- host_earnings_eur_block body d8 ;;
  d10 <- host_earnings_sek_block body d9 ;;
  let d11 := sek_2020_block body d10 in
  let d12 := earnings_fallback_block body d11 in
  let d13 := amount_field false pat_cleaning_fee_eur cleaningFeeEur body d12 in
  let d14 := amount_field false pat_nightly_rate_eur nightlyRateEur body d13 in
  let d15 := amount_field false pat_service_fee_eur serviceFeeEur body d14 in
  let d16 := amount_field false pat_property_tax_eur propertyTaxEur body d15 in
  Ok (guest_count_block body d16).

Definition extract_booking_data (email_type subject sender body : text)
    (email_date : option text) (scanning_year : option Z) : result dict :=
  let full_text := subject ++ u " " ++ body in
  let data := booking_code_block full_text (initial_data email_type) in
  if text_eqb email_type booking_confirmation then
    confirmation_branch subject body email_date scanning_year data
  else if text_eqb email_type booking_reminder then
    Ok (snd (guest_name_loop guest_name_reminder subject None data))
  else if text_eqb email_type payout then
    payout_dates_loop date_range_patterns full_text email_date
      scanning_year (payout_amount_block full_text data)
  else if text_eqb email_type cancellation then
    Ok (cancellation_block subject data)
  else if text_eqb email_type change_request then
    Ok (change_request_block subject body data)
  else if text_eqb email_type modification then
    modification_block body data
  else Ok data.

End Extraction.

End EmailClassifier.

(* ================================================================== *)
(** * Part III. [ml_extractor.py]: class [MLDataExtractor]             *)
(* ================================================================== *)

Module MLExtractor.
Import Py.

(** ** Candidate entities *)

Record entity := mkentity {
  value : text;
  start : nat;
  end_ : nat;
  context : text;
  full_match : text
}.

Record candidates := mkcandidates {
  amounts : list entity;
  dates : list entity;
  names : list entity
}.

Definition amount_pattern_0 : regex :=
  Eval vm_compute in compile "€\s*([\d\s,]+(?:\.\d{2})?)".
Definition amount_pattern_1 : regex :=
  Eval vm_compute in compile "([\d\s,]+(?:\.\d{2})?)\s*kr".
Definition amount_pattern_2 : regex :=
  Eval vm_compute in compile "([\d\s,]+(?:,\d{2})?)\s*kr".

Definition amount_patterns : list regex :=
  [amount_pattern_0; amount_pattern_1; amount_pattern_2].

Definition date_patterns : list regex :=
  Eval vm_compute in
  [compile "\d{1,2}\s+(?:jan|feb|mar|apr|maj|jun|jul|aug|sep|okt|nov|dec)\w*\.?\s*\d{4}";
   compile "\d{4}-\d{2}-\d{2}";
   compile "\d{1,2}/\d{1,2}/\d{4}"].

Definition name_patterns : list regex :=
  Eval vm_compute in
  [compile "([A-ZÅÄÖ][a-zåäöA-ZÅÄÖ]+(?:\s[A-ZÅÄÖ][a-zåäöA-ZÅÄÖ]+)*)\s+(?:anländer|arrives)";
   compile "(?:^|(?<=[.!?\n]))\s*([A-ZÅÄÖ][a-zåäö]+(?:\s+[A-ZÅÄÖ][a-zåäö]+)*)\s+anländer";
   compile "(?<![\d,.])\s+([A-ZÅÄÖ][a-zåäö]+(?:\s+[A-ZÅÄÖ][a-zåäö]+)*)\s+anländer"].

(** [text[max(0, a - w) : min(len(text), b + w)]] *)
Definition window (w : nat) (txt : text) (a b : nat) : text :=
  slice (a - w) (Nat.min (length txt) (b + w)) txt.

(** [any(s <= start < e or s < end <= e for s, e in matched_positions)] *)
Definition overlaps (matched_positions : list (nat * nat)) (a b : nat)
    : bool :=
  existsb (fun se =>
             let '(s, e) := se in
             ((s <=? a) && (a <? e) || (s <? b) && (b <=? e))%nat)
          matched_positions.

(** The matches of one amount pattern, those over a claimed span left
    out. *)
Fixpoint claim_amounts (txt : text) (ms : list rmatch_obj)
    (found : list entity) (matched_positions : list (nat * nat))
    : list entity * list (nat * nat) :=
  match ms with
  | [] => (found, matched_positions)
  | m :: rest =>
      if overlaps matched_positions (m_start m) (m_end m)
      then claim_amounts txt rest found matched_positions
      else
        claim_amounts txt rest
          (found ++ [mkentity (group_str m 1) (m_start m) (m_end m)
                              (window 50 txt (m_start m) (m_end m))
                              (m_text m)])
          ((m_start m, m_end m) :: matched_positions)
  end.

Fixpoint scan_amounts (txt : text) (pats : list regex)
    (found : list entity) (matched_positions : list (nat * nat))
    : list entity :=
  match pats with
  | [] => found
  | p :: rest =>
      let (found', matched') :=
        claim_amounts txt (finditer true p txt) found matched_positions in
      scan_amounts txt rest found' matched'
  end.

Definition scan_dates (txt : text) : list entity :=
  flat_map (fun p =>
              map (fun m => mkentity (m_text m) (m_start m) (m_end m)
                                     (window 30 txt (m_start m) (m_end m))
                                     (m_text m))
                  (finditer true p txt)) date_patterns.

(** ** [clean_guest_name] *)

(** The class [[kr\s\d.,€$]] *)
Definition money_char (c : code) : bool :=
  (c =? 107)%N || (c =? 114)%N || is_space c || is_digit c
  || (c =? 46)%N || (c =? 44)%N || (c =? 8364)%N || (c =? 36)%N.

(** [s.split()] *)
Fixpoint words_of (s : text) (cur : text) : list text :=
  match s with
  | [] => match cur with [] => [] | _ => [rev cur] end
  | c :: s' =>
      if is_space c then
        match cur with
        | [] => words_of s' []
        | _ => rev cur :: words_of s' []
        end
      else words_of s' (c :: cur)
  end.

Fixpoint join (sep : text) (ws : list text) : text :=
  match ws with
  | [] => []
  | [w] => w
  | w :: rest => w ++ sep ++ join sep rest
  end.

(** [w[0].upper() + w[1:].lower() if len(w) > 1 else w.upper()] *)
Definition title_part (w : text) : text :=
  match w with
  | c :: (_ :: _) as rest => upper_code c :: lower rest
  | _ => upper w
  end.

Definition title_word (w : text) : text :=
  if has_char 45 w
  then join (u "-")
            (map title_part (filter truthy (split_on 45 w)))
  else title_part w.

Definition clean_guest_name (name : text) : option text :=
  if negb (truthy name) || negb (truthy (strip name)) then None
  else
    let cleaned := lstrip_by money_char name in
    let cleaned := rev (lstrip_by money_char (rev cleaned)) in
    let cleaned :=
      EmailClassifier.collapse_spaces (strip cleaned) false in
    let cleaned :=
      if truthy cleaned
      then join (u " ") (map title_word (words_of cleaned []))
      else cleaned in
    match cleaned with
    | c :: _ :: _ => if is_alpha c then Some cleaned else None
    | _ => None
    end.

(** The names one pattern finds; the span is that of group 1. *)
Definition names_of_pattern (txt : text) (p : regex) : list entity :=
  flat_map (fun m =>
     match clean_guest_name (strip (group_str m 1)) with
     | Some cleaned_name =>
         if (2 <? length cleaned_name)%nat
            && (length cleaned_name <? 50)%nat
         then
           let a := group_start (length txt) m 1 in
           let b := (a + length (group_str m 1))%nat in
           [mkentity cleaned_name a b (window 30 txt a b) (m_text m)]
         else []
     | None => []
     end) (finditer true p txt).

Definition scan_names (txt : text) : list entity :=
  flat_map (names_of_pattern txt) name_patterns.

(** [extract_candidate_entities] *)
Definition extract_candidate_entities (txt : text) : candidates :=
  mkcandidates (scan_amounts txt amount_patterns [] [])
               (scan_dates txt) (scan_names txt).

(** ** [parse_amount] *)

(** The string [parse_amount] hands to [float]: white space removed,
    then the commas dropped when a dot is present too, or else written
    as dots. *)
Definition clean_amount (amount_str : text) : text :=
  let clean := remove_spaces amount_str in
  if has_char 44 clean && has_char 46 clean then remove_char 44 clean
  else if has_char 44 clean then replace_char 44 46 clean
  else clean.

(** [str(amount_str)] is the string itself; every exception of the body
    is caught and answered by [0.0]. *)
Definition parse_amount (amount_str : text) : result pyfloat :=
  catch (py_float (clean_amount amount_str)) (Ok zero).

(** The float [parse_amount] returns. *)
Definition amount_of (amount_str : text) : pyfloat :=
  match parse_amount amount_str with
  | Ok x => x
  | Raise _ => zero
  end.

(** ** The [results] dictionary: keys in order of insertion *)

Inductive rval :=
| RNum (x : pyfloat)
| RStr (s : text).

Definition results := list (text * rval).

Fixpoint get (k : text) (d : results) : option rval :=
  match d with
  | [] => None
  | (k', v) :: rest => if text_eqb k' k then Some v else get k rest
  end.

(** [d[k] = v] *)
Fixpoint put (k : text) (v : rval) (d : results) : results :=
  match d with
  | [] => [(k, v)]
  | (k', v') :: rest =>
      if text_eqb k' k then (k', v) :: rest else (k', v') :: put k v rest
  end.

Definition rval_truthy (o : option rval) : bool :=
  match o with
  | Some (RNum x) => flt_truthy x
  | Some (RStr w) => truthy w
  | None => false
  end.

(** [for name in names: if not results.get('guestName'): ...] *)
Fixpoint add_names (ns : list entity) (d : results) : results :=
  match ns with
  | [] => d
  | n :: rest =>
      if rval_truthy (get (u "guestName") d) then add_names rest d
      else add_names rest (put (u "guestName") (RStr (value n)) d)
  end.

(** ** [basic_extraction]: the fallback without a trained model *)

Definition natter_re : regex :=
  Eval vm_compute in compile "kr\s+sek\s+x\s*\d+\s*nätter".

(** [r'kr\s+sek\s+x\s*\d+\s*nätter.*?' + re.escape(v)] *)
Definition natter_then (v : text) : regex :=
  RCat natter_re (RCat (RRep RAny 0 None false) (literal v)).

(** An entry of [priorities]: field, value, priority, label. *)
Definition priority_entry := (text * pyfloat * Z * string)%type.

Definition entry_field (e : priority_entry) : text := fst (fst (fst e)).
Definition entry_value (e : priority_entry) : pyfloat := snd (fst (fst e)).
Definition entry_priority (e : priority_entry) : Z := snd (fst e).

(** The entry one amount candidate adds, if any. *)
Definition classify_amount (a : entity) : option priority_entry :=
  let ctx := lower (context a) in
  let fm := lower (full_match a) in
  let amount_value := amount_of (value a) in
  if flt_le amount_value 0 then None
  else
    let has_eur_symbol := contains (u "€") fm in
    let has_sek_symbol := contains (u "kr") fm in
    let tjanar :=
      contains (u "du tjänar") ctx || contains (u "tjänar") ctx in
    if contains (u "totalt (eur)") ctx
       || (contains (u "totalt") ctx && contains (u "eur") ctx)
    then Some (u "hostEarningsEur", amount_value, 100,
               "TOTALT EUR pattern"%string)
    else if (contains (u "gäst") ctx || contains (u "totalt") ctx)
            && has_eur_symbol
    then Some (u "guestTotalEur", amount_value, 90,
               "Guest total EUR pattern"%string)
    else if tjanar && has_eur_symbol
    then Some (u "hostEarningsEur", amount_value, 80,
               "Du tjänar EUR pattern"%string)
    else if tjanar && has_sek_symbol
    then Some (u "hostEarningsSek", amount_value, 85,
               "Du tjänar SEK pattern"%string)
    else if contains (u "utbetalning") ctx && has_sek_symbol
    then
      match search true natter_re ctx with
      | Some _ =>
          match search true (natter_then (value a)) ctx with
          | Some _ =>
              Some (u "hostEarningsSek", amount_value, 95,
                    "Utbetalning total after kr SEK x nätter"%string)
          | None =>
              Some (u "hostEarningsSek", amount_value, 75,
                    "Utbetalning per-night rate before kr SEK x nätter"%string)
          end
      | None =>
          Some (u "hostEarningsSek", amount_value, 90,
                "Utbetalning SEK pattern"%string)
      end
    else if contains (u "städ") ctx && has_eur_symbol
    then Some (u "cleaningFeeEur", amount_value, 60,
               "Cleaning fee EUR pattern"%string)
    else None.

Definition priorities_of (amts : list entity) : list priority_entry :=
  flat_map (fun a => match classify_amount a with
                     | Some e => [e]
                     | None => []
                     end) amts.

(** [priorities.sort(key=lambda x: x[2], reverse=True)]: stable, the
    entries of equal priority keep their order. *)
Fixpoint insert_entry (x : priority_entry) (l : list priority_entry)
    : list priority_entry :=
  match l with
  | [] => [x]
  | h :: t =>
      if entry_priority h <? entry_priority x then x :: l
      else h :: insert_entry x t
  end.

Definition sort_priorities (l : list priority_entry) : list priority_entry :=
  fold_left (fun acc x => insert_entry x acc) l [].

(** The first entry of each field is kept. *)
Fixpoint take_fields (l : list priority_entry) (seen_fields : list text)
    (d : results) : results :=
  match l with
  | [] => d
  | e :: rest =>
      if existsb (text_eqb (entry_field e)) seen_fields
      then take_fields rest seen_fields d
      else take_fields rest (entry_field e :: seen_fields)
                       (put (entry_field e) (RNum (entry_value e)) d)
  end.

Definition basic_extraction (email_text email_type : text) : results :=
  let cands := extract_candidate_entities email_text in
  let priorities := sort_priorities (priorities_of (amounts cands)) in
  add_names (names cands) (take_fields priorities [] []).

(** ** [extract_data]: the learned assignment *)

(** [extract_context_features]: the position ratio and the sixteen
    flags, in the order of the dictionary. *)
Definition features := (Q * list bool)%type.

Definition extract_context_features (e : entity) (txt email_type : text)
    : features :=
  let ctx := lower (context e) in
  let inc := fun w => contains (u w) ctx in
  (Qmake (Z.of_nat (start e)) (Pos.of_nat (length txt)),
   [inc "totalt"%string;
    inc "du tjänar"%string || inc "tjänar"%string;
    inc "earnings"%string;
    inc "utbetalning"%string || inc "payout"%string;
    inc "gästens"%string || inc "guest total"%string;
    inc "städ"%string || inc "cleaning"%string;
    inc "service"%string || inc "avgift"%string;
    inc "natt"%string || inc "nightly"%string;
    inc "eur"%string || inc "€"%string;
    inc "kr"%string || inc "sek"%string;
    text_eqb email_type (u "booking_confirmation");
    text_eqb email_type (u "payout");
    text_eqb email_type (u "booking_reminder");
    inc "totalt"%string || inc "total"%string;
    inc "värd"%string || inc "host"%string;
    inc "gäst"%string || inc "guest"%string]).

(** A fitted [RandomForestClassifier], by what it answers. *)
Record classifier := mkclassifier {
  predict : features -> text;
  predict_proba : features -> list Q
}.

Definition max_q (l : list Q) : Q :=
  match l with
  | [] => 0%Q
  | h :: t => fold_left (fun m x => if Qle_bool m x then x else m) t h
  end.

Fixpoint assign_amounts (clf : classifier) (txt email_type : text)
    (amts : list entity) (d : results) : results :=
  match amts with
  | [] => d
  | a :: rest =>
      let fv := extract_context_features a txt email_type in
      let predicted_field := predict clf fv in
      let confidence := max_q (predict_proba clf fv) in
      let amount_value := amount_of (value a) in
      if negb (Qle_bool confidence (1 # 2))
         && negb (text_eqb predicted_field (u "other"))
         && flt_gt amount_value 0
      then assign_amounts clf txt email_type rest
             (put predicted_field (RNum amount_value) d)
      else assign_amounts clf txt email_type rest d
  end.

(** [self.amount_classifier] is [None] until [train_classifiers] or
    [load_model] sets it. *)
Definition extract_data (amount_classifier : option classifier)
    (email_text email_type : text) : results :=
  match amount_classifier with
  | None => basic_extraction email_text email_type
  | Some clf =>
      let cands := extract_candidate_entities email_text in
      add_names (names cands)
        (assign_amounts clf email_text email_type (amounts cands) [])
  end.

End MLExtractor.

(* ================================================================== *)
(** * Part IV. [EnhancedPayoutParser] and the entry point [main]       *)
(* ================================================================== *)

(** ** [enhanced_payout_parser.py] *)

Module EnhancedPayoutParser.
Import Py.

(** The regular and the non-breaking space are removed. *)
Definition despace (s : text) : text := remove_char 160 (remove_char 32 s).

(** The string [normalize_amount] hands to [float]. *)
Definition cleaned_amount (amount_str : text) : text :=
  let cleaned := despace amount_str in
  if has_char 44 cleaned && has_char 46 cleaned then
    let last_comma := rfind 44 cleaned in
    let last_dot := rfind 46 cleaned in
    if last_comma <? last_dot then remove_char 44 cleaned
    else replace_char 44 46 (remove_char 46 cleaned)
  else if has_char 44 cleaned then
    let cleaned :=
      if (length (last (split_on 44 cleaned) []) =? 2)%nat
      then replace_char 44 46 cleaned
      else cleaned in
    match split_on 44 cleaned with
    | [a; b] => if (length b =? 2)%nat then a ++ u "." ++ b else cleaned
    | _ => cleaned
    end
  else cleaned.

Definition normalize_amount (amount_str : text) : result pyfloat :=
  if negb (truthy amount_str) then Ok zero
  else catch_value_error (py_float (cleaned_amount amount_str)) (Ok zero).

End EnhancedPayoutParser.

(** ** [classify_email.py] *)

Module ClassifyEmail.
Import Py.
Import EmailClassifier.

Definition despace (s : text) : text := remove_char 160 (remove_char 32 s).

(** The copy of [normalize_amount] this script carries, and the string
    it hands to [float]. *)
Definition cleaned_amount (amount_str : text) : text :=
  let cleaned := despace amount_str in
  if has_char 44 cleaned && has_char 46 cleaned then
    let last_comma := rfind 44 cleaned in
    let last_dot := rfind 46 cleaned in
    if last_comma <? last_dot then remove_char 44 cleaned
    else replace_char 44 46 (remove_char 46 cleaned)
  else if has_char 44 cleaned then
    match split_on 44 cleaned with
    | [a; b] => if (length b =? 2)%nat then a ++ u "." ++ b else cleaned
    | _ => cleaned
    end
  else cleaned.

Definition normalize_amount (amount_str : text) : result pyfloat :=
  if negb (truthy amount_str) then Ok zero
  else catch_value_error (py_float (cleaned_amount amount_str)) (Ok zero).

Definition eur_pattern_0 : regex :=
  Eval vm_compute in compile
  "€\s*(\d+(?:[\s,]\d{3})*(?:[.,]\d{2})?)\s*\+\s*€\s*(\d+(?:[\s,]\d{3})*(?:[.,]\d{2})?)\s*=\s*(\d+(?:[\s,]\d{3})*(?:[.,]\d{2})?)\s*kr".
Definition eur_pattern_1 : regex :=
  Eval vm_compute in compile
  "€\s*(\d+(?:[\s,]\d{3})*(?:[.,]\d{2})?)\s*=\s*(\d+(?:[\s,]\d{3})*(?:[.,]\d{2})?)\s*kr".
Definition eur_pattern_2 : regex :=
  Eval vm_compute in compile "€\s*(\d+(?:[\s,]\d{3})*(?:[.,]\d{2})?)".
Definition eur_pattern_3 : regex :=
  Eval vm_compute in compile "(\d+(?:[\s,]\d{3})*(?:[.,]\d{2})?)\s*€".

(** The euro amounts of a payout: host earnings, cleaning fee, total. *)
Record eur_breakdown := mkeur {
  eur_host : pyfloat;
  eur_cleaning : pyfloat;
  eur_total : pyfloat
}.

Definition flt_add (a b : pyfloat) : pyfloat :=
  match a, b with
  | Fin x, Fin y => Fin (Qred (x + y))
  | NaN, _ | _, NaN => NaN
  | Inf s, Fin _ => Inf s
  | Fin _, Inf s => Inf s
  | Inf s, Inf t => if Bool.eqb s t then Inf s else NaN
  end.

Definition norm (w : text) : result pyfloat := normalize_amount w.

Definition extract_eur_breakdown (body : text) : result eur_breakdown :=
  match search true eur_pattern_0 body with
  | Some m =>
      eur1 <- norm (group_str m 1) ;;
      eur2 <- norm (group_str m 2) ;;
      Ok (mkeur eur1 eur2 (flt_add eur1 eur2))
  | None =>
      match search true eur_pattern_1 body with
      | Some m =>
          eur <- norm (group_str m 1) ;;
          Ok (mkeur eur zero eur)
      | None =>
          let found :=
            flat_map (fun w =>
                        match norm w with
                        | Ok (Fin q) =>
                            if negb (Qle_bool q 0) then [q] else []
                        | _ => []
                        end)
                     (findall1 true eur_pattern_2 body
                      ++ findall1 true eur_pattern_3 body) in
          match found with
          | [] => Ok (mkeur zero zero zero)
          | _ =>
              let top := Fin (MLExtractor.max_q found) in
              Ok (mkeur top zero top)
          end
      end
  end.

(** The payout override of [main]: exact euro amounts from the body. *)
Definition enhance_payout (body : text) (extracted_data : dict) : dict :=
  match extract_eur_breakdown body with
  | Ok e =>
      if flt_gt (eur_total e) 0 then
        let d1 := set hostEarningsEur (VFloat (eur_total e)) extracted_data in
        if flt_gt (eur_cleaning e) 0
        then set hostEarningsEur (VFloat (eur_host e))
               (set cleaningFeeEur (VFloat (eur_cleaning e)) d1)
        else d1
      else extracted_data
  | Raise _ => extracted_data
  end.

(** The object [main] prints, as the list of its keys and values.  The
    email type and its confidence come from the trained classifier. *)
Definition result_json (email_type : text) (confidence : Q)
    (subject : text) (extracted_data : dict) : list (string * pyval) :=
  let is_payout := text_eqb email_type payout in
  [("emailType", VStr email_type);
   ("confidence", VFloat (Fin confidence));
   ("bookingCode", extracted_data bookingCode);
   ("guestName", extracted_data guestName);
   ("status",
    if text_eqb email_type cancellation then VStr (u "cancelled")
    else if text_eqb email_type booking_confirmation
    then VStr (u "confirmed") else VNone);
   ("amount", extracted_data amount);
   ("currency", extracted_data currency);
   ("debug_subject", if is_payout then VStr subject else VNone);
   ("debug_amount_match",
    if is_payout && has extracted_data amount
    then VStr (u "Found amount in text")
    else if is_payout then VStr (u "No amount match") else VNone);
   ("checkInDate", extracted_data checkInDate);
   ("checkOutDate", extracted_data checkOutDate);
   ("originalCheckInDate", extracted_data originalCheckInDate);
   ("originalCheckOutDate", extracted_data originalCheckOutDate);
   ("nights", extracted_data nights);
   ("guestTotalEur", extracted_data guestTotalEur);
   ("hostEarningsEur", extracted_data hostEarningsEur);
   ("cleaningFeeEur", extracted_data cleaningFeeEur);
   ("nightlyRateEur", extracted_data nightlyRateEur);
   ("serviceFeeEur", extracted_data serviceFeeEur);
   ("propertyTaxEur", extracted_data propertyTaxEur);
   ("guestTotalSek", extracted_data guestTotalSek);
   ("hostEarningsSek", extracted_data hostEarningsSek);
   ("cleaningFeeSek", extracted_data cleaningFeeSek);
   ("serviceFeeSek", extracted_data serviceFeeSek);
   ("guestCount", extracted_data guestCount)]%string.

Fixpoint json_get (k : string) (o : list (string * pyval)) : option pyval :=
  match o with
  | [] => None
  | (k', v) :: rest => if String.eqb k' k then Some v else json_get k rest
  end.

(** [main], from the classified email on. *)
Definition main (now : date) (email_type : text) (confidence : Q)
    (subject sender body : text) (email_date : option text)
    : result (list (string * pyval)) :=
  extracted_data <-
    extract_booking_data now email_type subject sender body email_date None ;;
  let extracted_data :=
    if text_eqb email_type payout
    then enhance_payout body extracted_data
    else extracted_data in
  Ok (result_json email_type confidence subject extracted_data).

End ClassifyEmail.

(** ** [ml_classifier_bridge.py]: class [MLClassifierBridge]

    The file is stored as a CP949 reading of its UTF-8 bytes; the
    literals below are those of the text read back as UTF-8. *)

Module MLClassifierBridge.
Import Py.
Import EmailClassifier.
Import MLExtractor.

(** The [result] dictionary of [classify_and_extract]: keys in order of
    insertion. *)
Definition record := list (text * pyval).

Fixpoint rget (k : text) (d : record) : option pyval :=
  match d with
  | [] => None
  | (k', v) :: rest => if text_eqb k' k then Some v else rget k rest
  end.

(** [d[k] = v] *)
Fixpoint rput (k : text) (v : pyval) (d : record) : record :=
  match d with
  | [] => [(k, v)]
  | (k', v') :: rest =>
      if text_eqb k' k then (k', v) :: rest else (k', v') :: rput k v rest
  end.

(** The keys of [data] in [extract_booking_data], as written. *)
Definition key_name (k : key) : text :=
  match k with
  | emailType => u "emailType"
  | bookingCode => u "bookingCode"
  | guestName => u "guestName"
  | amount => u "amount"
  | currency => u "currency"
  | checkInDate => u "checkInDate"
  | checkOutDate => u "checkOutDate"
  | nights => u "nights"
  | guestTotalEur => u "guestTotalEur"
  | hostEarningsEur => u "hostEarningsEur"
  | cleaningFeeEur => u "cleaningFeeEur"
  | nightlyRateEur => u "nightlyRateEur"
  | serviceFeeEur => u "serviceFeeEur"
  | propertyTaxEur => u "propertyTaxEur"
  | guestTotalSek => u "guestTotalSek"
  | hostEarningsSek => u "hostEarningsSek"
  | cleaningFeeSek => u "cleaningFeeSek"
  | serviceFeeSek => u "serviceFeeSek"
  | guestCount => u "guestCount"
  | originalCheckInDate => u "originalCheckInDate"
  | originalCheckOutDate => u "originalCheckOutDate"
  end.

(** [old_data.items()]: the keys in the order [data] was built. *)
Definition data_keys : list key :=
  [emailType; bookingCode; guestName; amount; currency; checkInDate;
   checkOutDate; nights; guestTotalEur; hostEarningsEur; cleaningFeeEur;
   nightlyRateEur; serviceFeeEur; propertyTaxEur; guestTotalSek;
   hostEarningsSek; cleaningFeeSek; serviceFeeSek; guestCount;
   originalCheckInDate; originalCheckOutDate].

Definition is_none (v : pyval) : bool :=
  match v with VNone => true | _ => false end.

Definition invalid_patterns : list string :=
  ["timmar efter det att din gäst"; "efter det att din gäst"; "din gäst";
   "bekräftelse"; "bokning"; "reservation"; "checka"; "airbnb";
   "confirmed"; "confirmation"; "your guest"; "guest"; "booking";
   "check-in"; "checkout"]%string.

(** [_is_invalid_guest_name] *)
Definition _is_invalid_guest_name (name : rval) : bool :=
  match name with
  | RNum _ => true
  | RStr w =>
      if negb (truthy w) then true
      else
        let name := lower (strip w) in
        if existsb (fun pattern => contains (u pattern) name)
                   invalid_patterns then true
        else if (50 <? length name)%nat then true
        else has_char 46 name || has_char 33 name || has_char 63 name
  end.

Definition to_pyval (v : rval) : pyval :=
  match v with
  | RNum x => VFloat x
  | RStr w => VStr w
  end.

(** [for key, value in old_data.items(): if value is not None: ...] *)
Fixpoint copy_old (keys : list key) (old_data : dict) (result : record)
    : record :=
  match keys with
  | [] => result
  | k :: rest =>
      if is_none (old_data k) then copy_old rest old_data result
      else copy_old rest old_data (rput (key_name k) (old_data k) result)
  end.

(** [for key, value in extracted_data.items(): ...] *)
Fixpoint override (items : results) (result : record) : record :=
  match items with
  | [] => result
  | (k, v) :: rest =>
      if text_eqb k (u "guestName") && _is_invalid_guest_name v
      then override rest result
      else override rest (rput k (to_pyval v) result)
  end.

(** [classify_and_extract], from the classified email on: the type and
    its confidence come from the trained classifier, [amount_classifier]
    is what [load_model] left in the extractor. *)
Definition classify_and_extract (now : date)
    (amount_classifier : option classifier)
    (email_type : text) (confidence : Q)
    (subject sender body : text) (email_date : option text)
    : result record :=
  let extracted_data := extract_data amount_classifier body email_type in
  old_data <- extract_booking_data now email_type subject sender body
                                   email_date None ;;
  let result := copy_old data_keys old_data [] in
  let result := override extracted_data result in
  let result := rput (u "emailType") (VStr email_type) result in
  Ok (rput (u "confidence") (VFloat (Fin confidence)) result).

End MLClassifierBridge.

(** ** [enhanced_payout_parser.py]: the parser of a payout email

    The methods of [EnhancedPayoutParser] besides [normalize_amount]:
    the class as the file defines it, with its six euro patterns; the
    copy in [classify_email.py] has four and a different loop. *)

Module PayoutParser.
Import Py.

Definition eur_source_0 : string :=
  "€\s*(\d+(?:[\s,]\d{3})*(?:[.,]\d{2})?)\s*\+\s*€\s*(\d+(?:[\s,]\d{3})*(?:[.,]\d{2})?)\s*=\s*(\d+(?:[\s,]\d{3})*(?:[.,]\d{2})?)\s*kr".
Definition eur_source_1 : string :=
  "€\s*(\d+(?:[\s,]\d{3})*(?:[.,]\d{2})?)\s*=\s*(\d+(?:[\s,]\d{3})*(?:[.,]\d{2})?)\s*kr".
Definition eur_source_2 : string :=
  "€\s*(\d+(?:\.\d{3})*(?:,\d{2})?)\s*\+\s*€\s*(\d+(?:\.\d{3})*(?:,\d{2})?)\s*=\s*(\d+(?:\.\d{3})*(?:,\d{2})?)\s*kr".
Definition eur_source_3 : string :=
  "€\s*(\d+(?:[\s,]\d{3})*(?:[.,]\d{2})?)".
Definition eur_source_4 : string :=
  "(\d+(?:[\s,]\d{3})*(?:[.,]\d{2})?)\s*€".
Definition eur_source_5 : string :=
  "(\d+(?:[\s,]\d{3})*(?:[.,]\d{2})?)\s*EUR".

Definition eur_pattern_0 : regex := Eval vm_compute in compile eur_source_0.
Definition eur_pattern_1 : regex := Eval vm_compute in compile eur_source_1.
Definition eur_pattern_2 : regex := Eval vm_compute in compile eur_source_2.
Definition eur_pattern_3 : regex := Eval vm_compute in compile eur_source_3.
Definition eur_pattern_4 : regex := Eval vm_compute in compile eur_source_4.
Definition eur_pattern_5 : regex := Eval vm_compute in compile eur_source_5.

(** [self.eur_patterns]: each pattern as written and as compiled. *)
Definition eur_patterns : list (string * regex) :=
  [(eur_source_0, eur_pattern_0); (eur_source_1, eur_pattern_1);
   (eur_source_2, eur_pattern_2); (eur_source_3, eur_pattern_3);
   (eur_source_4, eur_pattern_4); (eur_source_5, eur_pattern_5)].

Definition sek_subject_pattern : regex :=
  Eval vm_compute in compile
  "En utbetalning på ([\d\s,]+(?:\.\d{2})?) *kr|A ([\d\s,]+(?:\.\d{2})?) *kr payout was sent".

(** [len(match.groups())]: the number of groups of the pattern. *)
Fixpoint group_count (r : regex) : nat :=
  match r with
  | RCat a b | RAlt a b => (group_count a + group_count b)%nat
  | RRep a _ _ _ => group_count a
  | RGroup _ a => S (group_count a)
  | _ => 0%nat
  end.

Definition normalize_amount := EnhancedPayoutParser.normalize_amount.

(** [extract_sek_from_subject]: [None] without a match. *)
Definition extract_sek_from_subject (subject : text)
    : result (option pyfloat) :=
  match search true sek_subject_pattern subject with
  | Some m =>
      x <- normalize_amount
             (match group_or (group m 1) (group m 2) with
              | Some w => w
              | None => []
              end) ;;
      Ok (Some x)
  | None => Ok None
  end.

(** The dictionary [extract_eur_breakdown] returns. *)
Record breakdown := mkbreakdown {
  hostEarningsEur : pyfloat;
  cleaningFeeEur : pyfloat;
  totalEur : pyfloat;
  payoutSek : pyfloat
}.

(** The loop over the calculation patterns; [None] when it ends without
    a [return]. *)
Fixpoint calculation_loop (patterns : list (string * regex)) (body : text)
    : result (option breakdown) :=
  match patterns with
  | [] => Ok None
  | (pattern, r) :: rest =>
      match search true r body with
      | Some m =>
          if (group_count r =? 3)%nat then
            if has_char 43 (u pattern) then
              eur1 <- normalize_amount (group_str m 1) ;;
              eur2 <- normalize_amount (group_str m 2) ;;
              sek <- normalize_amount (group_str m 3) ;;
              Ok (Some (mkbreakdown eur1 eur2
                          (ClassifyEmail.flt_add eur1 eur2) sek))
            else
              eur <- normalize_amount (group_str m 1) ;;
              sek <- normalize_amount (group_str m 2) ;;
              Ok (Some (mkbreakdown eur zero eur sek))
          else calculation_loop rest body
      | None => calculation_loop rest body
      end
  end.

(** The amounts above zero the generic patterns find, in order. *)
Fixpoint generic_amounts (patterns : list (string * regex)) (body : text)
    : list Q :=
  match patterns with
  | [] => []
  | (_, r) :: rest =>
      flat_map (fun w =>
                  match normalize_amount w with
                  | Ok (Fin q) => if negb (Qle_bool q 0) then [q] else []
                  | _ => []
                  end)
               (EmailClassifier.findall1 true r body)
      ++ generic_amounts rest body
  end.

Definition extract_eur_breakdown (body : text) : result breakdown :=
  found <- calculation_loop (firstn 3 eur_patterns) body ;;
  match found with
  | Some results => Ok results
  | None =>
      match generic_amounts (skipn 3 eur_patterns) body with
      | [] => Ok (mkbreakdown zero zero zero zero)
      | eur_amounts =>
          let top := Fin (MLExtractor.max_q eur_amounts) in
          Ok (mkbreakdown top zero top zero)
      end
  end.

(** [a / b] for a divisor above zero, which is where the source
    divides. *)
Definition quotient (a b : pyfloat) : pyfloat :=
  match a, b with
  | Fin x, Fin y => Fin (Qred (x / y))
  | Fin _, Inf _ => zero
  | Inf s, Fin _ => Inf s
  | _, _ => NaN
  end.

(** The integer nearest to [q], a tie going to the even one. *)
Definition round_half_even (q : Q) : Z :=
  let n := Qnum q in
  let d := Zpos (Qden q) in
  let f := n / d in
  let twice := 2 * (n mod d) in
  if twice <? d then f
  else if d <? twice then f + 1
  else if Z.even f then f else f + 1.

(** [round(x, 4)] *)
Definition round4 (x : pyfloat) : pyfloat :=
  match x with
  | Fin q => Fin (decimal (round_half_even (q * 10000)) (-4))
  | other => other
  end.

(** The dictionary [parse_payout_email] returns; its [emailType] is
    ["payout"]. *)
Record payout_email := mkpayout {
  emailType : text;
  amounts : breakdown;
  exchangeRate : option pyfloat
}.

Definition with_sek (sek : pyfloat) (b : breakdown) : breakdown :=
  mkbreakdown (hostEarningsEur b) (cleaningFeeEur b) (totalEur b) sek.

Definition parse_payout_email (subject body : text) : result payout_email :=
  let result := mkbreakdown zero zero zero zero in
  sek_amount <- extract_sek_from_subject subject ;;
  let subject_sek :=
    match sek_amount with
    | Some x => if flt_truthy x then Some x else None
    | None => None
    end in
  let result :=
    match subject_sek with
    | Some x => with_sek x result
    | None => result
    end in
  eur_data <- extract_eur_breakdown body ;;
  let result := eur_data in
  let result :=
    if flt_gt (payoutSek eur_data) 0
    then with_sek (payoutSek eur_data) result
    else if negb (flt_truthy (payoutSek result)) then
      match subject_sek with
      | Some x => with_sek x result
      | None => result
      end
    else result in
  Ok (mkpayout (u "payout") result
        (if flt_gt (totalEur result) 0 && flt_gt (payoutSek result) 0
         then Some (round4 (quotient (payoutSek result) (totalEur result)))
         else None)).

End PayoutParser.


(* ================================================================== *)
(** * Part V. Properties                                               *)
(* ================================================================== *)

Import Py.
Import EmailClassifier.

Unset Implicit Arguments.

(** A day for the clock of the closed examples; the sample mail of the
    [__main__] block of [ml_extractor.py]. *)
Definition clock : date := mkdate 2025 9 1.

Definition henri_mail : text :=
  nl ++ u "    SOME TEXT BEFORE" ++ nl
     ++ u "    TOTALT (EUR)   € 389,13" ++ nl
     ++ u "    MORE TEXT" ++ nl
     ++ u "    Du tjänar: € 128,50" ++ nl
     ++ u "    Bokning bekräftad - Henri Conradsen anländer 5 apr." ++ nl
     ++ u "    ".

(** ** The reference year *)

Lemma make_date_ok y m d t :
  make_date y m d = Ok t -> valid_date y m d = true /\ t = mkdate y m d.
Proof.
  unfold make_date. destruct (valid_date y m d); intros H.
  - inversion H. split; reflexivity.
  - discriminate H.
Qed.

Lemma make_date_valid y m d :
  valid_date y m d = true -> make_date y m d = Ok (mkdate y m d).
Proof. unfold make_date. intros ->. reflexivity. Qed.

Lemma strptime_ymd_ok_year s t :
  strptime_ymd s = Ok t -> 1 <= year_of t <= 9999.
Proof.
  unfold strptime_ymd.
  destruct (match_start true strptime_re s) as [m|]; [|discriminate].
  destruct (m_end m =? length s)%nat; [|discriminate].
  destruct (py_int (group_str m 1)) as [y|]; [|discriminate]. simpl.
  destruct (py_int (group_str m 2)) as [mo|]; [|discriminate]. simpl.
  destruct (py_int (group_str m 3)) as [d|]; [|discriminate]. simpl.
  intros H. apply make_date_ok in H. destruct H as [Hv ->]. simpl.
  unfold valid_date in Hv.
  repeat (apply andb_prop in Hv; destruct Hv as [Hv ?]).
  apply Z.leb_le in Hv. lia.
Qed.

(** The reference year is the year of the reference date. *)
Lemma reference_of_year now email_date scanning_year ref :
  reference_of now email_date scanning_year = Ok ref ->
  snd ref = year_of (fst ref).
Proof.
  unfold reference_of.
  destruct (match email_date with Some w => truthy w | None => false end).
  - destruct (strptime_ymd _) as [t|e]; simpl; intros H; inversion H;
      reflexivity.
  - destruct scanning_year as [y|].
    + destruct (y =? 0).
      * intros H; inversion H; reflexivity.
      * destruct (make_date y 6 15) as [t|e] eqn:E; simpl; [|discriminate].
        intros H; inversion H; subst. simpl.
        apply make_date_ok in E. destruct E as [_ ->]. reflexivity.
    + intros H; inversion H; reflexivity.
Qed.

(** C5.  Cross-year rule of [get_reference_year]: when the reference
    date (the email date, else the middle of the scanning year, else
    today) lies in November or December, the booking month is January or
    February, and the booking day placed in the reference year lies more
    than 300 days before the reference date, the year returned is the
    reference year plus one. *)
Theorem cross_year_rule :
  forall (now : date) (email_date : option text) (scanning_year : option Z)
         (anchor : date) (reference_year month day : Z),
    reference_of now email_date scanning_year = Ok (anchor, reference_year) ->
    11 <= month_of anchor ->
    1 <= month <= 2 ->
    valid_date (year_of anchor) month day = true ->
    days_between (mkdate (year_of anchor) month day) anchor < -300 ->
    get_reference_year now email_date month day scanning_year
    = Ok (year_of anchor + 1).
Proof.
  intros now email_date scanning_year anchor reference_year month day
         Href Hnov Hjan Hvalid Hdiff.
  pose proof (reference_of_year _ _ _ _ Href) as Hy. simpl in Hy. subst.
  unfold get_reference_year. rewrite Href. simpl.
  rewrite (make_date_valid _ _ _ Hvalid). simpl.
  replace (11 <=? month_of anchor) with true
    by (symmetry; apply Z.leb_le; exact Hnov).
  replace (month <=? 2) with true by (symmetry; apply Z.leb_le; lia).
  replace (days_between (mkdate (year_of anchor) month day) anchor <? -300)
    with true by (symmetry; apply Z.ltb_lt; exact Hdiff).
  reflexivity.
Qed.

(** The instance of the specification: an email of 2025-12-20 and a
    booking on 5 January resolve to 2026. *)
Lemma cross_year_rule_witness :
  get_reference_year clock (Some (u "2025-12-20")) 1 5 None = Ok 2026.
Proof.
  apply (cross_year_rule clock (Some (u "2025-12-20")) None
           (mkdate 2025 12 20) 2025 1 5).
  - vm_compute. reflexivity.
  - simpl. lia.
  - lia.
  - vm_compute. reflexivity.
  - vm_compute. reflexivity.
Defined.

(** C10.  A booking on 29 February read against an email of 1 March
    2024: the date exists in the reference year, it lies in the past, and
    the function builds 2025-02-29 to try the next year, which raises
    [ValueError] instead of returning 2023, 2024 or 2025. *)
Theorem leap_day_raises :
  forall now : date,
    valid_date 2024 2 29 = true
    /\ reference_of now (Some (u "2024-03-01")) None
       = Ok (mkdate 2024 3 1, 2024)
    /\ get_reference_year now (Some (u "2024-03-01")) 2 29 None
       = Raise ValueError.
Proof. intros now. repeat split; vm_compute; reflexivity. Qed.

(** ** Cancellations *)

(** C2 (as amended).  For every cancellation email the record has no
    host earnings in either currency: both fields stay [None], whatever
    the body says, and [main] prints them as null. *)
Theorem cancellation_earnings_absent :
  forall (now : date) (subject sender body : text)
         (email_date : option text) (scanning_year : option Z),
    exists data,
      extract_booking_data now cancellation subject sender body
                           email_date scanning_year = Ok data
      /\ data hostEarningsEur = VNone
      /\ data hostEarningsSek = VNone
      /\ forall confidence,
           exists out,
             ClassifyEmail.main now cancellation confidence subject sender
                                body email_date = Ok out
             /\ ClassifyEmail.json_get "hostEarningsEur" out = Some VNone
             /\ ClassifyEmail.json_get "hostEarningsSek" out = Some VNone.
Proof.
  intros now subject sender body email_date scanning_year.
  assert (Hblock : forall s d,
             cancellation_block s d hostEarningsEur = d hostEarningsEur
             /\ cancellation_block s d hostEarningsSek = d hostEarningsSek).
  { intros s d. unfold cancellation_block.
    destruct (search false pat_date_range s) as [m|]; [|split; reflexivity].
    destruct (swedish_months (group_str m 3)); split; reflexivity. }
  assert (Hcode : forall s d,
             booking_code_block s d hostEarningsEur = d hostEarningsEur
             /\ booking_code_block s d hostEarningsSek = d hostEarningsSek).
  { intros s d. unfold booking_code_block.
    destruct (search false pat_booking_code s); split; reflexivity. }
  unfold extract_booking_data, ClassifyEmail.main, extract_booking_data.
  change (text_eqb cancellation booking_confirmation) with false.
  change (text_eqb cancellation booking_reminder) with false.
  change (text_eqb cancellation payout) with false.
  change (text_eqb cancellation cancellation) with true.
  cbv iota.
  eexists. split; [reflexivity|].
  destruct (Hblock subject
              (booking_code_block (subject ++ u " " ++ body)
                                  (initial_data cancellation))) as [H1 H2].
  destruct (Hcode (subject ++ u " " ++ body) (initial_data cancellation))
    as [H3 H4].
  split; [rewrite H1, H3; reflexivity|].
  split; [rewrite H2, H4; reflexivity|].
  intros confidence. eexists. split; [reflexivity|].
  unfold ClassifyEmail.result_json. rewrite H1, H2, H3, H4.
  split; reflexivity.
Qed.

(** The claim as stated fails on a cancellation with no payout phrase at
    all: the record carries [None], not zero. *)
Lemma cancellation_earnings_not_zero :
  exists data,
    extract_booking_data clock cancellation
      (u "Avbokad: bokning HMABCDEFGH 3–7 jul") (u "automated@airbnb.com")
      (u "Bokningen har avbokats av gästen.") (Some (u "2025-06-01")) None
    = Ok data
    /\ data hostEarningsEur = VNone
    /\ data hostEarningsSek = VNone
    /\ data hostEarningsEur <> VFloat zero
    /\ data hostEarningsSek <> VFloat zero.
Proof.
  eexists. split; [vm_compute; reflexivity|].
  repeat split; try reflexivity; discriminate.
Qed.

(** ** The cold start of the learned assigner *)

(** C7.  With no trained amount classifier, [extract_data] returns the
    mapping of [basic_extraction], for every text and email type. *)
Theorem cold_start_is_fallback :
  forall email_text email_type : text,
    MLExtractor.extract_data None email_text email_type
    = MLExtractor.basic_extraction email_text email_type.
Proof. intros email_text email_type. unfold MLExtractor.extract_data. reflexivity. Qed.

(** ** The amount normalizers never raise *)

(** C8.  On every string each normalizer returns a float: the value
    [float] gives to the cleaned string, and [0.0] when [float] refuses
    it (or the string is empty). *)
Theorem normalizers_total :
  forall s : text,
    MLExtractor.parse_amount s
    = Ok (match py_float (MLExtractor.clean_amount s) with
          | Ok x => x
          | Raise _ => zero
          end)
    /\ ClassifyEmail.normalize_amount s
       = Ok (match s with
             | [] => zero
             | _ => match py_float (ClassifyEmail.cleaned_amount s) with
                    | Ok x => x
                    | Raise _ => zero
                    end
             end)
    /\ EnhancedPayoutParser.normalize_amount s
       = Ok (match s with
             | [] => zero
             | _ => match py_float (EnhancedPayoutParser.cleaned_amount s)
                    with
                    | Ok x => x
                    | Raise _ => zero
                    end
             end).
Proof.
  assert (Hfloat : forall w, (exists x, py_float w = Ok x)
                             \/ py_float w = Raise ValueError).
  { intros w. unfold py_float.
    destruct (split_sign (strip w)) as [neg r].
    destruct (text_eqb (lower r) (u "inf") || text_eqb (lower r) (u "infinity"));
      [left; eexists; reflexivity|].
    destruct (text_eqb (lower r) (u "nan")); [left; eexists; reflexivity|].
    destruct (digitpart r) as [ip r1].
    destruct (match r1 with 46%N :: r' => digitpart r' | _ => ([], r1) end)
      as [fp r2].
    destruct (ip ++ fp); [right; reflexivity|].
    destruct (match exponent r2 with Some (e, r') => (e, r') | None => (0, r2) end)
      as [ex r3].
    destruct r3; [left; eexists; reflexivity|right; reflexivity]. }
  intros s. split; [|split].
  - unfold MLExtractor.parse_amount.
    destruct (Hfloat (MLExtractor.clean_amount s)) as [[x ->]| ->];
      reflexivity.
  - unfold ClassifyEmail.normalize_amount.
    destruct s as [|c s']; [reflexivity|]. cbn [truthy negb].
    destruct (Hfloat (ClassifyEmail.cleaned_amount (c :: s'))) as [[x ->]| ->];
      reflexivity.
  - unfold EnhancedPayoutParser.normalize_amount.
    destruct s as [|c s']; [reflexivity|]. cbn [truthy negb].
    destruct (Hfloat (EnhancedPayoutParser.cleaned_amount (c :: s')))
      as [[x ->]| ->]; reflexivity.
Qed.

(** ** The matcher is sound for [matches] *)

Section MatcherSound.

Variable ic : bool.

Definition sound_at (step : matcher) (r : regex) : Prop :=
  forall prev s cs k res,
    step prev s cs k = Some res ->
    exists p' s' cs',
      matches ic r prev s cs p' s' cs' /\ k p' s' cs' = Some res.

Lemma rep_loop_sound a greedy :
  sound_at (rmatch ic a) a ->
  forall fuel lo hi,
    sound_at (rep_loop (rmatch ic a) fuel lo hi greedy)
             (RRep a lo hi greedy).
Proof.
  intros IHa. induction fuel as [|f IHf]; intros lo hi prev s cs k res H;
    [discriminate H|].
  assert (Hmore :
    match hi with
    | Some O => None
    | _ => rmatch ic a prev s cs (fun p' s' cs' =>
             if (length s' <? length s)%nat
             then rep_loop (rmatch ic a) f (pred lo) (option_map pred hi)
                           greedy p' s' cs' k
             else None)
    end = Some res ->
    exists p' s' cs',
      matches ic (RRep a lo hi greedy) prev s cs p' s' cs'
      /\ k p' s' cs' = Some res).
  { intros Hm.
    assert (Hhi : hi <> Some 0%nat).
    { destruct hi as [[|n]|]; [discriminate Hm| |]; discriminate. }
    assert (Hrun :
      rmatch ic a prev s cs (fun p' s' cs' =>
        if (length s' <? length s)%nat
        then rep_loop (rmatch ic a) f (pred lo) (option_map pred hi)
                      greedy p' s' cs' k
        else None) = Some res).
    { destruct hi as [[|n]|]; [discriminate Hm| |]; exact Hm. }
    apply IHa in Hrun. destruct Hrun as (p1 & s1 & cs1 & Ha & Hk).
    destruct (length s1 <? length s)%nat eqn:Hlt; [|discriminate Hk].
    apply IHf in Hk. destruct Hk as (p2 & s2 & cs2 & Hrest & Hk).
    exists p2, s2, cs2. split; [|exact Hk].
    eapply M_rep_more; eauto. apply Nat.ltb_lt. exact Hlt. }
  assert (Hstop :
    match lo with O => k prev s cs | S _ => None end = Some res ->
    exists p' s' cs',
      matches ic (RRep a lo hi greedy) prev s cs p' s' cs'
      /\ k p' s' cs' = Some res).
  { destruct lo; [|discriminate]. intros Hk.
    exists prev, s, cs. split; [apply M_rep_stop|exact Hk]. }
  simpl in H. destruct greedy.
  - destruct (match hi with
              | Some O => None
              | _ => rmatch ic a prev s cs _
              end) eqn:E.
    + apply Hmore. exact H.
    + apply Hstop. exact H.
  - destruct (match lo with O => k prev s cs | S _ => None end) eqn:E.
    + apply Hstop. exact H.
    + apply Hmore. exact H.
Qed.

Lemma rmatch_sound r : sound_at (rmatch ic r) r.
Proof.
  induction r as [|c| |negated items|a IHa b IHb|a IHa b IHb
                 |a IHa lo hi greedy|n a IHa| | |negated items];
    intros prev s cs k res H;
    first [ change (rep_loop (rmatch ic a) (S (length s)) lo hi greedy
                             prev s cs k = Some res) in H
          | simpl in H ].
  - exists prev, s, cs. split; [constructor|exact H].
  - destruct s as [|x s']; [discriminate|].
    destruct (char_eq ic c x) eqn:E; [|discriminate].
    exists (Some x), s', cs. split; [constructor; exact E|exact H].
  - destruct s as [|x s']; [discriminate|].
    destruct (x =? 10)%N eqn:E; [discriminate|].
    exists (Some x), s', cs. split; [constructor; exact E|exact H].
  - destruct s as [|x s']; [discriminate|].
    destruct (xorb negated (set_has ic items x)) eqn:E; [|discriminate].
    exists (Some x), s', cs. split; [constructor; exact E|exact H].
  - apply IHa in H. destruct H as (p1 & s1 & cs1 & Ha & H).
    apply IHb in H. destruct H as (p2 & s2 & cs2 & Hb & H).
    exists p2, s2, cs2. split; [econstructor; eauto|exact H].
  - destruct (rmatch ic a prev s cs k) eqn:E.
    + inversion H; subst. apply IHa in E.
      destruct E as (p' & s' & cs' & Ha & Hk).
      exists p', s', cs'. split; [apply M_alt_l; exact Ha|exact Hk].
    + apply IHb in H. destruct H as (p' & s' & cs' & Hb & Hk).
      exists p', s', cs'. split; [apply M_alt_r; exact Hb|exact Hk].
  - revert H. apply rep_loop_sound. exact IHa.
  - apply IHa in H. destruct H as (p' & s' & cs' & Ha & Hk).
    eexists p', s', _. split; [apply M_group; exact Ha|exact Hk].
  - destruct prev; [discriminate|].
    exists None, s, cs. split; [constructor|exact H].
  - destruct (at_end s) eqn:E; [|discriminate].
    exists prev, s, cs. split; [constructor; exact E|exact H].
  - destruct prev as [c|].
    + destruct (xorb negated (set_has ic items c)) eqn:E; [|discriminate].
      exists (Some c), s, cs. split; [constructor; exact E|exact H].
    + destruct negated; [|discriminate].
      exists None, s, cs. split; [constructor|exact H].
Qed.

(** A match found by [search] was read by [matches] from some cursor. *)
Lemma search_from_matches r :
  forall s prev pos m,
    search_from ic r prev s pos = Some m ->
    exists prev0 s0 p' s',
      matches ic r prev0 s0 [] p' s' (m_caps m).
Proof.
  induction s as [|x s IH]; intros prev pos m H; simpl in H.
  - unfold match_here in H.
    destruct (rmatch ic r prev [] [] _) as [[cs s']|] eqn:E;
      [|discriminate].
    inversion H; subst; clear H. apply rmatch_sound in E.
    destruct E as (p' & s1 & cs1 & Hm & Hk). inversion Hk; subst.
    exists prev, [], p', s'. exact Hm.
  - unfold match_here in H.
    destruct (rmatch ic r prev (x :: s) [] _) as [[cs s']|] eqn:E.
    + inversion H; subst; clear H. apply rmatch_sound in E.
      destruct E as (p' & s1 & cs1 & Hm & Hk). inversion Hk; subst.
      exists prev, (x :: s), p', s'. exact Hm.
    + eapply IH. exact H.
Qed.

(** A pattern without groups leaves the groups as they were. *)
Lemma matches_group_free r p s cs p' s' cs' :
  matches ic r p s cs p' s' cs' -> group_free r = true -> cs' = cs.
Proof.
  induction 1; simpl; intros G; try reflexivity.
  - apply andb_prop in G. destruct G as [Ga Gb].
    rewrite IHmatches2 by exact Gb. apply IHmatches1. exact Ga.
  - apply andb_prop in G. destruct G as [Ga _]. apply IHmatches. exact Ga.
  - apply andb_prop in G. destruct G as [_ Gb]. apply IHmatches. exact Gb.
  - rewrite IHmatches2 by exact G. apply IHmatches1. exact G.
  - discriminate G.
Qed.

End MatcherSound.

(** ** The dates of a cancellation *)

Ltac inv H := inversion H; subst; clear H.

Ltac open_matches :=
  repeat match goal with
         | H : matches _ (RCat _ _) _ _ _ _ _ _ |- _ => inv H
         | H : matches _ (RGroup _ _) _ _ _ _ _ _ |- _ => inv H
         | H : matches _ (RAlt _ _) _ _ _ _ _ _ |- _ => inv H
         | H : matches _ (RChar _) _ _ _ _ _ _ |- _ => inv H
         end.

Lemma firstn_three (x y z : code) (s : text) :
  firstn (length (x :: y :: z :: s) - length s) (x :: y :: z :: s)
  = [x; y; z].
Proof.
  replace (length (x :: y :: z :: s) - length s)%nat with 3%nat
    by (cbn [length]; lia).
  reflexivity.
Qed.

(** The third group of the date-range pattern is one of its twelve month
    names, each a key of [swedish_months]. *)
Lemma date_range_month prev s0 p' s' cs :
  matches false pat_date_range prev s0 [] p' s' cs ->
  exists g1 g2 n3 w3 mm,
    cs = [(3%nat, (n3, w3)); (2%nat, g2); (1%nat, g1)]
    /\ swedish_months w3 = Some mm.
Proof.
  intros H. unfold pat_date_range in H. open_matches;
    repeat match goal with
           | H : matches _ (RRep _ _ _ _) _ _ _ _ _ _ |- _ =>
               apply matches_group_free in H; [subst|reflexivity]
           end;
    repeat match goal with
           | H : char_eq false _ _ = true |- _ =>
               apply N.eqb_eq in H; subst
           end;
    rewrite firstn_three;
    do 4 eexists; eexists; (split; [reflexivity|vm_compute; reflexivity]).
Qed.

(** C9.  For every cancellation email whose subject matches the
    date-range pattern, check-in and check-out are written with the year
    2025, the month of the match and its two days; the email date, the
    scanning year and the clock play no part. *)
Theorem cancellation_year_2025 :
  forall (now : date) (subject sender body : text)
         (email_date : option text) (scanning_year : option Z)
         (m : rmatch_obj),
    search false pat_date_range subject = Some m ->
    exists mm data,
      swedish_months (group_str m 3) = Some mm
      /\ extract_booking_data now cancellation subject sender body
                              email_date scanning_year = Ok data
      /\ data checkInDate
         = VStr (u "2025-" ++ mm ++ u "-" ++ zfill2 (group_str m 1))
      /\ data checkOutDate
         = VStr (u "2025-" ++ mm ++ u "-" ++ zfill2 (group_str m 2)).
Proof.
  intros now subject sender body email_date scanning_year m Hsearch.
  pose proof Hsearch as Hm. unfold search in Hm.
  apply search_from_matches in Hm.
  destruct Hm as (prev0 & s0 & p' & s' & Hm).
  apply date_range_month in Hm.
  destruct Hm as (g1 & g2 & n3 & w3 & mm & Hcaps & Hmonth).
  assert (Hg3 : group_str m 3 = w3).
  { unfold group_str, group. rewrite Hcaps. reflexivity. }
  exists mm. eexists. split; [rewrite Hg3; exact Hmonth|].
  unfold extract_booking_data.
  change (text_eqb cancellation booking_confirmation) with false.
  change (text_eqb cancellation booking_reminder) with false.
  change (text_eqb cancellation payout) with false.
  change (text_eqb cancellation cancellation) with true.
  cbv iota. split; [reflexivity|].
  unfold cancellation_block. rewrite Hsearch, Hg3, Hmonth.
  split; reflexivity.
Qed.

(** A subject with a date range, read against an email of 2023 and a
    scanning year of 2022: the dates still carry 2025. *)
Lemma cancellation_year_2025_witness :
  exists mm data,
    mm = u "07"
    /\ extract_booking_data clock cancellation
         (u "Avbokad: bokning HMABCDEFGH 3–7 jul") (u "automated@airbnb.com")
         (u "Bokningen har avbokats.") (Some (u "2023-06-20")) (Some 2022)
       = Ok data
    /\ data checkInDate = VStr (u "2025-07-03")
    /\ data checkOutDate = VStr (u "2025-07-07").
Proof.
  destruct (cancellation_year_2025 clock
              (u "Avbokad: bokning HMABCDEFGH 3–7 jul")
              (u "automated@airbnb.com") (u "Bokningen har avbokats.")
              (Some (u "2023-06-20")) (Some 2022)
              (mkmatch 28 35 (u "3–7 jul")
                 [(3%nat, (3%nat, u "jul")); (2%nat, (5%nat, u "7"));
                  (1%nat, (7%nat, u "3"))]))
    as (mm & data & Hmm & Hdata & Hin & Hout).
  - vm_compute. reflexivity.
  - exists mm, data.
    assert (E : mm = u "07").
    { vm_compute in Hmm. inversion Hmm. reflexivity. }
    subst mm. repeat split; assumption.
Defined.

(** ** The priority of the TOTALT (EUR) label *)

Import MLExtractor.

(** An amount candidate with a positive value whose context window
    carries the label "TOTALT (EUR)" (or "totalt" and "eur" apart). *)
Definition totalt_eur_labelled (a : entity) : bool :=
  let ctx := lower (context a) in
  negb (flt_le (amount_of (value a)) 0)
  && (contains (u "totalt (eur)") ctx
      || (contains (u "totalt") ctx && contains (u "eur") ctx)).

Definition is_top (e : priority_entry) : bool := entry_priority e =? 100.

Lemma text_eqb_eq a : forall b, text_eqb a b = true -> a = b.
Proof.
  induction a as [|x a IH]; intros [|y b] H; try discriminate H.
  - reflexivity.
  - simpl in H. apply andb_prop in H. destruct H as [Hx Hab].
    apply N.eqb_eq in Hx. subst. f_equal. apply IH. exact Hab.
Qed.

Lemma text_eqb_refl a : text_eqb a a = true.
Proof.
  induction a as [|x a IH]; [reflexivity|].
  simpl. rewrite N.eqb_refl. exact IH.
Qed.

Lemma get_put_same k v d : get k (put k v d) = Some v.
Proof.
  induction d as [|[k' v'] d IH]; simpl.
  - rewrite text_eqb_refl. reflexivity.
  - destruct (text_eqb k' k) eqn:E; simpl; rewrite E; [reflexivity|exact IH].
Qed.

Lemma get_put_other k f v d :
  text_eqb k f = false -> get f (put k v d) = get f d.
Proof.
  intros Hkf. induction d as [|[k' v'] d IH]; simpl.
  - rewrite Hkf. reflexivity.
  - destruct (text_eqb k' k) eqn:E; simpl.
    + apply text_eqb_eq in E. subst k'. rewrite Hkf. reflexivity.
    + destruct (text_eqb k' f); [reflexivity|exact IH].
Qed.

Lemma add_names_other f ns :
  text_eqb (u "guestName") f = false ->
  forall d, get f (add_names ns d) = get f d.
Proof.
  intros Hf. induction ns as [|n ns IH]; intros d; simpl; [reflexivity|].
  destruct (rval_truthy (get (u "guestName") d)); rewrite IH;
    [reflexivity|].
  apply get_put_other. exact Hf.
Qed.

(** A field already seen is not written again. *)
Lemma take_fields_seen f l :
  forall seen d,
    existsb (text_eqb f) seen = true ->
    get f (take_fields l seen d) = get f d.
Proof.
  induction l as [|e l IH]; intros seen d Hseen; simpl; [reflexivity|].
  destruct (existsb (text_eqb (entry_field e)) seen) eqn:E.
  - apply IH. exact Hseen.
  - rewrite IH by (simpl; rewrite Hseen; apply orb_true_r).
    apply get_put_other.
    destruct (text_eqb (entry_field e) f) eqn:Ef; [|reflexivity].
    apply text_eqb_eq in Ef. subst f. rewrite Hseen in E. discriminate E.
Qed.

Lemma classify_priority_le a e :
  classify_amount a = Some e -> entry_priority e <= 100.
Proof.
  unfold classify_amount.
  repeat match goal with
         | |- context [if ?b then _ else _] => destruct b
         | |- context [match search ?i ?r ?s with _ => _ end] =>
             destruct (search i r s)
         end;
    intros H; inversion H; subst; cbv; discriminate.
Qed.

Lemma classify_labelled a :
  totalt_eur_labelled a = true ->
  classify_amount a
  = Some (u "hostEarningsEur", amount_of (value a), 100,
          "TOTALT EUR pattern"%string).
Proof.
  unfold totalt_eur_labelled, classify_amount. intros H.
  apply andb_prop in H. destruct H as [Hpos Hlab].
  apply negb_true_iff in Hpos. rewrite Hpos, Hlab. reflexivity.
Qed.

Lemma classify_unlabelled a e :
  totalt_eur_labelled a = false ->
  classify_amount a = Some e -> entry_priority e < 100.
Proof.
  unfold totalt_eur_labelled, classify_amount.
  destruct (flt_le (amount_of (value a)) 0); [discriminate|].
  simpl. intros ->.
  repeat match goal with
         | |- context [if ?b then _ else _] => destruct b
         | |- context [match search ?i ?r ?s with _ => _ end] =>
             destruct (search i r s)
         end;
    intros H; inversion H; subst; cbv; reflexivity.
Qed.

(** The entries of the candidates: none above 100, and the first entry
    of priority 100 is that of the first labelled candidate. *)
Lemma priorities_top amts :
  Forall (fun e => entry_priority e <= 100) (priorities_of amts)
  /\ find is_top (priorities_of amts)
     = option_map (fun a => (u "hostEarningsEur", amount_of (value a), 100,
                             "TOTALT EUR pattern"%string))
                  (find totalt_eur_labelled amts).
Proof.
  unfold priorities_of.
  induction amts as [|a amts [IHle IHfind]]; [split; [constructor|reflexivity]|].
  simpl. destruct (totalt_eur_labelled a) eqn:L.
  - rewrite (classify_labelled a L). simpl. split; [|reflexivity].
    constructor; [cbv; discriminate|exact IHle].
  - destruct (classify_amount a) as [e|] eqn:C; simpl.
    + pose proof (classify_unlabelled a e L C) as Hlt.
      split; [constructor; [lia|exact IHle]|].
      unfold is_top at 1.
      replace (entry_priority e =? 100) with false
        by (symmetry; apply Z.eqb_neq; lia).
      exact IHfind.
    + split; [exact IHle|exact IHfind].
Qed.

(** The stable sort puts the first entry of the highest priority in
    front. *)
Definition top_first (o : option priority_entry) (acc : list priority_entry)
    : Prop :=
  match o with
  | Some e => is_top e = true /\ exists t, acc = e :: t
  | None => Forall (fun e => entry_priority e < 100) acc
  end.

Lemma insert_entry_top x acc o :
  entry_priority x <= 100 ->
  top_first o acc ->
  top_first (match o with
             | Some e => Some e
             | None => if is_top x then Some x else None
             end) (insert_entry x acc).
Proof.
  intros Hx. destruct o as [e|]; simpl.
  - intros [He [t ->]]. split; [exact He|]. simpl.
    unfold is_top in He. apply Z.eqb_eq in He.
    replace (entry_priority e <? entry_priority x) with false
      by (symmetry; apply Z.ltb_ge; lia).
    eexists. reflexivity.
  - intros Hacc. destruct (is_top x) eqn:T; simpl.
    + split; [exact T|]. unfold is_top in T. apply Z.eqb_eq in T.
      destruct acc as [|h t]; simpl; [eexists; reflexivity|].
      inversion Hacc; subst.
      replace (entry_priority h <? entry_priority x) with true
        by (symmetry; apply Z.ltb_lt; lia).
      eexists. reflexivity.
    + unfold is_top in T. apply Z.eqb_neq in T.
      induction acc as [|h t IH]; simpl.
      * constructor; [lia|constructor].
      * inversion Hacc; subst.
        destruct (entry_priority h <? entry_priority x).
        -- constructor; [lia|exact Hacc].
        -- constructor; [assumption|apply IH; assumption].
Qed.

Lemma sort_priorities_top l :
  Forall (fun e => entry_priority e <= 100) l ->
  top_first (find is_top l) (sort_priorities l).
Proof.
  unfold sort_priorities.
  assert (G : forall acc o,
             Forall (fun e => entry_priority e <= 100) l ->
             top_first o acc ->
             top_first (match o with
                        | Some e => Some e
                        | None => find is_top l
                        end)
                       (fold_left (fun acc x => insert_entry x acc) l acc)).
  { induction l as [|x l IH]; intros acc o Hle Hacc; simpl.
    - destruct o; exact Hacc.
    - inversion Hle; subst.
      pose proof (insert_entry_top x acc o H1 Hacc) as Hstep.
      specialize (IH _ _ H2 Hstep).
      destruct o as [e|]; [exact IH|].
      destruct (is_top x); exact IH. }
  intros Hle. apply (G [] None Hle). constructor.
Qed.

(** C1 (as amended).  In [basic_extraction], the fallback of the learned
    assigner, the first positive amount candidate whose context window
    carries the TOTALT (EUR) label gives [hostEarningsEur], before any
    "Du tjänar" candidate; on the sample mail that is 389.13 and not
    128.50.  [extract_booking_data] reads the same mail otherwise: the
    TOTALT amount is the guest total and the "Du tjänar" amount the host
    earnings. *)
Theorem totalt_eur_priority :
  (forall (email_text email_type : text) (a : entity),
      find totalt_eur_labelled
           (amounts (extract_candidate_entities email_text)) = Some a ->
      get (u "hostEarningsEur") (basic_extraction email_text email_type)
      = Some (RNum (amount_of (value a))))
  /\ get (u "hostEarningsEur")
         (basic_extraction henri_mail booking_confirmation)
     = Some (RNum (Fin (decimal 38913 (-2))))
  /\ exists data,
       extract_booking_data clock booking_confirmation
         (u "Bokning bekräftad - Henri Conradsen anländer 5 apr")
         (u "automated@airbnb.com") henri_mail (Some (u "2025-03-01")) None
       = Ok data
       /\ data guestTotalEur = VFloat (Fin (decimal 38913 (-2)))
       /\ data hostEarningsEur = VFloat (Fin (decimal 12850 (-2))).
Proof.
  split; [|split].
  - intros email_text email_type a Hfind. unfold basic_extraction.
    rewrite add_names_other by (vm_compute; reflexivity).
    destruct (priorities_top (amounts (extract_candidate_entities email_text)))
      as [Hle Htop].
    rewrite Hfind in Htop. cbn [option_map] in Htop.
    pose proof (sort_priorities_top _ Hle) as Hsort.
    rewrite Htop in Hsort. destruct Hsort as [_ [t ->]].
    cbn [take_fields existsb entry_field entry_value fst snd].
    rewrite take_fields_seen
      by (cbn [existsb]; rewrite text_eqb_refl; reflexivity).
    apply get_put_same.
  - vm_compute. reflexivity.
  - eexists. split; [vm_compute; reflexivity|]. split; vm_compute; reflexivity.
Qed.

(** The general part at the sample mail. *)
Lemma totalt_eur_priority_witness :
  get (u "hostEarningsEur") (basic_extraction henri_mail booking_confirmation)
  = Some (RNum (amount_of (u "389,13"))).
Proof.
  apply (proj1 totalt_eur_priority henri_mail booking_confirmation
           (mkentity (u "389,13" ++ nl ++ u "    ") 41 54
              (window 50 henri_mail 41 54)
              (u "€ 389,13" ++ nl ++ u "    "))).
  vm_compute. reflexivity.
Defined.

(** The claim as stated fails: the extraction engine gives the
    "Du tjänar" amount on the sample mail, and [basic_extraction] gives
    it when that amount comes first with the label within its window. *)
Lemma totalt_eur_counterexample :
  (exists data,
      extract_booking_data clock booking_confirmation
        (u "Bokning bekräftad - Henri Conradsen anländer 5 apr")
        (u "automated@airbnb.com") henri_mail (Some (u "2025-03-01")) None
      = Ok data
      /\ data hostEarningsEur = VFloat (Fin (decimal 12850 (-2)))
      /\ data hostEarningsEur <> VFloat (Fin (decimal 38913 (-2))))
  /\ get (u "hostEarningsEur")
         (basic_extraction (u "Du tjänar: € 128,50 TOTALT (EUR) € 389,13")
                           booking_confirmation)
     = Some (RNum (Fin (decimal 12850 (-2)))).
Proof.
  split.
  - eexists. split; [vm_compute; reflexivity|].
    split; [vm_compute; reflexivity|]. vm_compute. discriminate.
  - vm_compute. reflexivity.
Qed.

(** ** Separators of an amount *)

(** The rule in the words of the specification: the separator that
    occurs last is the decimal mark, the other one separates thousands.
    The mark is written as a dot, the other separator is dropped. *)
Definition is_separator (c : code) : bool := (c =? 44)%N || (c =? 46)%N.

Definition decimal_mark (s : text) : option code :=
  find is_separator (rev s).

Definition read_separators (s : text) : text :=
  match decimal_mark s with
  | Some mark =>
      flat_map (fun c => if (c =? mark)%N then [46%N]
                         else if is_separator c then [] else [c]) s
  | None => s
  end.

Definition float_or_zero (w : text) : pyfloat :=
  match py_float w with
  | Ok x => x
  | Raise _ => zero
  end.

Lemma find_snoc {A} (f : A -> bool) l x :
  find f (l ++ [x])
  = match find f l with
    | Some y => Some y
    | None => if f x then Some x else None
    end.
Proof.
  induction l as [|h l IH]; simpl; [reflexivity|].
  destruct (f h); [reflexivity|exact IH].
Qed.

(** [rfind] compared on the two separators tells which one is last. *)
Lemma rfind_from_compare s :
  forall i lc ld, lc < i -> ld < i ->
    (rfind_from 44 s i lc <? rfind_from 46 s i ld)
    = match decimal_mark s with
      | Some mark => (mark =? 46)%N
      | None => lc <? ld
      end.
Proof.
  unfold decimal_mark.
  induction s as [|x s IH]; intros i lc ld Hc Hd; simpl; [reflexivity|].
  rewrite find_snoc.
  rewrite IH by (destruct (x =? 44)%N, (x =? 46)%N; lia).
  destruct (find is_separator (rev s)); [reflexivity|].
  unfold is_separator.
  destruct (x =? 44)%N eqn:E4.
  - apply N.eqb_eq in E4. subst x. simpl. apply Z.ltb_ge. lia.
  - destruct (x =? 46)%N eqn:E6; simpl.
    + rewrite E6. apply Z.ltb_lt. lia.
    + reflexivity.
Qed.

Lemma decimal_mark_cases s :
  has_char 44 s = true ->
  decimal_mark s = Some 44%N \/ decimal_mark s = Some 46%N.
Proof.
  unfold decimal_mark, has_char. intros H.
  destruct (find is_separator (rev s)) as [c|] eqn:E.
  - apply find_some in E. destruct E as [_ Hsep].
    unfold is_separator in Hsep. apply orb_prop in Hsep.
    destruct Hsep as [Hc|Hc]; apply N.eqb_eq in Hc; subst;
      [left|right]; reflexivity.
  - apply existsb_exists in H. destruct H as (x & Hin & Hx).
    pose proof (find_none _ _ E x (proj1 (in_rev s x) Hin)) as Hnone.
    unfold is_separator in Hnone. rewrite Hx in Hnone. discriminate Hnone.
Qed.

Lemma read_dot_last s :
  decimal_mark s = Some 46%N -> read_separators s = remove_char 44 s.
Proof.
  unfold read_separators. intros ->. unfold remove_char.
  induction s as [|x s IH]; simpl; [reflexivity|]. rewrite IH.
  unfold is_separator.
  destruct (x =? 46)%N eqn:E6.
  - apply N.eqb_eq in E6. subst. reflexivity.
  - destruct (x =? 44)%N; reflexivity.
Qed.

Lemma read_comma_last s :
  decimal_mark s = Some 44%N ->
  read_separators s = replace_char 44 46 (remove_char 46 s).
Proof.
  unfold read_separators. intros ->. unfold remove_char, replace_char.
  induction s as [|x s IH]; simpl; [reflexivity|]. rewrite IH.
  unfold is_separator.
  destruct (x =? 44)%N eqn:E4.
  - apply N.eqb_eq in E4. subst. reflexivity.
  - destruct (x =? 46)%N; simpl; [reflexivity|]. rewrite E4. reflexivity.
Qed.

(** With both separators present, the branch on the two [rfind]s reads
    the separators by the rule. *)
Lemma both_separators_rule cleaned :
  has_char 44 cleaned = true ->
  (if rfind 44 cleaned <? rfind 46 cleaned then remove_char 44 cleaned
   else replace_char 44 46 (remove_char 46 cleaned))
  = read_separators cleaned.
Proof.
  intros Hc. unfold rfind.
  rewrite rfind_from_compare by lia.
  destruct (decimal_mark_cases cleaned Hc) as [E|E]; rewrite E; simpl.
  - symmetry. apply read_comma_last. exact E.
  - symmetry. apply read_dot_last. exact E.
Qed.

Lemma has_char_nonempty c s : has_char c s = true -> truthy s = true.
Proof. destruct s; [discriminate|reflexivity]. Qed.

Lemma despace_nonempty s :
  truthy (ClassifyEmail.despace s) = true -> truthy s = true.
Proof. destruct s; [discriminate|reflexivity]. Qed.

Lemma float_or_zero_catch w :
  catch_value_error (py_float w) (Ok zero) = Ok (float_or_zero w).
Proof.
  unfold float_or_zero.
  unfold py_float.
  destruct (split_sign (strip w)) as [neg r].
  destruct (text_eqb (lower r) (u "inf") || text_eqb (lower r) (u "infinity"));
    [reflexivity|].
  destruct (text_eqb (lower r) (u "nan")); [reflexivity|].
  destruct (digitpart r) as [ip r1].
  destruct (match r1 with 46%N :: r' => digitpart r' | _ => ([], r1) end)
    as [fp r2].
  destruct (ip ++ fp); [reflexivity|].
  destruct (match exponent r2 with Some (e, r') => (e, r') | None => (0, r2) end)
    as [ex r3].
  destruct r3; reflexivity.
Qed.

(** The amount the four examples of the specification denote. *)
Definition amount_1234_56 : pyfloat := Fin (decimal 123456 (-2)).

(** C3 (as amended).  [normalize_amount], in both files that carry it:
    when a comma and a dot both occur, the separator that occurs last is
    the decimal mark and the other is dropped; "1 234,56", "1,234.56",
    "1234,56" and "1.234,56" all give 1234.56.  [parse_amount]: when
    both occur the dot is the decimal mark wherever it stands and the
    commas are dropped; "1 234,56", "1,234.56" and "1234,56" give
    1234.56. *)
Theorem last_separator_is_decimal :
  (forall s : text,
      has_char 44 (ClassifyEmail.despace s) = true ->
      has_char 46 (ClassifyEmail.despace s) = true ->
      ClassifyEmail.normalize_amount s
      = Ok (float_or_zero (read_separators (ClassifyEmail.despace s)))
      /\ EnhancedPayoutParser.normalize_amount s
         = Ok (float_or_zero (read_separators (ClassifyEmail.despace s))))
  /\ Forall (fun s => ClassifyEmail.normalize_amount s = Ok amount_1234_56
                      /\ EnhancedPayoutParser.normalize_amount s
                         = Ok amount_1234_56)
            [u "1 234,56"; u "1,234.56"; u "1234,56"; u "1.234,56"]
  /\ (forall s : text,
         has_char 44 (remove_spaces s) = true ->
         has_char 46 (remove_spaces s) = true ->
         parse_amount s
         = Ok (float_or_zero (remove_char 44 (remove_spaces s))))
  /\ Forall (fun s => parse_amount s = Ok amount_1234_56)
            [u "1 234,56"; u "1,234.56"; u "1234,56"].
Proof.
  split; [|split; [|split]].
  - intros s Hc Hd.
    pose proof (despace_nonempty s (has_char_nonempty _ _ Hc)) as Hs.
    unfold ClassifyEmail.normalize_amount,
           EnhancedPayoutParser.normalize_amount.
    rewrite Hs. cbn [negb].
    unfold ClassifyEmail.cleaned_amount, EnhancedPayoutParser.cleaned_amount.
    change (EnhancedPayoutParser.despace s) with (ClassifyEmail.despace s).
    cbv zeta. rewrite Hc, Hd. cbn [andb].
    rewrite (both_separators_rule _ Hc).
    split; apply float_or_zero_catch.
  - repeat constructor; vm_compute; reflexivity.
  - intros s Hc Hd. unfold parse_amount, clean_amount. cbv zeta.
    rewrite Hc, Hd. cbn [andb]. unfold float_or_zero.
    destruct (py_float (remove_char 44 (remove_spaces s))); reflexivity.
  - repeat constructor; vm_compute; reflexivity.
Qed.

(** The rule at "1.234,56": the comma is last, so it is the mark. *)
Lemma last_separator_is_decimal_witness :
  ClassifyEmail.normalize_amount (u "1.234,56")
  = Ok (float_or_zero (u "1234.56"))
  /\ EnhancedPayoutParser.normalize_amount (u "1.234,56")
     = Ok (float_or_zero (u "1234.56"))
  /\ parse_amount (u "1,234.56") = Ok (float_or_zero (u "1234.56")).
Proof.
  destruct (proj1 last_separator_is_decimal (u "1.234,56")) as [H1 H2];
    [vm_compute; reflexivity|vm_compute; reflexivity|].
  split; [exact H1|]. split; [exact H2|].
  apply (proj1 (proj2 (proj2 last_separator_is_decimal)) (u "1,234.56"));
    vm_compute; reflexivity.
Defined.

(** The claim as stated fails for [parse_amount]: on "1.234,56" the
    comma is last, yet the dot is read as the decimal mark and the value
    is 1.23456. *)
Lemma parse_amount_dot_first :
  decimal_mark (u "1.234,56") = Some 44%N
  /\ parse_amount (u "1.234,56") = Ok (Fin (decimal 123456 (-5)))
  /\ parse_amount (u "1.234,56") <> Ok amount_1234_56.
Proof.
  split; [vm_compute; reflexivity|].
  split; [vm_compute; reflexivity|]. vm_compute. discriminate.
Qed.

(** ** The pair of dates the fallback selects *)

















(** ** Nights *)


Ltac split_cases :=
  repeat match goal with
         | |- context [match ?x with _ => _ end] => destruct x
         end.

Lemma amount_field_keeps ic r k0 body d k :
  key_beq k0 k = false -> amount_field ic r k0 body d k = d k.
Proof.
  intros H. unfold amount_field, set.
  destruct (search ic r body); [|reflexivity].
  destruct (swedish_float _); [|reflexivity]. rewrite H. reflexivity.
Qed.








(** [nights_block] writes no other key. *)
Lemma nights_block_keeps body d k :
  key_beq nights k = false -> nights_block body d k = d k.
Proof.
  intros Hk.
  assert (E1 : nights_of_dates d k = d k).
  { unfold nights_of_dates.
    destruct (has d checkInDate && has d checkOutDate); [|reflexivity].
    destruct (d checkInDate); try reflexivity.
    destruct (d checkOutDate); try reflexivity.
    destruct (strptime_ymd s); try reflexivity.
    destruct (strptime_ymd s0); try reflexivity.
    cbv zeta. destruct (0 <? _); [|reflexivity].
    unfold set. rewrite Hk. reflexivity. }
  unfold nights_block, nights_of_text.
  destruct (has (nights_of_dates d) nights); [exact E1|].
  destruct (search false pat_nights body); [|exact E1].
  destruct (group_or _ _); [|exact E1].
  destruct (py_int _); [|exact E1].
  unfold set. rewrite Hk. exact E1.
Qed.


(** The other email types write no nights. *)
Lemma guest_name_loop_keeps pats subject :
  forall g d k, key_beq guestName k = false ->
    snd (guest_name_loop pats subject g d) k = d k.
Proof.
  induction pats as [|p pats IH]; intros g d k Hk; simpl; [reflexivity|].
  destruct (search true p subject); [|apply IH; exact Hk].
  match goal with
  | |- context [if ?b then _ else _] => destruct b
  end; [|apply IH; exact Hk].
  simpl. unfold set. rewrite Hk. reflexivity.
Qed.


Lemma ok_inj {A} (a b : A) : Ok a = Ok b -> a = b.
Proof. intros H. injection H. auto. Qed.






(* ================================================================== *)
(** * Part VI. Further properties of the code                          *)
(* ================================================================== *)

Import MLClassifierBridge.

(** ** The reference year, in full *)

Ltac div_lia :=
  Z.to_euclidean_division_equations; lia.

(** The days of a year. *)
Definition year_length (y : Z) : Z := if is_leap y then 366 else 365.

Lemma is_leap_cases y :
  (is_leap y = true /\ y mod 4 = 0 /\ (y mod 100 <> 0 \/ y mod 400 = 0))
  \/ (is_leap y = false /\ (y mod 4 <> 0 \/ (y mod 100 = 0 /\ y mod 400 <> 0))).
Proof.
  unfold is_leap.
  destruct (Z.eqb_spec (y mod 4) 0), (Z.eqb_spec (y mod 100) 0),
    (Z.eqb_spec (y mod 400) 0); simpl; intuition lia.
Qed.

Lemma days_before_next_year y :
  days_before_year (y + 1) = days_before_year y + year_length y.
Proof.
  unfold days_before_year, year_length.
  destruct (is_leap_cases y) as [(-> & H4 & H)|(-> & H)];
    replace (y + 1 - 1) with y by lia; div_lia.
Qed.

Lemma valid_date_bounds y m d :
  valid_date y m d = true ->
  1 <= y <= 9999 /\ 1 <= m <= 12 /\ 1 <= d <= days_in_month y m.
Proof.
  unfold valid_date. intros H.
  repeat (apply andb_prop in H; destruct H as [H ?]).
  repeat match goal with
         | H : (_ <=? _) = true |- _ => apply Z.leb_le in H
         end.
  lia.
Qed.

Lemma month_span y m :
  1 <= m <= 12 ->
  0 <= days_before_month y m
  /\ days_before_month y m + days_in_month y m <= year_length y.
Proof.
  intros Hm.
  assert (m = 1 \/ m = 2 \/ m = 3 \/ m = 4 \/ m = 5 \/ m = 6 \/ m = 7
          \/ m = 8 \/ m = 9 \/ m = 10 \/ m = 11 \/ m = 12) as Hc by lia.
  unfold days_before_month, days_in_month, year_length.
  destruct (is_leap y);
    repeat (destruct Hc as [-> | Hc]); try subst m;
    split; apply Z.leb_le; vm_compute; reflexivity.
Qed.

Lemma day_of_year_bounds y m d :
  valid_date y m d = true ->
  1 <= days_before_month y m + d <= year_length y.
Proof.
  intros H. apply valid_date_bounds in H. destruct H as (_ & Hm & Hd).
  pose proof (month_span y m Hm). lia.
Qed.

Lemma leap_not_twice y : is_leap y = true -> is_leap (y + 1) = false.
Proof.
  intros H.
  destruct (is_leap_cases y) as [(_ & H4 & _)|(E & _)]; [|congruence].
  destruct (is_leap_cases (y + 1)) as [(_ & H4' & _)|(E & _)]; [|exact E].
  exfalso. div_lia.
Qed.

Lemma next_year_shift y m d :
  1 <= m <= 12 ->
  365 <= toordinal (mkdate (y + 1) m d) - toordinal (mkdate y m d) <= 366.
Proof.
  intros Hm. unfold toordinal. simpl.
  rewrite days_before_next_year. unfold year_length, days_before_month.
  pose proof (leap_not_twice y) as Hn.
  destruct (is_leap y); [rewrite (Hn eq_refl)|];
    destruct (is_leap (y + 1)); destruct (2 <? m); simpl; lia.
Qed.

Lemma same_year_span y m d m' d' :
  valid_date y m d = true -> valid_date y m' d' = true ->
  -365 <= toordinal (mkdate y m d) - toordinal (mkdate y m' d') <= 365.
Proof.
  intros H H'. apply day_of_year_bounds in H, H'.
  unfold toordinal. simpl. unfold year_length in *.
  destruct (is_leap y); lia.
Qed.

Lemma strptime_ymd_valid s t :
  strptime_ymd s = Ok t ->
  valid_date (year_of t) (month_of t) (day_of t) = true.
Proof.
  unfold strptime_ymd.
  destruct (match_start true strptime_re s) as [m|]; [|discriminate].
  destruct (m_end m =? length s)%nat; [|discriminate].
  destruct (py_int (group_str m 1)) as [y|]; [|discriminate]. simpl.
  destruct (py_int (group_str m 2)) as [mo|]; [|discriminate]. simpl.
  destruct (py_int (group_str m 3)) as [d|]; [|discriminate]. simpl.
  intros H. apply make_date_ok in H. destruct H as [Hv ->]. exact Hv.
Qed.

(** A date of the calendar. *)
Definition on_calendar (t : date) : bool :=
  valid_date (year_of t) (month_of t) (day_of t).

Lemma reference_of_valid now email_date scanning_year ref :
  on_calendar now = true ->
  reference_of now email_date scanning_year = Ok ref ->
  on_calendar (fst ref) = true.
Proof.
  intros Hnow. unfold reference_of.
  destruct (match email_date with Some w => truthy w | None => false end).
  - destruct (strptime_ymd _) as [t|e] eqn:E; simpl; intros H; inversion H;
      simpl; [exact (strptime_ymd_valid _ _ E) | exact Hnow].
  - destruct scanning_year as [y|].
    + destruct (y =? 0).
      * intros H; inversion H; exact Hnow.
      * destruct (make_date y 6 15) as [t|e] eqn:E; simpl; [|discriminate].
        intros H; inversion H; subst. simpl.
        apply make_date_ok in E. destruct E as [Hv ->]. exact Hv.
    + intros H; inversion H; exact Hnow.
Qed.

(** X1.  Whenever [get_reference_year] returns, the year is the
    reference year or the one after it, never the one before: it is
    the next year exactly when the booking day, placed in the reference
    year, falls before the reference date.  The branch that subtracts
    a year asks for more than 540 days between two dates of one year
    and is never taken. *)
Theorem reference_year_this_or_next :
  forall (now : date) (email_date : option text) (scanning_year : option Z)
         (month day : Z) (ref : date * Z) (y : Z),
    on_calendar now = true ->
    reference_of now email_date scanning_year = Ok ref ->
    get_reference_year now email_date month day scanning_year = Ok y ->
    y = (if toordinal (mkdate (snd ref) month day) <? toordinal (fst ref)
         then snd ref + 1 else snd ref).
Proof.
  intros now email_date scanning_year month day [anchor Y] y Hnow Href.
  pose proof (reference_of_year _ _ _ _ Href) as HY.
  pose proof (reference_of_valid _ _ _ _ Hnow Href) as Hv.
  simpl in HY, Hv. subst Y. unfold on_calendar in Hv.
  unfold get_reference_year. rewrite Href. simpl.
  destruct (make_date (year_of anchor) month day) as [cand|] eqn:Ec;
    simpl; [|discriminate].
  apply make_date_ok in Ec. destruct Ec as [Hc ->].
  destruct anchor as [Y am ad]. simpl in *.
  pose proof (same_year_span _ _ _ _ _ Hc Hv) as Hspan.
  unfold days_between.
  set (dd := toordinal (mkdate Y month day) - toordinal (mkdate Y am ad))
    in *.
  replace (toordinal (mkdate Y month day) <? toordinal (mkdate Y am ad))
    with (dd <? 0)
    by (unfold dd; destruct (Z.ltb_spec (toordinal (mkdate Y month day))
                               (toordinal (mkdate Y am ad)));
        [apply Z.ltb_lt | apply Z.ltb_ge]; lia).
  destruct ((11 <=? am) && (month <=? 2) && (dd <? -300)) eqn:E1.
  - intros H; inversion H.
    apply andb_prop in E1. destruct E1 as [_ E1]. apply Z.ltb_lt in E1.
    replace (dd <? 0) with true by (symmetry; apply Z.ltb_lt; lia).
    reflexivity.
  - destruct (dd <? 0) eqn:E2.
    + destruct (make_date (Y + 1) month day) as [nxt|] eqn:En;
        simpl; [|discriminate].
      apply make_date_ok in En. destruct En as [Hn ->].
      apply Z.ltb_lt in E2.
      apply valid_date_bounds in Hc. destruct Hc as (_ & Hm & _).
      pose proof (next_year_shift Y month day Hm) as Hs.
      replace (1 <=? toordinal (mkdate (Y + 1) month day)
                     - toordinal (mkdate Y am ad)) with true.
      2:{ symmetry. apply Z.leb_le.
          apply day_of_year_bounds in Hn, Hv.
          unfold toordinal in *. simpl in *.
          rewrite days_before_next_year. lia. }
      replace (toordinal (mkdate (Y + 1) month day)
               - toordinal (mkdate Y am ad) <=? 540) with true
        by (symmetry; apply Z.leb_le; unfold dd in *; lia).
      simpl. intros H; inversion H; reflexivity.
    + apply Z.ltb_ge in E2.
      replace (540 <? dd) with false by (symmetry; apply Z.ltb_ge; lia).
      intros H; inversion H; reflexivity.
Qed.

(** X2.  [get_reference_year] returns a year whenever the booking day
    exists both in the reference year and in the year after it; only a
    day that one of the two years lacks makes it raise. *)
Theorem reference_year_returns :
  forall (now : date) (email_date : option text) (scanning_year : option Z)
         (month day : Z) (ref : date * Z),
    reference_of now email_date scanning_year = Ok ref ->
    valid_date (snd ref) month day = true ->
    valid_date (snd ref + 1) month day = true ->
    exists y,
      get_reference_year now email_date month day scanning_year = Ok y.
Proof.
  intros now email_date scanning_year month day [anchor Y] Href Hthis Hnext.
  simpl in Hthis, Hnext.
  unfold get_reference_year. rewrite Href. cbn [bind fst snd].
  rewrite (make_date_valid _ _ _ Hthis). cbn [bind].
  rewrite (make_date_valid _ _ _ Hnext). cbn [bind].
  repeat match goal with
         | |- context [if ?b then _ else _] => destruct b
         end; eexists; reflexivity.
Qed.

(** An email of 10 June 2025 and a booking on 1 March: 2026. *)
Lemma reference_year_this_or_next_witness :
  2026 = (if toordinal (mkdate 2025 3 1) <? toordinal (mkdate 2025 6 10)
          then 2025 + 1 else 2025).
Proof.
  apply (reference_year_this_or_next clock (Some (u "2025-06-10")) None 3 1
           (mkdate 2025 6 10, 2025) 2026);
    vm_compute; reflexivity.
Defined.

(** The same email and 28 February. *)
Lemma reference_year_returns_witness :
  exists y, get_reference_year clock (Some (u "2025-06-10")) 2 28 None = Ok y.
Proof.
  apply (reference_year_returns clock (Some (u "2025-06-10")) None 2 28
           (mkdate 2025 6 10, 2025));
    vm_compute; reflexivity.
Defined.

(** ** What [float] refuses *)

(** Occurrences of a character. *)
Definition occurrences (c : code) (s : text) : nat :=
  length (filter (fun x => (x =? c)%N) s).

Lemma occurrences_cons c x s :
  occurrences c (x :: s)
  = ((if (x =? c)%N then 1 else 0) + occurrences c s)%nat.
Proof. unfold occurrences. cbn [filter]. destruct (x =? c)%N; reflexivity. Qed.

Lemma occurrences_other c x s :
  x <> c -> occurrences c (x :: s) = occurrences c s.
Proof.
  intros H. rewrite occurrences_cons.
  destruct (N.eqb_spec x c); [contradiction | reflexivity].
Qed.

Lemma occurrences_app c a b :
  occurrences c (a ++ b) = (occurrences c a + occurrences c b)%nat.
Proof. unfold occurrences. rewrite filter_app, length_app. reflexivity. Qed.

Lemma occurrences_rev c s : occurrences c (rev s) = occurrences c s.
Proof.
  induction s as [|x s IH]; [reflexivity|]. simpl rev.
  rewrite occurrences_app, IH. unfold occurrences. simpl.
  destruct (x =? c)%N; simpl; lia.
Qed.

Lemma has_char_occurrences c s :
  has_char c s = true <-> (1 <= occurrences c s)%nat.
Proof.
  unfold has_char, occurrences. induction s as [|x s IH]; simpl.
  - split; [discriminate | lia].
  - destruct (x =? c)%N; simpl; [split; [lia | reflexivity] | exact IH].
Qed.

Lemma has_char_none c s :
  has_char c s = false <-> occurrences c s = 0%nat.
Proof.
  unfold has_char, occurrences. induction s as [|x s IH]; simpl.
  - split; reflexivity.
  - destruct (x =? c)%N; simpl; [split; discriminate | exact IH].
Qed.

(** What [float] can read past: a run of white space at either end. *)
Lemma lstrip_occurrences p c s :
  p c = false -> occurrences c (lstrip_by p s) = occurrences c s.
Proof.
  intros Hp. unfold lstrip_by.
  induction s as [|x s IH]; [reflexivity|].
  destruct (p x) eqn:E; [|reflexivity].
  rewrite IH. symmetry. apply occurrences_other. intros ->. congruence.
Qed.

Lemma strip_occurrences c s :
  is_space c = false -> occurrences c (strip s) = occurrences c s.
Proof.
  intros Hp. unfold strip, strip_by.
  rewrite occurrences_rev, (lstrip_occurrences _ _ _ Hp), occurrences_rev.
  apply lstrip_occurrences. exact Hp.
Qed.

Lemma split_sign_occurrences c s :
  c <> 43%N -> c <> 45%N ->
  occurrences c (snd (split_sign s)) = occurrences c s.
Proof.
  intros H1 H2. unfold split_sign.
  destruct s as [|x s]; [reflexivity|].
  destruct (N.eqb_spec x 43) as [->|N1].
  { cbn [snd]. symmetry. apply occurrences_other. congruence. }
  destruct (N.eqb_spec x 45) as [->|N2].
  { cbn [snd]. symmetry. apply occurrences_other. congruence. }
  destruct x as [|p]; [reflexivity|].
  do 6 (destruct p as [p|p|]; try reflexivity); congruence.
Qed.

Lemma digitpart_occurrences c :
  is_digit c = false -> c <> 95%N ->
  forall s, occurrences c (snd (digitpart s)) = occurrences c s.
Proof.
  intros Hd Hu.
  assert (forall n s, (length s <= n)%nat ->
            occurrences c (snd (digitpart s)) = occurrences c s) as H.
  { induction n as [|n IH]; intros s Hlen.
    - destruct s; [reflexivity | simpl in Hlen; lia].
    - destruct s as [|x s]; [reflexivity|].
      simpl in Hlen. cbn [digitpart].
      destruct (is_digit x) eqn:Ex; [|reflexivity].
      assert (x <> c) as Hxc by (intros ->; congruence).
      rewrite (occurrences_other _ _ _ Hxc).
      assert (occurrences c (snd (let (ds, r) := digitpart s in (x :: ds, r)))
              = occurrences c s) as Hplain.
      { specialize (IH s ltac:(lia)).
        destruct (digitpart s) as [ds r]. exact IH. }
      destruct s as [|y s]; [exact Hplain|].
      destruct (N.eqb_spec y 95) as [->|Hy].
      + destruct s as [|d s]; [exact Hplain|].
        destruct (is_digit d) eqn:Ed; [|reflexivity].
        specialize (IH (d :: s) ltac:(simpl in *; lia)).
        rewrite (occurrences_other c 95 (d :: s)) by congruence.
        destruct (digitpart (d :: s)) as [ds r]. exact IH.
      + destruct y as [|p]; [exact Hplain|].
        do 7 (destruct p as [p|p|]; try exact Hplain).
        congruence. }
  intros s. apply (H (length s)). lia.
Qed.

Lemma exponent_occurrences c s e r :
  is_digit c = false -> c <> 95%N -> c <> 43%N -> c <> 45%N ->
  c <> 101%N -> c <> 69%N ->
  exponent s = Some (e, r) -> occurrences c r = occurrences c s.
Proof.
  intros Hd Hu Hp Hm He HE. unfold exponent.
  destruct s as [|x s]; [discriminate|].
  destruct ((x =? 101)%N || (x =? 69)%N) eqn:Ex; [|discriminate].
  assert (x <> c) as Hxc.
  { intros ->. apply orb_prop in Ex.
    destruct Ex as [Ex|Ex]; apply N.eqb_eq in Ex; congruence. }
  rewrite (occurrences_other _ _ _ Hxc).
  pose proof (split_sign_occurrences c s Hp Hm) as Hs.
  destruct (split_sign s) as [neg r1]. simpl in Hs.
  pose proof (digitpart_occurrences c Hd Hu r1) as Hg.
  destruct (digitpart r1) as [[|d ds] r2]; [discriminate|].
  simpl in Hg. intros H. inversion H; subst. congruence.
Qed.

(** The fraction [float] reads after the integer part. *)
Definition fraction (r1 : text) : text * text :=
  match r1 with
  | 46%N :: r' => digitpart r'
  | _ => ([], r1)
  end.

Lemma fraction_occurrences c r1 :
  is_digit c = false -> c <> 95%N ->
  (occurrences c r1
   <= (if (c =? 46)%N then 1 else 0) + occurrences c (snd (fraction r1)))%nat.
Proof.
  intros Hd Hu. unfold fraction.
  destruct r1 as [|x r']; [simpl; lia|].
  destruct (N.eqb_spec x 46) as [->|Hx].
  - rewrite (digitpart_occurrences c Hd Hu), occurrences_cons.
    rewrite (N.eqb_sym c 46). lia.
  - destruct x as [|p]; [cbn [snd]; lia|].
    do 6 (destruct p as [p|p|]; try (cbn [snd]; lia)); congruence.
Qed.

Lemma has_char_lower c s :
  lower_code c = c -> has_char c s = true -> has_char c (lower s) = true.
Proof.
  intros Hc. unfold has_char, lower. rewrite !existsb_exists.
  intros (x & Hin & Hx). apply N.eqb_eq in Hx. subst x.
  exists c. split; [|apply N.eqb_refl].
  rewrite <- Hc at 1. apply in_map. exact Hin.
Qed.

Lemma text_eqb_has_char c a b :
  has_char c a = true -> has_char c b = false -> text_eqb a b = false.
Proof.
  intros Ha Hb. destruct (text_eqb a b) eqn:E; [|reflexivity].
  apply text_eqb_eq in E. subst. congruence.
Qed.

(** A character [float] cannot read: when one is left over, [float]
    raises.  The decimal point is read once at most. *)
Lemma py_float_leftover c s :
  is_space c = false -> is_digit c = false -> lower_code c = c ->
  c <> 95%N -> c <> 43%N -> c <> 45%N -> c <> 101%N -> c <> 69%N ->
  c <> 105%N -> c <> 110%N -> c <> 102%N -> c <> 116%N -> c <> 121%N ->
  c <> 97%N ->
  ((if (c =? 46)%N then 2 else 1) <= occurrences c s)%nat ->
  py_float s = Raise ValueError.
Proof.
  intros Hsp Hd Hlow Hu Hp Hm He HE Hi Hn Hf Ht Hy Ha Hocc.
  unfold py_float.
  pose proof (split_sign_occurrences c (strip s) Hp Hm) as Hs.
  rewrite (strip_occurrences _ _ Hsp) in Hs.
  destruct (split_sign (strip s)) as [neg r]. cbn [snd] in Hs.
  assert (has_char c (lower r) = true) as Hin.
  { apply has_char_lower; [exact Hlow|].
    apply has_char_occurrences. destruct (c =? 46)%N; lia. }
  assert (forall w, existsb (fun x => (x =? c)%N) w = false ->
                    text_eqb (lower r) w = false) as Hne.
  { intros w Hw. apply (text_eqb_has_char c); assumption. }
  assert (forall x, x <> c -> (x =? c)%N = false) as Hneq
    by (intros x Hx; apply N.eqb_neq; exact Hx).
  rewrite (Hne (u "inf")), (Hne (u "infinity")), (Hne (u "nan")).
  2-4: change (u "inf") with [105; 110; 102]%N;
       change (u "infinity") with [105; 110; 102; 105; 110; 105; 116; 121]%N;
       change (u "nan") with [110; 97; 110]%N;
       cbn [existsb]; rewrite ?Hneq by congruence; reflexivity.
  cbn [orb].
  pose proof (digitpart_occurrences c Hd Hu r) as Hg.
  destruct (digitpart r) as [ip r1]. cbn [snd] in Hg.
  pose proof (fraction_occurrences c r1 Hd Hu) as Hfr.
  change (match r1 with
          | 46%N :: r' => digitpart r'
          | _ => ([], r1)
          end) with (fraction r1).
  destruct (fraction r1) as [fp r2]. cbn [snd] in Hfr.
  destruct (ip ++ fp) as [|d ds]; [reflexivity|].
  assert (1 <= occurrences c r2)%nat as H2
    by (destruct (c =? 46)%N; lia).
  destruct (exponent r2) as [[e r3]|] eqn:Ee.
  - apply (exponent_occurrences c) in Ee; try assumption.
    destruct r3 as [|x r3]; [|reflexivity].
    change (occurrences c []) with 0%nat in Ee. lia.
  - destruct r2 as [|x r2]; [|reflexivity].
    change (occurrences c []) with 0%nat in H2. lia.
Qed.

Lemma py_float_comma s :
  has_char 44 s = true -> py_float s = Raise ValueError.
Proof.
  intros H. apply (py_float_leftover 44); try reflexivity; try congruence.
  apply has_char_occurrences in H. exact H.
Qed.

Lemma py_float_two_dots s :
  (2 <= occurrences 46 s)%nat -> py_float s = Raise ValueError.
Proof.
  intros H. apply (py_float_leftover 46); try reflexivity; try congruence.
  exact H.
Qed.

(** [split] and what it keeps. *)
Lemma split_on_length c s :
  length (split_on c s) = S (occurrences c s).
Proof.
  induction s as [|x s IH]; [reflexivity|].
  cbn [split_on]. rewrite occurrences_cons.
  destruct (split_on c s) as [|w ws]; [discriminate IH|].
  destruct (x =? c)%N; simpl in *; lia.
Qed.

Lemma split_on_parts c s :
  Forall (fun w => has_char c w = false) (split_on c s).
Proof.
  induction s as [|x s IH]; [repeat constructor|].
  cbn [split_on].
  destruct (split_on c s) as [|w ws]; [repeat constructor|].
  inversion IH; subst.
  destruct (x =? c)%N eqn:E; constructor; try assumption.
  - reflexivity.
  - unfold has_char in *. simpl. rewrite E. assumption.
Qed.

Lemma split_on_join c s :
  MLExtractor.join [c] (split_on c s) = s.
Proof.
  induction s as [|x s IH]; [reflexivity|].
  cbn [split_on].
  pose proof (split_on_length c s) as Hl.
  destruct (split_on c s) as [|w ws]; [discriminate Hl|].
  destruct (N.eqb_spec x c) as [->|Hx].
  - change (MLExtractor.join [c] ([] :: w :: ws))
      with (c :: MLExtractor.join [c] (w :: ws)).
    rewrite IH. reflexivity.
  - destruct ws as [|w' ws]; simpl in *; rewrite IH; reflexivity.
Qed.

Lemma split_on_absent c s :
  has_char c s = false -> split_on c s = [s].
Proof.
  intros H. pose proof (split_on_length c s) as Hl.
  apply has_char_none in H. rewrite H in Hl.
  pose proof (split_on_join c s) as Hj.
  destruct (split_on c s) as [|w [|w' ws]]; try discriminate Hl.
  simpl in Hj. subst. reflexivity.
Qed.

Lemma replace_char_absent a b s :
  has_char a s = false -> replace_char a b s = s.
Proof.
  unfold has_char, replace_char. induction s as [|x s IH]; [reflexivity|].
  simpl. destruct (x =? a)%N; [discriminate|].
  simpl. intros H. rewrite (IH H). reflexivity.
Qed.

Lemma replace_char_app a b s t :
  replace_char a b (s ++ t) = replace_char a b s ++ replace_char a b t.
Proof. unfold replace_char. apply map_app. Qed.

Lemma replace_char_cons a b s :
  replace_char a b (a :: s) = b :: replace_char a b s.
Proof. unfold replace_char. cbn [map]. rewrite N.eqb_refl. reflexivity. Qed.

Lemma replace_char_gone a b s :
  a <> b -> has_char a (replace_char a b s) = false.
Proof.
  intros Hab. unfold has_char, replace_char.
  induction s as [|x s IH]; [reflexivity|]. simpl.
  destruct (N.eqb_spec x a).
  - destruct (N.eqb_spec b a); [congruence | exact IH].
  - destruct (N.eqb_spec x a); [congruence | exact IH].
Qed.

Lemma replace_char_occurrences a b s :
  a <> b ->
  occurrences b (replace_char a b s)
  = (occurrences a s + occurrences b s)%nat.
Proof.
  intros Hab. induction s as [|x s IH]; [reflexivity|].
  unfold replace_char in *. cbn [map]. rewrite !occurrences_cons, IH.
  destruct (N.eqb_spec x a) as [->|Hx].
  - rewrite N.eqb_refl. destruct (N.eqb_spec a b); [congruence | lia].
  - destruct (N.eqb_spec x b); lia.
Qed.

(** The two copies of [normalize_amount] hand [float] the same string,
    or two strings it refuses. *)
Lemma cleaned_amounts_agree s :
  py_float (EnhancedPayoutParser.cleaned_amount s)
  = py_float (ClassifyEmail.cleaned_amount s)
  \/ (py_float (EnhancedPayoutParser.cleaned_amount s) = Raise ValueError
      /\ py_float (ClassifyEmail.cleaned_amount s) = Raise ValueError).
Proof.
  unfold EnhancedPayoutParser.cleaned_amount, ClassifyEmail.cleaned_amount.
  change (ClassifyEmail.despace s) with (EnhancedPayoutParser.despace s).
  set (cleaned := EnhancedPayoutParser.despace s).
  destruct (has_char 44 cleaned && has_char 46 cleaned) eqn:Eboth;
    [left; reflexivity|].
  destruct (has_char 44 cleaned) eqn:Ecomma; [|left; reflexivity].
  simpl in Eboth.
  pose proof (split_on_length 44 cleaned) as Hlen.
  pose proof (split_on_join 44 cleaned) as Hjoin.
  pose proof (split_on_parts 44 cleaned) as Hparts.
  destruct ((length (last (split_on 44 cleaned) []) =? 2)%nat) eqn:Elast;
    [|left; reflexivity].
  rewrite (split_on_absent 44 (replace_char 44 46 cleaned))
    by (apply replace_char_gone; congruence).
  destruct (split_on 44 cleaned) as [|a [|b [|c ws]]].
  - discriminate Hlen.
  - apply has_char_occurrences in Ecomma. simpl in Hlen. lia.
  - left. simpl in Elast. rewrite Elast.
    inversion Hparts as [|? ? Ha Hb']; subst.
    inversion Hb' as [|? ? Hb _]; subst.
    simpl in Hjoin. rewrite <- Hjoin.
    rewrite replace_char_app, replace_char_cons.
    rewrite (replace_char_absent _ _ _ Ha), (replace_char_absent _ _ _ Hb).
    reflexivity.
  - right. split.
    + apply py_float_two_dots.
      rewrite replace_char_occurrences by congruence.
      simpl in Hlen. lia.
    + apply py_float_comma. exact Ecomma.
Qed.

(** X3.  The two copies of [normalize_amount], the one of
    [enhanced_payout_parser.py] and the one [classify_email.py]
    carries, return the same float on every string: the extra branch of
    the first copy only changes strings that [float] refuses either
    way. *)
Theorem normalize_amount_copies_agree :
  forall amount_str : text,
    EnhancedPayoutParser.normalize_amount amount_str
    = ClassifyEmail.normalize_amount amount_str.
Proof.
  intros s.
  unfold EnhancedPayoutParser.normalize_amount,
    ClassifyEmail.normalize_amount.
  destruct (negb (truthy s)); [reflexivity|].
  destruct (cleaned_amounts_agree s) as [->|[-> ->]]; reflexivity.
Qed.

(** One comma with two characters after it: the only comma
    [normalize_amount] reads as a decimal mark when no dot is there. *)
Definition decimal_comma (cleaned : text) : bool :=
  match split_on 44 cleaned with
  | [_; b] => (length b =? 2)%nat
  | _ => false
  end.

(** X4.  A string with a comma and no dot normalizes to [0.0] unless
    it has exactly one comma with exactly two characters after it: a
    comma that groups thousands ("1,234") is left in place and [float]
    refuses it. *)
Theorem grouping_comma_is_zero :
  forall amount_str : text,
    has_char 44 (ClassifyEmail.despace amount_str) = true ->
    has_char 46 (ClassifyEmail.despace amount_str) = false ->
    decimal_comma (ClassifyEmail.despace amount_str) = false ->
    ClassifyEmail.normalize_amount amount_str = Ok zero.
Proof.
  intros s Hcomma Hdot Hdec. unfold ClassifyEmail.normalize_amount.
  destruct (negb (truthy s)); [reflexivity|].
  assert (ClassifyEmail.cleaned_amount s = ClassifyEmail.despace s) as ->.
  { unfold ClassifyEmail.cleaned_amount. cbv zeta.
    rewrite Hcomma, Hdot. cbn [andb].
    unfold decimal_comma in Hdec.
    destruct (split_on 44 (ClassifyEmail.despace s)) as [|a [|b [|c ws]]];
      try reflexivity.
    rewrite Hdec. reflexivity. }
  rewrite (py_float_comma _ Hcomma). reflexivity.
Qed.

Lemma grouping_comma_is_zero_witness :
  ClassifyEmail.normalize_amount (u "1,234") = Ok zero.
Proof.
  apply (grouping_comma_is_zero (u "1,234")); vm_compute; reflexivity.
Defined.

(** ** What a match has read *)

Lemma matches_consumed ic r p s cs p' s' cs' :
  matches ic r p s cs p' s' cs' -> exists w, s = w ++ s'.
Proof.
  induction 1;
    try (exists []; reflexivity);
    try (exists [x]; reflexivity);
    try assumption.
  - destruct IHmatches1 as [w1 ->]. destruct IHmatches2 as [w2 ->].
    exists (w1 ++ w2). rewrite app_assoc. reflexivity.
  - destruct IHmatches1 as [w1 ->]. destruct IHmatches2 as [w2 ->].
    exists (w1 ++ w2). rewrite app_assoc. reflexivity.
Qed.

Lemma firstn_consumed (w s' : text) :
  firstn (length (w ++ s') - length s') (w ++ s') = w.
Proof.
  rewrite length_app.
  replace (length w + length s' - length s')%nat with (length w) by lia.
  rewrite firstn_app, Nat.sub_diag, firstn_all. simpl. apply app_nil_r.
Qed.

(** A repeated character class reads characters of the class, as many
    as its bounds allow, and binds no group. *)
Lemma matches_class_run ic negated items lo hi greedy p s cs p' s' cs' :
  matches ic (RRep (RSet negated items) lo hi greedy) p s cs p' s' cs' ->
  exists w,
    s = w ++ s' /\ cs' = cs
    /\ Forall (fun x => xorb negated (set_has ic items x) = true) w
    /\ (lo <= length w)%nat
    /\ (forall h, hi = Some h -> (length w <= h)%nat).
Proof.
  remember (RRep (RSet negated items) lo hi greedy) as r eqn:Er.
  intros H. revert lo hi Er.
  induction H; intros lo0 hi0 Er; try discriminate Er.
  - inversion Er; subst. exists []. repeat split; try constructor.
    intros h _. simpl. lia.
  - inversion Er; subst. clear IHmatches1.
    destruct (IHmatches2 (pred lo0) (option_map pred hi0) eq_refl)
      as (w & -> & -> & Hall & Hlo & Hhi).
    inversion H0; subst.
    exists (x :: w). repeat split.
    + constructor; assumption.
    + simpl. lia.
    + intros h ->. simpl in Hhi. specialize (Hhi (pred h) eq_refl).
      destruct h; [congruence | simpl in *; lia].
Qed.

(** The text of a match object is what the pattern read. *)
Lemma match_here_text ic r prev s pos m :
  match_here ic r prev s pos = Some m ->
  exists p' s' w,
    matches ic r prev s [] p' s' (m_caps m)
    /\ s = w ++ s' /\ m_text m = w.
Proof.
  unfold match_here.
  destruct (rmatch ic r prev s [] _) as [[cs s']|] eqn:E; [|discriminate].
  intros H. inversion H; subst; clear H. cbn [m_caps m_text].
  apply rmatch_sound in E. destruct E as (p' & s1 & cs1 & Hm & Hk).
  inversion Hk; subst.
  destruct (matches_consumed _ _ _ _ _ _ _ _ Hm) as [w ->].
  exists p', s', w. repeat split; [exact Hm | apply firstn_consumed].
Qed.

Lemma search_from_text ic r :
  forall s prev pos m,
    search_from ic r prev s pos = Some m ->
    exists prev0 s0 p' s' w,
      matches ic r prev0 s0 [] p' s' (m_caps m)
      /\ s0 = w ++ s' /\ m_text m = w.
Proof.
  induction s as [|x s IH]; intros prev pos m H; simpl in H.
  - destruct (match_here ic r prev [] pos) as [m'|] eqn:E; [|discriminate].
    inversion H; subst. apply match_here_text in E.
    destruct E as (p' & s' & w & E). exists prev, [], p', s', w. exact E.
  - destruct (match_here ic r prev (x :: s) pos) as [m'|] eqn:E.
    + inversion H; subst. apply match_here_text in E.
      destruct E as (p' & s' & w & E). exists prev, (x :: s), p', s', w.
      exact E.
    + eapply IH. exact H.
Qed.

(** ** The booking code *)

(** [[A-Z0-9]] *)
Definition code_char (x : code) : bool := between 65 90 x || between 48 57 x.

Lemma code_class x :
  xorb false (set_has false [CRange 65 90; CRange 48 57] x) = true ->
  code_char x = true.
Proof.
  unfold set_has, code_char. cbn [existsb item_has xorb andb].
  rewrite !orb_false_r. intros H; exact H.
Qed.

Lemma booking_code_shape prev s0 p' s' cs :
  matches false pat_booking_code prev s0 [] p' s' cs ->
  exists rest,
    s0 = (u "HM" ++ rest) ++ s' /\ (8 <= length rest)%nat
    /\ Forall (fun x => code_char x = true) rest.
Proof.
  intros H. unfold pat_booking_code in H. open_matches.
  match goal with
  | H : matches _ (RRep _ _ _ _) _ _ _ _ _ _ |- _ =>
      apply matches_class_run in H;
      destruct H as (rest & -> & _ & Hall & Hlo & _)
  end.
  repeat match goal with
         | H : char_eq false _ _ = true |- _ => apply N.eqb_eq in H; subst
         end.
  exists rest. split; [reflexivity|split; [exact Hlo|]].
  eapply Forall_impl; [|exact Hall]. intros x. apply code_class.
Qed.

(** ** The keys each block writes *)

(** One step of a frame proof: the next scrutinee is split, a finished
    block is opened. *)
Ltac frame_step :=
  first
    [ progress cbn [bind fst snd]
    | progress cbv zeta
    | match goal with
      | |- Ok _ = Ok _ -> _ =>
          let Hq := fresh "Hq" in intros Hq; apply ok_inj in Hq; subst
      | |- Raise _ = Ok _ -> _ => discriminate
      | |- context [match ?x with _ => _ end] => destruct x
      | |- context [bind ?m _] =>
          lazymatch m with
          | bind _ _ => fail
          | _ => destruct m
          end
      end ].

Ltac frame_end k Hk :=
  unfold set; destruct k; try discriminate Hk; reflexivity.

Ltac frame k Hk := repeat frame_step; frame_end k Hk.

(** The two date keys, which the date blocks write and nothing else. *)
Definition date_key (k : key) : bool :=
  match k with
  | checkInDate | checkOutDate => true
  | _ => false
  end.

(** The keys no block of a confirmation writes. *)
Definition confirmation_keeps (k : key) : bool :=
  match k with
  | emailType | bookingCode | amount
  | originalCheckInDate | originalCheckOutDate => true
  | _ => false
  end.

Lemma private_booking_loop_frame pats subject :
  forall d k, key_beq guestName k = false ->
    private_booking_loop pats subject d k = d k.
Proof.
  induction pats as [|p pats IH]; intros d k Hk; simpl; [reflexivity|].
  destruct (search true p subject); [|apply IH; exact Hk].
  unfold set. rewrite Hk. reflexivity.
Qed.

Lemma guest_name_block_frame subject d k :
  key_beq guestName k = false -> guest_name_block subject d k = d k.
Proof.
  intros Hk. unfold guest_name_block.
  pose proof (guest_name_loop_keeps guest_name_confirmation subject None d k Hk)
    as H.
  destruct (guest_name_loop guest_name_confirmation subject None d)
    as [g d1]. simpl in H.
  destruct (opt_truthy g); [exact H|].
  rewrite private_booking_loop_frame by exact Hk. exact H.
Qed.

Section Frames.
Variable now : date.
Variables (email_date : option text) (scanning_year : option Z).

Lemma subject_date_block_frame subject d d' k :
  date_key k = false ->
  subject_date_block now subject email_date scanning_year d = Ok d' ->
  d' k = d k.
Proof. intros Hk. unfold subject_date_block. frame k Hk. Qed.

Lemma combined_block_frame body d d' k :
  date_key k = false ->
  combined_block now body email_date scanning_year d = Ok d' ->
  d' k = d k.
Proof. intros Hk. unfold combined_block. frame k Hk. Qed.

Lemma checkin_block_frame body d d' k :
  date_key k = false ->
  checkin_block now body email_date scanning_year d = Ok d' ->
  d' k = d k.
Proof. intros Hk. unfold checkin_block. frame k Hk. Qed.

Lemma checkout_block_frame body d d' k :
  date_key k = false ->
  checkout_block now body email_date scanning_year d = Ok d' ->
  d' k = d k.
Proof. intros Hk. unfold checkout_block. frame k Hk. Qed.

Lemma date_pair_block_frame body d d' k :
  date_key k = false ->
  date_pair_block now body email_date scanning_year d = Ok d' ->
  d' k = d k.
Proof. intros Hk. unfold date_pair_block. frame k Hk. Qed.

Lemma fallback_block_frame body d d' k :
  date_key k = false ->
  fallback_block now body email_date scanning_year d = Ok d' ->
  d' k = d k.
Proof. intros Hk. unfold fallback_block. frame k Hk. Qed.

(** The keys the four earnings blocks write. *)
Definition earnings_key (k : key) : bool :=
  match k with
  | hostEarningsEur | hostEarningsSek | currency
  | guestTotalSek | cleaningFeeSek | serviceFeeSek => true
  | _ => false
  end.

Lemma host_earnings_eur_block_frame body d d' k :
  earnings_key k = false ->
  host_earnings_eur_block body d = Ok d' -> d' k = d k.
Proof. intros Hk. unfold host_earnings_eur_block. frame k Hk. Qed.

Lemma host_earnings_sek_block_frame body d d' k :
  earnings_key k = false ->
  host_earnings_sek_block body d = Ok d' -> d' k = d k.
Proof. intros Hk. unfold host_earnings_sek_block. frame k Hk. Qed.

Lemma sek_2020_block_frame body d k :
  earnings_key k = false -> sek_2020_block body d k = d k.
Proof. intros Hk. unfold sek_2020_block. frame k Hk. Qed.

Lemma earnings_fallback_block_frame body d k :
  earnings_key k = false -> earnings_fallback_block body d k = d k.
Proof. intros Hk. unfold earnings_fallback_block. frame k Hk. Qed.

Lemma guest_count_block_frame body d k :
  key_beq guestCount k = false -> guest_count_block body d k = d k.
Proof.
  intros Hk. unfold guest_count_block.
  repeat frame_step; unfold set; rewrite ?Hk; reflexivity.
Qed.

(** The blocks from the guest total to the property tax. *)
Lemma earnings_blocks_frame body d7 d16 k :
  earnings_key k = false ->
  match k with
  | guestTotalEur | cleaningFeeEur | nightlyRateEur | serviceFeeEur
  | propertyTaxEur => false
  | _ => true
  end = true ->
  (d9 <- host_earnings_eur_block body (guest_total_block body d7) ;;
   d10 <- host_earnings_sek_block body d9 ;;
   let d11 := sek_2020_block body d10 in
   let d12 := earnings_fallback_block body d11 in
   let d13 := amount_field false pat_cleaning_fee_eur cleaningFeeEur body d12 in
   let d14 := amount_field false pat_nightly_rate_eur nightlyRateEur body d13 in
   let d15 := amount_field false pat_service_fee_eur serviceFeeEur body d14 in
   Ok (amount_field false pat_property_tax_eur propertyTaxEur body d15))
  = Ok d16 ->
  d16 k = d7 k.
Proof.
  intros Hk Hk'.
  destruct (host_earnings_eur_block body (guest_total_block body d7))
    as [d9|] eqn:E9; [|discriminate].
  cbn [bind].
  destruct (host_earnings_sek_block body d9) as [d10|] eqn:E10;
    [|discriminate].
  cbn [bind]. cbv zeta. intros H. apply ok_inj in H. subst d16.
  rewrite !amount_field_keeps
    by (destruct k; try discriminate Hk'; reflexivity).
  rewrite earnings_fallback_block_frame, sek_2020_block_frame by exact Hk.
  rewrite (host_earnings_sek_block_frame _ _ _ _ Hk E10).
  rewrite (host_earnings_eur_block_frame _ _ _ _ Hk E9).
  unfold guest_total_block. apply amount_field_keeps.
  destruct k; try discriminate Hk'; reflexivity.
Qed.

(** The same blocks with the guest count after them, as
    [confirmation_branch] ends. *)
Lemma money_tail body d7 data :
  (d9 <- host_earnings_eur_block body (guest_total_block body d7) ;;
   d10 <- host_earnings_sek_block body d9 ;;
   let d11 := sek_2020_block body d10 in
   let d12 := earnings_fallback_block body d11 in
   let d13 := amount_field false pat_cleaning_fee_eur cleaningFeeEur body d12 in
   let d14 := amount_field false pat_nightly_rate_eur nightlyRateEur body d13 in
   let d15 := amount_field false pat_service_fee_eur serviceFeeEur body d14 in
   let d16 := amount_field false pat_property_tax_eur propertyTaxEur body d15 in
   Ok (guest_count_block body d16)) = Ok data ->
  exists d16,
    (d9 <- host_earnings_eur_block body (guest_total_block body d7) ;;
     d10 <- host_earnings_sek_block body d9 ;;
     let d11 := sek_2020_block body d10 in
     let d12 := earnings_fallback_block body d11 in
     let d13 := amount_field false pat_cleaning_fee_eur cleaningFeeEur body d12 in
     let d14 := amount_field false pat_nightly_rate_eur nightlyRateEur body d13 in
     let d15 := amount_field false pat_service_fee_eur serviceFeeEur body d14 in
     Ok (amount_field false pat_property_tax_eur propertyTaxEur body d15))
    = Ok d16
    /\ data = guest_count_block body d16.
Proof.
  destruct (host_earnings_eur_block body (guest_total_block body d7))
    as [d9|]; [|discriminate].
  cbn [bind].
  destruct (host_earnings_sek_block body d9) as [d10|]; [|discriminate].
  cbn [bind]. cbv zeta. intros H. apply ok_inj in H.
  eexists. split; [reflexivity|]. symmetry. exact H.
Qed.

Lemma money_blocks_frame body d7 data k :
  confirmation_keeps k = true ->
  (d9 <- host_earnings_eur_block body (guest_total_block body d7) ;;
   d10 <- host_earnings_sek_block body d9 ;;
   let d11 := sek_2020_block body d10 in
   let d12 := earnings_fallback_block body d11 in
   let d13 := amount_field false pat_cleaning_fee_eur cleaningFeeEur body d12 in
   let d14 := amount_field false pat_nightly_rate_eur nightlyRateEur body d13 in
   let d15 := amount_field false pat_service_fee_eur serviceFeeEur body d14 in
   let d16 := amount_field false pat_property_tax_eur propertyTaxEur body d15 in
   Ok (guest_count_block body d16)) = Ok data ->
  data k = d7 k.
Proof.
  intros Hk H. apply money_tail in H. destruct H as (d16 & H & ->).
  rewrite guest_count_block_frame
    by (destruct k; try discriminate Hk; reflexivity).
  apply (earnings_blocks_frame body d7 d16 k); try exact H;
    destruct k; try discriminate Hk; reflexivity.
Qed.

(** The blocks of a confirmation up to the nights. *)
Lemma date_blocks_frame subject body d d6 k :
  date_key k = false -> key_beq guestName k = false ->
  (d1 <- subject_date_block now subject email_date scanning_year
           (guest_name_block subject d) ;;
   d2 <- combined_block now body email_date scanning_year d1 ;;
   d3 <- checkin_block now body email_date scanning_year d2 ;;
   d4 <- checkout_block now body email_date scanning_year d3 ;;
   d5 <- date_pair_block now body email_date scanning_year d4 ;;
   fallback_block now body email_date scanning_year d5) = Ok d6 ->
  d6 k = d k.
Proof.
  intros Hd Hg.
  destruct (subject_date_block _ _ _ _ _) as [d1|] eqn:E1; [|discriminate].
  cbn [bind].
  destruct (combined_block _ _ _ _ _) as [d2|] eqn:E2; [|discriminate].
  cbn [bind].
  destruct (checkin_block _ _ _ _ _) as [d3|] eqn:E3; [|discriminate].
  cbn [bind].
  destruct (checkout_block _ _ _ _ _) as [d4|] eqn:E4; [|discriminate].
  cbn [bind].
  destruct (date_pair_block _ _ _ _ _) as [d5|] eqn:E5; [|discriminate].
  cbn [bind]. intros E6.
  rewrite (fallback_block_frame _ _ _ _ Hd E6).
  rewrite (date_pair_block_frame _ _ _ _ Hd E5).
  rewrite (checkout_block_frame _ _ _ _ Hd E4).
  rewrite (checkin_block_frame _ _ _ _ Hd E3).
  rewrite (combined_block_frame _ _ _ _ Hd E2).
  rewrite (subject_date_block_frame _ _ _ _ Hd E1).
  apply guest_name_block_frame. exact Hg.
Qed.

(** A confirmation, cut after the dates. *)
Lemma confirmation_branch_split subject body d data :
  confirmation_branch now subject body email_date scanning_year d = Ok data ->
  exists d6,
    (d1 <- subject_date_block now subject email_date scanning_year
             (guest_name_block subject d) ;;
     d2 <- combined_block now body email_date scanning_year d1 ;;
     d3 <- checkin_block now body email_date scanning_year d2 ;;
     d4 <- checkout_block now body email_date scanning_year d3 ;;
     d5 <- date_pair_block now body email_date scanning_year d4 ;;
     fallback_block now body email_date scanning_year d5) = Ok d6
    /\ (d9 <- host_earnings_eur_block body
                (guest_total_block body (nights_block body d6)) ;;
        d10 <- host_earnings_sek_block body d9 ;;
        let d11 := sek_2020_block body d10 in
        let d12 := earnings_fallback_block body d11 in
        let d13 := amount_field false pat_cleaning_fee_eur cleaningFeeEur
                                body d12 in
        let d14 := amount_field false pat_nightly_rate_eur nightlyRateEur
                                body d13 in
        let d15 := amount_field false pat_service_fee_eur serviceFeeEur
                                body d14 in
        let d16 := amount_field false pat_property_tax_eur propertyTaxEur
                                body d15 in
        Ok (guest_count_block body d16)) = Ok data.
Proof.
  unfold confirmation_branch.
  destruct (subject_date_block _ _ _ _ _) as [d1|]; [|discriminate].
  cbn [bind].
  destruct (combined_block _ _ _ _ _) as [d2|]; [|discriminate].
  cbn [bind].
  destruct (checkin_block _ _ _ _ _) as [d3|]; [|discriminate].
  cbn [bind].
  destruct (checkout_block _ _ _ _ _) as [d4|]; [|discriminate].
  cbn [bind].
  destruct (date_pair_block _ _ _ _ _) as [d5|]; [|discriminate].
  cbn [bind].
  destruct (fallback_block _ _ _ _ _) as [d6|]; [|discriminate].
  cbn [bind]. cbv zeta. intros H. exists d6. split; [reflexivity|exact H].
Qed.

Lemma confirmation_branch_frame subject body d data k :
  confirmation_keeps k = true ->
  confirmation_branch now subject body email_date scanning_year d = Ok data ->
  data k = d k.
Proof.
  intros Hk H. apply confirmation_branch_split in H.
  destruct H as (d6 & Hdates & Hmoney).
  rewrite (money_blocks_frame _ _ _ _ Hk Hmoney).
  rewrite nights_block_keeps
    by (destruct k; try discriminate Hk; reflexivity).
  apply (date_blocks_frame subject body d d6 k); try exact Hdates;
    destruct k; try discriminate Hk; reflexivity.
Qed.

(** The keys the branch of an email type can write, after the booking
    code every type shares. *)
Definition branch_writes (email_type : text) (k : key) : bool :=
  if text_eqb email_type booking_confirmation then negb (confirmation_keeps k)
  else if text_eqb email_type booking_reminder then
    match k with guestName => true | _ => false end
  else if text_eqb email_type payout then
    match k with
    | amount | currency | checkInDate | checkOutDate => true
    | _ => false
    end
  else if text_eqb email_type cancellation then
    match k with checkInDate | checkOutDate => true | _ => false end
  else if text_eqb email_type change_request then
    match k with
    | guestName | checkInDate | checkOutDate
    | originalCheckInDate | originalCheckOutDate => true
    | _ => false
    end
  else if text_eqb email_type modification then
    match k with guestName | bookingCode => true | _ => false end
  else false.

Lemma payout_dates_loop_frame pats full_text k :
  match k with checkInDate | checkOutDate => false | _ => true end = true ->
  forall d d',
    payout_dates_loop now pats full_text email_date scanning_year d = Ok d' ->
    d' k = d k.
Proof.
  intros Hk.
  induction pats as [|p pats IH]; intros d d' H; simpl in H;
    [apply ok_inj in H; subst; reflexivity|].
  destruct (search false p (lower full_text)); [|apply IH; exact H].
  destruct (payout_month _); [|apply IH; exact H].
  destruct (payout_month _); [|apply IH; exact H].
  destruct (resolved_year _ _ _ _ _); [|discriminate].
  simpl in H. apply ok_inj in H. subst.
  unfold set. destruct k; try discriminate Hk; reflexivity.
Qed.

Lemma branch_frame email_type subject sender body data k :
  extract_booking_data now email_type subject sender body
                       email_date scanning_year = Ok data ->
  branch_writes email_type k = false ->
  data k = booking_code_block (subject ++ u " " ++ body)
                              (initial_data email_type) k.
Proof.
  unfold extract_booking_data, branch_writes.
  set (d0 := booking_code_block _ _).
  destruct (text_eqb email_type booking_confirmation).
  { intros H Hk. apply negb_false_iff in Hk.
    exact (confirmation_branch_frame _ _ _ _ _ Hk H). }
  destruct (text_eqb email_type booking_reminder).
  { intros H Hk. apply ok_inj in H. subst.
    apply guest_name_loop_keeps.
    destruct k; try discriminate Hk; reflexivity. }
  destruct (text_eqb email_type payout).
  { intros H Hk.
    rewrite (payout_dates_loop_frame _ _ k
               ltac:(destruct k; try discriminate Hk; reflexivity) _ _ H).
    unfold payout_amount_block. frame k Hk. }
  destruct (text_eqb email_type cancellation).
  { intros H Hk. apply ok_inj in H. subst.
    unfold cancellation_block. frame k Hk. }
  destruct (text_eqb email_type change_request).
  { intros H Hk. apply ok_inj in H. subst.
    unfold change_request_block, dates_pattern_block. frame k Hk. }
  destruct (text_eqb email_type modification).
  { unfold modification_block. intros H Hk. revert H. frame k Hk. }
  intros H _. apply ok_inj in H. subst. reflexivity.
Qed.

End Frames.

(** The fields a record can carry, by email type. *)
Definition record_fields (email_type : text) (k : key) : bool :=
  match k with
  | emailType => false
  | bookingCode => true
  | _ => branch_writes email_type k
  end.

Lemma record_frame now email_type subject sender body email_date
    scanning_year data k :
  extract_booking_data now email_type subject sender body
                       email_date scanning_year = Ok data ->
  record_fields email_type k = false ->
  data k = initial_data email_type k.
Proof.
  intros H Hk.
  assert (branch_writes email_type k = false) as Hb.
  { destruct k; try exact Hk; try discriminate Hk.
    unfold branch_writes.
    repeat match goal with
           | |- context [if ?b then _ else _] => destruct b
           end; reflexivity. }
  rewrite (branch_frame _ _ _ _ _ _ _ _ _ H Hb).
  unfold booking_code_block.
  destruct (search false pat_booking_code _); [|reflexivity].
  unfold set. destruct k; try discriminate Hk; reflexivity.
Qed.

(** X5.  A record differs from the initial one, all [None] beside the
    email type, only on the fields of its email type: the booking code
    for every type; the guest name for a reminder or a modification;
    amount, currency and the two dates for a payout; the two dates for
    a cancellation; the guest name and the four dates for a change
    request; every field but [amount] and the original dates for a
    confirmation.  The email type itself is never rewritten. *)
Theorem fields_by_email_type :
  forall (now : date) (email_type subject sender body : text)
         (email_date : option text) (scanning_year : option Z)
         (data : dict) (k : key),
    extract_booking_data now email_type subject sender body
                         email_date scanning_year = Ok data ->
    record_fields email_type k = false ->
    data k = initial_data email_type k.
Proof.
  intros now email_type subject sender body email_date scanning_year data k.
  apply record_frame.
Qed.

(** A cancellation carries no amount. *)
Lemma fields_by_email_type_witness :
  cancellation_block (u "Avbokad: bokning HMABCDEFGH 3–7 jul")
    (booking_code_block
       (u "Avbokad: bokning HMABCDEFGH 3–7 jul" ++ u " "
        ++ u "Bokningen har avbokats.")
       (initial_data cancellation)) amount
  = initial_data cancellation amount.
Proof.
  apply (fields_by_email_type clock cancellation
           (u "Avbokad: bokning HMABCDEFGH 3–7 jul")
           (u "automated@airbnb.com") (u "Bokningen har avbokats.")
           None None); reflexivity.
Defined.

Lemma booking_code_block_shape full_text d w :
  d bookingCode = VNone ->
  booking_code_block full_text d bookingCode = VStr w ->
  exists rest,
    w = u "HM" ++ rest /\ (8 <= length rest)%nat
    /\ Forall (fun x => code_char x = true) rest.
Proof.
  intros Hd. unfold booking_code_block.
  destruct (search false pat_booking_code full_text) as [m|] eqn:E.
  - unfold set. cbn [key_beq]. intros H. inversion H; subst; clear H.
    unfold search in E. apply search_from_text in E.
    destruct E as (prev0 & s0 & p' & s' & w & Hm & Hs & Hw).
    apply booking_code_shape in Hm.
    destruct Hm as (rest & Hs' & Hlen & Hall).
    rewrite Hs in Hs'. apply app_inv_tail in Hs'.
    exists rest. rewrite Hw. auto.
  - rewrite Hd. discriminate.
Qed.

Lemma booking_code_url_shape prev s0 p' s' cs :
  matches false pat_booking_code_url prev s0 [] p' s' cs ->
  exists n w,
    cs = [(1%nat, (n, w))] /\ length w = 10%nat
    /\ Forall (fun x => code_char x = true) w.
Proof.
  intros H. unfold pat_booking_code_url in H. open_matches.
  match goal with
  | H : matches _ (RRep _ _ _ _) _ _ _ _ _ _ |- _ =>
      apply matches_class_run in H;
      destruct H as (w & -> & -> & Hall & Hlo & Hhi)
  end.
  specialize (Hhi 10%nat eq_refl).
  eexists _, w. rewrite firstn_consumed. split; [reflexivity|].
  split; [lia|].
  eapply Forall_impl; [|exact Hall]. intros c. apply code_class.
Qed.

(** X6.  A booking code in a record has ten characters or more, all
    capital letters or digits; for every email type but a modification
    (whose code may come from a link) it begins with "HM". *)
Theorem booking_code_format :
  forall (now : date) (email_type subject sender body : text)
         (email_date : option text) (scanning_year : option Z)
         (data : dict) (w : text),
    extract_booking_data now email_type subject sender body
                         email_date scanning_year = Ok data ->
    data bookingCode = VStr w ->
    (10 <= length w)%nat
    /\ Forall (fun x => code_char x = true) w
    /\ (text_eqb email_type modification = false ->
        starts_with (u "HM") w = true).
Proof.
  intros now email_type subject sender body email_date scanning_year data w
         H Hw.
  assert (forall v,
            booking_code_block (subject ++ u " " ++ body)
              (initial_data email_type) bookingCode = VStr v ->
            (10 <= length v)%nat
            /\ Forall (fun x => code_char x = true) v
            /\ starts_with (u "HM") v = true) as Hcommon.
  { intros v Hv. apply booking_code_block_shape in Hv; [|reflexivity].
    destruct Hv as (rest & -> & Hlen & Hall).
    split; [|split].
    - rewrite length_app. change (length (u "HM")) with 2%nat. lia.
    - change (u "HM" ++ rest) with (72%N :: 77%N :: rest).
      repeat constructor. exact Hall.
    - reflexivity. }
  destruct (branch_writes email_type bookingCode) eqn:Eb.
  - assert (text_eqb email_type modification = true) as Emod.
    { unfold branch_writes in Eb.
      repeat match type of Eb with
             | (if ?b then _ else _) = _ => destruct b eqn:?
             end; try discriminate Eb; reflexivity. }
    assert (text_eqb email_type booking_confirmation = false
            /\ text_eqb email_type booking_reminder = false
            /\ text_eqb email_type payout = false
            /\ text_eqb email_type cancellation = false
            /\ text_eqb email_type change_request = false)
      as (E1 & E2 & E3 & E4 & E5).
    { apply text_eqb_eq in Emod. subst. repeat split; reflexivity. }
    unfold extract_booking_data in H. rewrite E1, E2, E3, E4, E5, Emod in H.
    unfold modification_block in H.
    set (d0 := booking_code_block _ _) in *.
    assert (forall d1, d1 bookingCode = d0 bookingCode ->
              match search false pat_booking_code_url body with
              | Some m => Ok (set bookingCode (VStr (group_str m 1)) d1)
              | None => Ok d1
              end = Ok data ->
              (10 <= length w)%nat
              /\ Forall (fun x => code_char x = true) w) as Hurl.
    { intros d1 Hd1.
      destruct (search false pat_booking_code_url body) as [m|] eqn:E;
        intros Hq; apply ok_inj in Hq; subst data.
      - unfold set in Hw. cbn [key_beq] in Hw. inversion Hw; subst.
        unfold search in E. apply search_from_matches in E.
        destruct E as (prev0 & s0 & p' & s' & Hm).
        apply booking_code_url_shape in Hm.
        destruct Hm as (n & v & Hcaps & Hlen & Hall).
        unfold group_str, group. rewrite Hcaps. cbn.
        split; [lia | exact Hall].
      - rewrite Hd1 in Hw. apply Hcommon in Hw.
        destruct Hw as (? & ? & _). auto. }
    destruct (search true pat_modification_guest body) as [m|].
    + destruct (group_or _ _); [|discriminate]. cbn [bind] in H.
      apply Hurl in H; [|reflexivity]. destruct H as [? ?].
      repeat split; try assumption. rewrite Emod. discriminate.
    + cbn [bind] in H.
      apply Hurl in H; [|reflexivity]. destruct H as [? ?].
      repeat split; try assumption. rewrite Emod. discriminate.
  - rewrite (branch_frame _ _ _ _ _ _ _ _ _ H Eb) in Hw.
    apply Hcommon in Hw. destruct Hw as (? & ? & ?). auto.
Qed.

(** The code of a reminder. *)
Lemma booking_code_format_witness :
  (10 <= length (u "HMABCDEFGH"))%nat.
Proof.
  assert (E : exists data,
             extract_booking_data clock booking_reminder
               (u "Bokningspåminnelse: Anna anländer snart")
               (u "automated@airbnb.com") (u "Bokning HMABCDEFGH.")
               None None = Ok data
             /\ data bookingCode = VStr (u "HMABCDEFGH")).
  { eexists. split; [reflexivity|]. vm_compute. reflexivity. }
  destruct E as (data & E & Hcode).
  exact (proj1 (booking_code_format clock booking_reminder
                  (u "Bokningspåminnelse: Anna anländer snart")
                  (u "automated@airbnb.com") (u "Bokning HMABCDEFGH.")
                  None None data (u "HMABCDEFGH") E Hcode)).
Defined.

Ltac open_runs :=
  repeat match goal with
         | H : matches _ (RRep (RSet _ _) _ _ _) _ _ _ _ _ _ |- _ =>
             apply matches_class_run in H;
             let w := fresh "w" in
             let Hall := fresh "Hall" in
             let Hlo := fresh "Hlo" in
             let Hhi := fresh "Hhi" in
             destruct H as (w & ? & ? & Hall & Hlo & Hhi); subst
         | H : matches _ (RRep _ _ _ _) _ _ _ _ _ _ |- _ =>
             apply matches_group_free in H; [subst | reflexivity]
         end.

Ltac bound_runs :=
  repeat match goal with
         | H : forall h, Some ?n = Some h -> _ |- _ =>
             specialize (H n eq_refl)
         | H : forall h, None = Some h -> _ |- _ => clear H
         end.

Lemma digit_class x :
  xorb false (set_has false [CDigit] x) = true -> is_digit x = true.
Proof.
  unfold set_has. cbn [existsb item_has xorb andb].
  rewrite !orb_false_r. intros H; exact H.
Qed.

Lemma digit_run (w : text) :
  Forall (fun x => xorb false (set_has false [CDigit] x) = true) w ->
  forallb is_digit w = true.
Proof.
  intros H. apply forallb_forall. rewrite Forall_forall in H.
  intros x Hx. apply digit_class. apply H. exact Hx.
Qed.

(** The groups of the pattern of [parse_swedish_date]: a day of one or
    two digits, a word, a year of four digits. *)
Lemma swedish_date_groups prev s0 p' s' cs :
  matches false parse_swedish_date_re prev s0 [] p' s' cs ->
  exists day name year n1 n2 n3,
    cs = [(3%nat, (n3, year)); (2%nat, (n2, name)); (1%nat, (n1, day))]
    /\ forallb is_digit day = true
    /\ (1 <= length day <= 2)%nat
    /\ forallb is_digit year = true
    /\ length year = 4%nat.
Proof.
  intros H. unfold parse_swedish_date_re in H. open_matches. open_runs.
  rewrite !firstn_consumed.
  bound_runs.
  do 6 eexists. split; [reflexivity|].
  repeat split; try (apply digit_run; assumption); lia.
Qed.

(** ** Month numbers *)

Definition month_number (mm : text) : bool :=
  (length mm =? 2)%nat && forallb is_digit mm
  && match py_int mm with
     | Ok n => (1 <=? n) && (n <=? 12)
     | Raise _ => false
     end.

Lemma lookup_value table k v :
  lookup table k = Some v -> In v (map (fun p => u (snd p)) table).
Proof.
  induction table as [|[a b] table IH]; simpl; [discriminate|].
  destruct (text_eqb (u a) k).
  - intros H. inversion H. left. reflexivity.
  - intros H. right. apply IH. exact H.
Qed.

Lemma swedish_months_number name mm :
  swedish_months name = Some mm -> month_number mm = true.
Proof.
  intros H. apply lookup_value in H.
  assert (forallb month_number
            (map (fun p => u (snd p)) swedish_months_table) = true) as Hall
    by (vm_compute; reflexivity).
  rewrite forallb_forall in Hall. apply Hall. exact H.
Qed.

(** ** Dates written month first *)

(** ["MM/DD/YYYY"]: two digits of a month, two digits, four digits. *)
Definition month_first_date (w : text) : bool :=
  match split_on 47 w with
  | [mm; dd; yyyy] =>
      month_number mm
      && (length dd =? 2)%nat && forallb is_digit dd
      && (length yyyy =? 4)%nat && forallb is_digit yyyy
  | _ => false
  end.

Lemma digits_without c w :
  is_digit c = false -> forallb is_digit w = true -> has_char c w = false.
Proof.
  intros Hc Hw. unfold has_char.
  destruct (existsb (fun x => (x =? c)%N) w) eqn:E; [|reflexivity].
  apply existsb_exists in E. destruct E as (x & Hin & Hx).
  apply N.eqb_eq in Hx. subst x.
  rewrite forallb_forall in Hw. rewrite (Hw _ Hin) in Hc. discriminate.
Qed.

Lemma split_on_app c a rest :
  has_char c a = false ->
  split_on c (a ++ c :: rest) = a :: split_on c rest.
Proof.
  induction a as [|x a IH]; intros Ha.
  - cbn [app split_on]. rewrite N.eqb_refl.
    pose proof (split_on_length c rest) as Hl.
    destruct (split_on c rest); [discriminate Hl | reflexivity].
  - unfold has_char in Ha. cbn [existsb] in Ha.
    apply orb_false_iff in Ha. destruct Ha as [Hx Ha].
    cbn [app split_on]. rewrite (IH Ha), Hx. reflexivity.
Qed.

Lemma zfill2_digits day :
  forallb is_digit day = true -> (1 <= length day <= 2)%nat ->
  forallb is_digit (zfill2 day) = true /\ length (zfill2 day) = 2%nat.
Proof.
  intros Hd Hl. destruct day as [|a [|b [|c day]]]; simpl in Hl; try lia.
  - simpl in *. rewrite andb_true_r in Hd. rewrite Hd. split; reflexivity.
  - split; [exact Hd | reflexivity].
Qed.

(** [parse_swedish_date] writes year, month and day with hyphens;
    [format_date_for_ml] turns them month first. *)
Lemma parse_then_format date_str a :
  parse_swedish_date date_str = Some a ->
  month_first_date (format_date_for_ml a) = true.
Proof.
  unfold parse_swedish_date.
  destruct (match_start false parse_swedish_date_re (strip date_str))
    as [m|] eqn:E; [|discriminate].
  unfold match_start in E. apply match_here_text in E.
  destruct E as (p' & s' & w & Hm & _ & _).
  apply swedish_date_groups in Hm.
  destruct Hm as (day & name & year & n1 & n2 & n3 & Hcaps & Hday & Hdl
                  & Hyear & Hyl).
  unfold group_str, group. rewrite Hcaps. cbn [cap_get Nat.eqb option_map snd].
  destruct (swedish_months (lower name)) as [mm|] eqn:Emm; [|discriminate].
  intros H. inversion H; subst a; clear H.
  apply swedish_months_number in Emm.
  destruct (zfill2_digits day Hday Hdl) as [Hzd Hzl].
  pose proof Emm as Emm'. unfold month_number in Emm'.
  apply andb_prop in Emm'. destruct Emm' as [Emm' _].
  apply andb_prop in Emm'. destruct Emm' as [_ Hmd].
  unfold format_date_for_ml, fmt_date.
  change (u "-" ++ mm ++ u "-" ++ zfill2 day)
    with (45%N :: mm ++ 45%N :: zfill2 day).
  rewrite split_on_app by (apply digits_without; [reflexivity | exact Hyear]).
  rewrite split_on_app by (apply digits_without; [reflexivity | exact Hmd]).
  rewrite split_on_absent
    by (apply digits_without; [reflexivity | exact Hzd]).
  unfold month_first_date.
  change (mm ++ u "/" ++ zfill2 day ++ u "/" ++ year)
    with (mm ++ 47%N :: zfill2 day ++ 47%N :: year).
  rewrite split_on_app by (apply digits_without; [reflexivity | exact Hmd]).
  rewrite split_on_app by (apply digits_without; [reflexivity | exact Hzd]).
  rewrite split_on_absent
    by (apply digits_without; [reflexivity | exact Hyear]).
  rewrite Emm, Hzl, Hzd, Hyl, Hyear. reflexivity.
Qed.

(** The four date keys of a change request. *)
Definition change_date_key (k : key) : bool :=
  match k with
  | checkInDate | checkOutDate
  | originalCheckInDate | originalCheckOutDate => true
  | _ => false
  end.

Definition month_first_dates (d : dict) : Prop :=
  forall k w, change_date_key k = true -> d k = VStr w ->
              month_first_date w = true.

Lemma dates_pattern_block_month_first r kin kout body d :
  month_first_dates d ->
  month_first_dates (dates_pattern_block r kin kout body d).
Proof.
  intros Hd. unfold dates_pattern_block.
  destruct (search true r body) as [m|]; [|exact Hd].
  destruct (parse_swedish_date (group_str m 1)) as [a|] eqn:Ea; [|exact Hd].
  destruct (parse_swedish_date (group_str m 2)) as [b|] eqn:Eb; [|exact Hd].
  destruct (truthy a && truthy b); [|exact Hd].
  intros k w Hk. unfold set.
  destruct (key_beq kout k).
  - intros H. inversion H; subst. exact (parse_then_format _ _ Eb).
  - destruct (key_beq kin k).
    + intros H. inversion H; subst. exact (parse_then_format _ _ Ea).
    + apply Hd. exact Hk.
Qed.

(** X7.  The dates of a change request, the original and the requested
    ones, are written month first, "MM/DD/YYYY" with a month from 01 to
    12, where the other email types write "YYYY-MM-DD". *)
Theorem change_request_dates_month_first :
  forall (now : date) (subject sender body : text)
         (email_date : option text) (scanning_year : option Z)
         (data : dict) (k : key) (w : text),
    extract_booking_data now change_request subject sender body
                         email_date scanning_year = Ok data ->
    change_date_key k = true ->
    data k = VStr w ->
    month_first_date w = true.
Proof.
  intros now subject sender body email_date scanning_year data k w H.
  unfold extract_booking_data in H.
  change (text_eqb change_request booking_confirmation) with false in H.
  change (text_eqb change_request booking_reminder) with false in H.
  change (text_eqb change_request payout) with false in H.
  change (text_eqb change_request cancellation) with false in H.
  change (text_eqb change_request change_request) with true in H.
  cbv iota in H. apply ok_inj in H. subst data.
  revert k w. change (month_first_dates
    (change_request_block subject body
       (booking_code_block (subject ++ u " " ++ body)
          (initial_data change_request)))).
  unfold change_request_block.
  apply dates_pattern_block_month_first.
  apply dates_pattern_block_month_first.
  intros k w Hk.
  assert (forall d, d k = VNone ->
            match search true pat_change_request_guest subject with
            | Some m => set guestName (VStr (strip (group_str m 1))) d
            | None => d
            end k = VNone) as Hg.
  { intros d Hd. destruct (search true pat_change_request_guest subject);
      [|exact Hd].
    unfold set. destruct k; try discriminate Hk; exact Hd. }
  rewrite Hg; [discriminate|].
  unfold booking_code_block.
  destruct (search false pat_booking_code _);
    unfold set; destruct k; try discriminate Hk; reflexivity.
Qed.

(** A request to move a stay by one day. *)
Lemma change_request_dates_month_first_witness :
  month_first_date (u "10/29/2025") = true.
Proof.
  assert (E : exists data,
             extract_booking_data clock change_request
               (u "Anna vill ändra sin bokning") (u "automated@airbnb.com")
               (u "URSPRUNGLIGA DATUM 28 oktober 2025 - 30 oktober 2025 EFTERFRÅGADE DATUM 29 oktober 2025 - 31 oktober 2025")
               None None = Ok data
             /\ data checkInDate = VStr (u "10/29/2025")).
  { eexists. split; [reflexivity|]. vm_compute. reflexivity. }
  destruct E as (data & E & Hin).
  exact (change_request_dates_month_first clock
           (u "Anna vill ändra sin bokning") (u "automated@airbnb.com")
           (u "URSPRUNGLIGA DATUM 28 oktober 2025 - 30 oktober 2025 EFTERFRÅGADE DATUM 29 oktober 2025 - 31 oktober 2025")
           None None data checkInDate (u "10/29/2025") E eq_refl Hin).
Defined.

(** ** The currency and the amount it names *)

Definition is_float (v : pyval) : bool :=
  match v with VFloat _ => true | _ => false end.

(** The currency of a confirmation: absent, or "EUR" beside host
    earnings in euro, or "SEK" beside host earnings in kronor. *)
Definition currency_names_earnings (d : dict) : bool :=
  match d currency with
  | VNone => true
  | VStr c =>
      (text_eqb c (u "EUR") && is_float (d hostEarningsEur))
      || (text_eqb c (u "SEK") && is_float (d hostEarningsSek))
  | _ => false
  end.

(** The currency of a payout: absent with the amount, or "SEK" beside
    it. *)
Definition currency_names_amount (d : dict) : bool :=
  match d currency, d amount with
  | VNone, VNone => true
  | VStr c, VFloat _ => text_eqb c (u "SEK")
  | _, _ => false
  end.

Ltac currency_end H :=
  unfold currency_names_earnings, set in *; cbn [key_beq is_float] in *;
  try exact H; try reflexivity;
  repeat match goal with
         | |- context [match ?x with _ => _ end] => destruct x
         end;
  cbn [andb orb] in *; try reflexivity; try exact H;
  try discriminate H;
  rewrite ?andb_true_r, ?andb_false_r, ?orb_false_r, ?orb_true_r in *;
  try reflexivity; try exact H;
  repeat match goal with
         | |- context [text_eqb ?a ?b] => destruct (text_eqb a b)
         | |- context [is_float ?v] => destruct (is_float v)
         end;
  cbn [andb orb] in *; try reflexivity; try exact H.

Lemma host_earnings_eur_currency body d d' :
  currency_names_earnings d = true ->
  host_earnings_eur_block body d = Ok d' ->
  currency_names_earnings d' = true.
Proof.
  intros H. unfold host_earnings_eur_block.
  repeat frame_step; currency_end H.
Qed.

Lemma host_earnings_sek_currency body d d' :
  currency_names_earnings d = true ->
  host_earnings_sek_block body d = Ok d' ->
  currency_names_earnings d' = true.
Proof.
  intros H. unfold host_earnings_sek_block.
  repeat frame_step; currency_end H.
Qed.

Lemma amount_field_currency ic r k0 body d :
  match k0 with
  | currency | hostEarningsEur | hostEarningsSek => false
  | _ => true
  end = true ->
  currency_names_earnings d = true ->
  currency_names_earnings (amount_field ic r k0 body d) = true.
Proof.
  intros Hk H. unfold amount_field.
  destruct (search ic r body); [|exact H].
  destruct (swedish_float _); [|exact H].
  unfold currency_names_earnings, set in *.
  destruct k0; try discriminate Hk; exact H.
Qed.

Lemma guest_count_currency body d :
  currency_names_earnings d = true ->
  currency_names_earnings (guest_count_block body d) = true.
Proof.
  intros H. unfold guest_count_block.
  repeat frame_step; currency_end H.
Qed.

Lemma sek_2020_currency body d :
  currency_names_earnings d = true ->
  currency_names_earnings (sek_2020_block body d) = true.
Proof.
  intros H. unfold sek_2020_block.
  destruct (negb (has d hostEarningsEur) && negb (has d hostEarningsSek));
    [|exact H].
  cbv zeta.
  set (d1 := match search2 pat_host_earnings_2020_sek
                     pat_host_earnings_2020_sek_en body with
             | Some m =>
                 match swedish_float (group_str m 2) with
                 | Some x =>
                     set currency (VStr (u "SEK"))
                         (set hostEarningsSek (VFloat x) d)
                 | None => d
                 end
             | None => d
             end).
  assert (currency_names_earnings d1 = true) as H1.
  { unfold d1. repeat frame_step; currency_end H. }
  clearbody d1. clear H d.
  repeat frame_step; currency_end H1.
Qed.

Lemma earnings_fallback_currency body d :
  currency_names_earnings d = true ->
  currency_names_earnings (earnings_fallback_block body d) = true.
Proof.
  intros H. unfold earnings_fallback_block.
  destruct (negb (has d hostEarningsEur) && negb (has d hostEarningsSek));
    [|exact H].
  cbv zeta.
  set (d1 := match search true du_tjanar_pattern body with
             | Some _ => _
             | None => _
             end).
  assert (currency_names_earnings d1 = true) as H1.
  { unfold d1. repeat frame_step; currency_end H. }
  clearbody d1. clear H d.
  repeat frame_step; currency_end H1.
Qed.

(** X8.  The currency of a record names the amount beside it.  In a
    confirmation it is absent, or "EUR" with host earnings in euro
    present, or "SEK" with host earnings in kronor present; in a payout
    it is "SEK" exactly when the amount is present; no other email type
    carries a currency. *)
Theorem currency_names_its_amount :
  forall (now : date) (email_type subject sender body : text)
         (email_date : option text) (scanning_year : option Z)
         (data : dict),
    extract_booking_data now email_type subject sender body
                         email_date scanning_year = Ok data ->
    if text_eqb email_type booking_confirmation
    then currency_names_earnings data = true
    else if text_eqb email_type payout
    then currency_names_amount data = true
    else data currency = VNone.
Proof.
  intros now email_type subject sender body email_date scanning_year data H.
  assert (forall k, match k with bookingCode => false | _ => true end = true ->
            booking_code_block (subject ++ u " " ++ body)
              (initial_data email_type) k = initial_data email_type k)
    as Hcode.
  { intros k Hk. unfold booking_code_block.
    destruct (search false pat_booking_code _); [|reflexivity].
    unfold set. destruct k; try discriminate Hk; reflexivity. }
  destruct (text_eqb email_type booking_confirmation) eqn:Econf.
  - unfold extract_booking_data in H. rewrite Econf in H.
    unfold confirmation_branch in H.
    destruct (subject_date_block _ _ _ _ _) as [d1|] eqn:E1; [|discriminate].
    cbn [bind] in H.
    destruct (combined_block _ _ _ _ _) as [d2|] eqn:E2; [|discriminate].
    cbn [bind] in H.
    destruct (checkin_block _ _ _ _ _) as [d3|] eqn:E3; [|discriminate].
    cbn [bind] in H.
    destruct (checkout_block _ _ _ _ _) as [d4|] eqn:E4; [|discriminate].
    cbn [bind] in H.
    destruct (date_pair_block _ _ _ _ _) as [d5|] eqn:E5; [|discriminate].
    cbn [bind] in H.
    destruct (fallback_block _ _ _ _ _) as [d6|] eqn:E6; [|discriminate].
    cbn [bind] in H. cbv zeta in H.
    set (d8 := guest_total_block body (nights_block body d6)) in H.
    assert (d8 currency = VNone) as Hc8.
    { unfold d8, guest_total_block.
      rewrite amount_field_keeps by reflexivity.
      rewrite nights_block_keeps by reflexivity.
      rewrite (fallback_block_frame _ _ _ _ _ _ currency eq_refl E6).
      rewrite (date_pair_block_frame _ _ _ _ _ _ currency eq_refl E5).
      rewrite (checkout_block_frame _ _ _ _ _ _ currency eq_refl E4).
      rewrite (checkin_block_frame _ _ _ _ _ _ currency eq_refl E3).
      rewrite (combined_block_frame _ _ _ _ _ _ currency eq_refl E2).
      rewrite (subject_date_block_frame _ _ _ _ _ _ currency eq_refl E1).
      rewrite guest_name_block_frame by reflexivity.
      apply Hcode. reflexivity. }
    assert (currency_names_earnings d8 = true) as H8
      by (unfold currency_names_earnings; rewrite Hc8; reflexivity).
    clearbody d8.
    destruct (host_earnings_eur_block body d8) as [d9|] eqn:E9;
      [|discriminate].
    cbn [bind] in H.
    destruct (host_earnings_sek_block body d9) as [d10|] eqn:E10;
      [|discriminate].
    cbn [bind] in H. apply ok_inj in H. subst data.
    apply guest_count_currency.
    do 4 (apply amount_field_currency; [reflexivity|]).
    apply earnings_fallback_currency, sek_2020_currency.
    apply (host_earnings_sek_currency _ _ _
             (host_earnings_eur_currency _ _ _ H8 E9) E10).
  - destruct (text_eqb email_type payout) eqn:Epay.
    + unfold extract_booking_data in H. rewrite Econf in H.
      destruct (text_eqb email_type booking_reminder) eqn:Erem.
      { apply text_eqb_eq in Erem. apply text_eqb_eq in Epay.
        rewrite Erem in Epay. discriminate Epay. }
      rewrite Epay in H.
      unfold currency_names_amount.
      rewrite (payout_dates_loop_frame _ _ _ _ _ currency eq_refl _ _ H).
      rewrite (payout_dates_loop_frame _ _ _ _ _ amount eq_refl _ _ H).
      unfold payout_amount_block.
      destruct (search false pat_amount_sek _);
        [|rewrite !Hcode by reflexivity; reflexivity].
      destruct (py_float _);
        [|rewrite !Hcode by reflexivity; reflexivity].
      reflexivity.
    + apply (record_frame _ _ _ _ _ _ _ _ currency H).
      unfold record_fields, branch_writes. rewrite Econf, Epay.
      repeat match goal with
             | |- context [if ?b then _ else _] => destruct b
             end; reflexivity.
Qed.

(** A payout of 4 612,87 kr. *)
Lemma currency_names_its_amount_witness :
  exists data,
    extract_booking_data clock payout
      (u "En utbetalning på 4 612,87 kr skickades") (u "automated@airbnb.com")
      (u "Hej!") None None = Ok data
    /\ currency_names_amount data = true.
Proof.
  assert (E : exists data,
             extract_booking_data clock payout
               (u "En utbetalning på 4 612,87 kr skickades")
               (u "automated@airbnb.com") (u "Hej!") None None = Ok data).
  { eexists. vm_compute. reflexivity. }
  destruct E as (data & E). exists data. split; [exact E|].
  exact (currency_names_its_amount clock payout
           (u "En utbetalning på 4 612,87 kr skickades")
           (u "automated@airbnb.com") (u "Hej!") None None data E).
Defined.

(** ** [int] of a run of digits *)

Lemma digit_cases c :
  is_digit c = true ->
  (c = 48 \/ c = 49 \/ c = 50 \/ c = 51 \/ c = 52 \/ c = 53 \/ c = 54
   \/ c = 55 \/ c = 56 \/ c = 57)%N.
Proof.
  unfold is_digit, between. intros H. apply andb_prop in H.
  destruct H as [H1 H2]. apply N.leb_le in H1, H2. lia.
Qed.

Ltac each_digit H :=
  apply digit_cases in H;
  repeat (destruct H as [H|H]); subst.

Lemma digitpart_digits w :
  forallb is_digit w = true -> digitpart w = (w, []).
Proof.
  induction w as [|c w IH]; [reflexivity|].
  intros H. cbn [forallb] in H. apply andb_prop in H. destruct H as [Hc Hw].
  cbn [digitpart]. rewrite Hc. specialize (IH Hw).
  destruct w as [|y t]; [reflexivity|].
  assert (is_digit y = true) as Hy
    by (cbn [forallb] in Hw; apply andb_prop in Hw; tauto).
  each_digit Hy; rewrite IH; reflexivity.
Qed.

Lemma lstrip_digit c w :
  is_digit c = true -> lstrip_by is_space (c :: w) = c :: w.
Proof. intros H. each_digit H; reflexivity. Qed.

Lemma strip_digits w :
  forallb is_digit w = true -> strip w = w.
Proof.
  intros H. unfold strip, strip_by.
  destruct w as [|c w]; [reflexivity|].
  pose proof H as Hc. cbn [forallb] in Hc. apply andb_prop in Hc.
  rewrite (lstrip_digit _ _ (proj1 Hc)).
  assert (forallb is_digit (rev (c :: w)) = true) as Hr.
  { apply forallb_forall. intros x Hx. apply in_rev in Hx.
    rewrite forallb_forall in H. apply H. exact Hx. }
  destruct (rev (c :: w)) as [|y t] eqn:Er.
  - apply (f_equal (@length code)) in Er. rewrite length_rev in Er.
    discriminate Er.
  - cbn [forallb] in Hr. apply andb_prop in Hr.
    rewrite (lstrip_digit _ _ (proj1 Hr)), <- Er. apply rev_involutive.
Qed.

Lemma digits_val_nonneg w : 0 <= digits_val w.
Proof.
  unfold digits_val.
  assert (forall w acc, 0 <= acc ->
            0 <= fold_left (fun acc c => 10 * acc + digit_val c) w acc) as H.
  { clear. induction w as [|c w IH]; intros acc Hacc; cbn [fold_left];
      [exact Hacc|].
    apply IH. unfold digit_val.
    pose proof (N2Z.is_nonneg (c - 48)). lia. }
  apply H. lia.
Qed.

(** [int] reads a run of digits as a number that is not negative. *)
Lemma py_int_digits w :
  forallb is_digit w = true -> (1 <= length w)%nat ->
  exists n, py_int w = Ok n /\ 0 <= n.
Proof.
  intros H Hl. unfold py_int. rewrite (strip_digits _ H).
  destruct w as [|c w]; [simpl in Hl; lia|].
  assert (split_sign (c :: w) = (false, c :: w)) as Hs.
  { cbn [forallb] in H. apply andb_prop in H. destruct H as [Hc _].
    each_digit Hc; reflexivity. }
  rewrite Hs, (digitpart_digits _ H).
  exists (digits_val (c :: w)). split; [reflexivity|].
  apply digits_val_nonneg.
Qed.

(** ** The counts of a confirmation *)

(** The two patterns that read a count bind one group, a run of
    digits. *)
Definition one_count (cs : caps) : Prop :=
  exists k n w,
    cs = [(k, (n, w))] /\ (k = 1 \/ k = 2)%nat
    /\ forallb is_digit w = true /\ (1 <= length w)%nat.

Ltac close_count :=
  open_runs; bound_runs; rewrite ?firstn_consumed;
  do 3 eexists; (split; [reflexivity|]);
  (split; [first [left; reflexivity | right; reflexivity]|]);
  (split; [apply digit_run; assumption | lia]).

Lemma nights_groups prev s0 p' s' cs :
  matches false pat_nights prev s0 [] p' s' cs -> one_count cs.
Proof.
  intros H. unfold pat_nights in H. unfold one_count.
  open_matches; close_count.
Qed.

Lemma guest_count_groups prev s0 p' s' cs :
  matches false pat_guest_count prev s0 [] p' s' cs -> one_count cs.
Proof.
  intros H. unfold pat_guest_count in H. unfold one_count.
  open_matches; close_count.
Qed.

Definition count_value (v : pyval) : bool :=
  match v with
  | VNone => true
  | VInt n => 0 <=? n
  | _ => false
  end.

Lemma one_count_int m :
  one_count (m_caps m) ->
  exists w n,
    group_or (group m 1) (group m 2) = Some w
    /\ py_int w = Ok n /\ 0 <= n.
Proof.
  intros (k & i & w & Hcaps & Hk & Hd & Hl).
  destruct (py_int_digits w Hd Hl) as (n & Hn & Hpos).
  exists w, n. split; [|split; assumption].
  unfold group. rewrite Hcaps.
  destruct w as [|c w]; [simpl in Hl; lia|].
  destruct Hk as [->| ->]; reflexivity.
Qed.

Lemma nights_block_count body d :
  d nights = VNone -> count_value (nights_block body d nights) = true.
Proof.
  intros Hd. unfold nights_block.
  assert (count_value (nights_of_dates d nights) = true
          /\ (has (nights_of_dates d) nights = false ->
              nights_of_dates d nights = VNone)) as [Hc Hn].
  { unfold nights_of_dates.
    destruct (has d checkInDate && has d checkOutDate);
      [|rewrite Hd; split; reflexivity].
    destruct (d checkInDate); try (rewrite Hd; split; reflexivity).
    destruct (d checkOutDate); try (rewrite Hd; split; reflexivity).
    destruct (strptime_ymd s); try (rewrite Hd; split; reflexivity).
    destruct (strptime_ymd s0); try (rewrite Hd; split; reflexivity).
    cbv zeta. destruct (Z.ltb_spec 0 (days_between a0 a));
      [|rewrite Hd; split; reflexivity].
    unfold has, set. cbn [key_beq val_truthy count_value]. split.
    - apply Z.leb_le. lia.
    - intros Hf. apply negb_false_iff, Z.eqb_eq in Hf. lia. }
  unfold nights_of_text.
  destruct (has (nights_of_dates d) nights) eqn:Eh; [exact Hc|].
  destruct (search false pat_nights body) as [m|] eqn:Es; [|exact Hc].
  unfold search in Es. apply search_from_matches in Es.
  destruct Es as (prev0 & s0 & p' & s' & Hm).
  apply nights_groups, one_count_int in Hm.
  destruct Hm as (w & n & -> & -> & Hpos).
  unfold set. cbn [key_beq count_value]. apply Z.leb_le. exact Hpos.
Qed.

Lemma guest_count_block_count body d :
  d guestCount = VNone ->
  count_value (guest_count_block body d guestCount) = true.
Proof.
  intros Hd. unfold guest_count_block.
  destruct (search false pat_guest_count body) as [m|] eqn:Es;
    [|rewrite Hd; reflexivity].
  unfold search in Es. apply search_from_matches in Es.
  destruct Es as (prev0 & s0 & p' & s' & Hm).
  apply guest_count_groups, one_count_int in Hm.
  destruct Hm as (w & n & -> & -> & Hpos).
  unfold set. cbn [key_beq count_value]. apply Z.leb_le. exact Hpos.
Qed.

(** X9.  In every record, [nights] and [guestCount] are absent or
    integers that are not negative: the nights come from a positive
    difference of dates or from a run of digits, the guest count from a
    run of digits. *)
Theorem counts_never_negative :
  forall (now : date) (email_type subject sender body : text)
         (email_date : option text) (scanning_year : option Z)
         (data : dict),
    extract_booking_data now email_type subject sender body
                         email_date scanning_year = Ok data ->
    count_value (data nights) = true
    /\ count_value (data guestCount) = true.
Proof.
  intros now email_type subject sender body email_date scanning_year data H.
  destruct (text_eqb email_type booking_confirmation) eqn:Econf.
  - assert (forall k, match k with bookingCode => false | _ => true end = true ->
              booking_code_block (subject ++ u " " ++ body)
                (initial_data email_type) k = initial_data email_type k)
      as Hcode.
    { intros k Hk. unfold booking_code_block.
      destruct (search false pat_booking_code _); [|reflexivity].
      unfold set. destruct k; try discriminate Hk; reflexivity. }
    unfold extract_booking_data in H. rewrite Econf in H.
    apply confirmation_branch_split in H.
    destruct H as (d6 & Hdates & Hmoney).
    pose proof (date_blocks_frame _ _ _ _ _ _ _ nights eq_refl eq_refl Hdates)
      as Hn6.
    pose proof (date_blocks_frame _ _ _ _ _ _ _ guestCount eq_refl eq_refl
                  Hdates) as Hg6.
    rewrite Hcode in Hn6, Hg6 by reflexivity.
    change (initial_data email_type nights) with VNone in Hn6.
    change (initial_data email_type guestCount) with VNone in Hg6.
    apply money_tail in Hmoney. destruct Hmoney as (d16 & Hmoney & ->).
    split.
    + rewrite guest_count_block_frame by reflexivity.
      rewrite (earnings_blocks_frame _ _ _ nights eq_refl eq_refl Hmoney).
      apply nights_block_count. exact Hn6.
    + apply guest_count_block_count.
      rewrite (earnings_blocks_frame _ _ _ guestCount eq_refl eq_refl Hmoney).
      rewrite nights_block_keeps by reflexivity. exact Hg6.
  - assert (branch_writes email_type nights = false
            /\ branch_writes email_type guestCount = false) as [Bn Bg].
    { unfold branch_writes. rewrite Econf.
      repeat match goal with
             | |- context [if ?b then _ else _] => destruct b
             end; split; reflexivity. }
    rewrite (branch_frame _ _ _ _ _ _ _ _ _ H Bn).
    rewrite (branch_frame _ _ _ _ _ _ _ _ _ H Bg).
    unfold booking_code_block.
    destruct (search false pat_booking_code _); split; reflexivity.
Qed.

(** A confirmation of three nights for two guests. *)
Lemma counts_never_negative_witness :
  exists data,
    extract_booking_data clock booking_confirmation (u "Bokning")
      (u "automated@airbnb.com") (u "3 nätter, 2 vuxna") None None = Ok data
    /\ count_value (data nights) = true
    /\ count_value (data guestCount) = true.
Proof.
  assert (E : exists data,
             extract_booking_data clock booking_confirmation (u "Bokning")
               (u "automated@airbnb.com") (u "3 nätter, 2 vuxna") None None
             = Ok data).
  { eexists. vm_compute. reflexivity. }
  destruct E as (data & E). exists data. split; [exact E|].
  exact (counts_never_negative clock booking_confirmation (u "Bokning")
           (u "automated@airbnb.com") (u "3 nätter, 2 vuxna") None None
           data E).
Defined.

(** ** The order of the dates the later blocks store *)

(** A pair of date strings read from [parsed], the first date not after
    the second. *)
Definition ordered_pair (parsed : list (date * text)) (pair : text * text)
    : Prop :=
  exists a b,
    In (a, fst pair) parsed /\ In (b, snd pair) parsed
    /\ toordinal a <= toordinal b.

Definition best_ordered (parsed : list (date * text)) (st : best) : Prop :=
  forall pair, fst st = Some pair -> ordered_pair parsed pair.

Lemma consider_ordered parsed year_dates checkin checkout st st' :
  In checkin parsed -> In checkout parsed ->
  best_ordered parsed st ->
  consider year_dates checkin checkout st = Ok st' ->
  best_ordered parsed st'.
Proof.
  intros Hin Hout Hst. unfold consider. cbv zeta.
  destruct ((1 <=? days_between (fst checkout) (fst checkin))
            && (days_between (fst checkout) (fst checkin) <=? 30)) eqn:Er;
    [|intros H; apply ok_inj in H; subst; exact Hst].
  match goal with
  | |- bind ?m _ = _ -> _ => destruct m as [tie|]; [|discriminate]
  end.
  cbn [bind].
  destruct ((snd st <? pair_score year_dates checkin checkout) || tie);
    intros H; apply ok_inj in H; subst; [|exact Hst].
  intros pair Hp. cbn [fst] in Hp. inversion Hp; subst; clear Hp.
  apply andb_prop in Er. destruct Er as [Er _]. apply Z.leb_le in Er.
  unfold days_between in Er.
  exists (fst checkin), (fst checkout). cbn [fst snd].
  rewrite <- !surjective_pairing. repeat split; try assumption. lia.
Qed.

Lemma inner_loop_ordered parsed year_dates checkin :
  In checkin parsed ->
  forall later st st',
    incl later parsed -> best_ordered parsed st ->
    inner_loop year_dates checkin later st = Ok st' ->
    best_ordered parsed st'.
Proof.
  intros Hin. induction later as [|checkout rest IH]; intros st st' Hl Hst;
    simpl.
  - intros H. apply ok_inj in H. subst. exact Hst.
  - destruct (consider year_dates checkin checkout st) as [st1|] eqn:E;
      [|discriminate].
    cbn [bind]. apply IH.
    + intros x Hx. apply Hl. right. exact Hx.
    + apply (consider_ordered _ _ _ _ _ _ Hin (Hl _ (or_introl eq_refl))
               Hst E).
Qed.

Lemma outer_loop_ordered parsed year_dates :
  forall l st st',
    incl l parsed -> best_ordered parsed st ->
    outer_loop year_dates l st = Ok st' ->
    best_ordered parsed st'.
Proof.
  induction l as [|checkin rest IH]; intros st st' Hl Hst; simpl.
  - intros H. apply ok_inj in H. subst. exact Hst.
  - destruct (inner_loop year_dates checkin rest st) as [st1|] eqn:E;
      [|discriminate].
    cbn [bind]. apply IH.
    + intros x Hx. apply Hl. right. exact Hx.
    + apply (inner_loop_ordered _ _ _ (Hl _ (or_introl eq_refl)) _ _ _
               (fun x Hx => Hl x (or_intror Hx)) Hst E).
Qed.

(** [sort_by_date] sorts, and keeps the dates it was given. *)
Fixpoint sorted_by_date (l : list (date * text)) : Prop :=
  match l with
  | [] => True
  | x :: t =>
      (forall y, In y t -> toordinal (fst x) <= toordinal (fst y))
      /\ sorted_by_date t
  end.

Lemma insert_by_date_in x l y :
  In y (insert_by_date x l) <-> y = x \/ In y l.
Proof.
  induction l as [|h t IH]; simpl.
  - split; intros [H|H]; auto.
  - destruct (toordinal (fst x) <? toordinal (fst h)); simpl.
    + split; intros [H|H]; auto.
    + rewrite IH. split; intros H; intuition auto.
Qed.

Lemma insert_by_date_sorted x l :
  sorted_by_date l -> sorted_by_date (insert_by_date x l).
Proof.
  induction l as [|h t IH]; simpl; [intros _; split; [intros y []|exact I]|].
  intros [Hh Ht].
  destruct (Z.ltb_spec (toordinal (fst x)) (toordinal (fst h))); simpl.
  - split; [|split; assumption].
    intros y [<-|Hy]; [lia|]. specialize (Hh y Hy). lia.
  - split; [|apply IH; exact Ht].
    intros y Hy. apply insert_by_date_in in Hy.
    destruct Hy as [->|Hy]; [lia | apply Hh; exact Hy].
Qed.

Lemma sort_by_date_spec l :
  sorted_by_date (sort_by_date l)
  /\ forall y, In y (sort_by_date l) <-> In y l.
Proof.
  unfold sort_by_date.
  assert (forall l acc,
            sorted_by_date acc ->
            sorted_by_date (fold_left (fun acc x => insert_by_date x acc) l acc)
            /\ forall y, In y (fold_left (fun acc x => insert_by_date x acc)
                                 l acc)
                         <-> In y l \/ In y acc) as H.
  { clear l. induction l as [|x l IH]; intros acc Hacc; simpl.
    - split; [exact Hacc|]. intros y. tauto.
    - destruct (IH (insert_by_date x acc) (insert_by_date_sorted _ _ Hacc))
        as [Hs Hi].
      split; [exact Hs|]. intros y. rewrite Hi, insert_by_date_in.
      split; intros H; intuition auto. }
  destruct (H l [] I) as [Hs Hi]. split; [exact Hs|].
  intros y. rewrite Hi. simpl. tauto.
Qed.

Lemma select_best_pair_ordered year_dates parsed pair :
  select_best_pair year_dates (sort_by_date parsed) = Ok (Some pair) ->
  ordered_pair parsed pair.
Proof.
  destruct (sort_by_date_spec parsed) as [Hs Hi].
  unfold select_best_pair.
  destruct (outer_loop year_dates (sort_by_date parsed) (None, 0))
    as [st|] eqn:E; [|discriminate].
  cbn [bind].
  assert (best_ordered (sort_by_date parsed) st) as Hst.
  { apply (outer_loop_ordered _ _ _ _ _ (incl_refl _)) in E; [exact E|].
    intros p Hp. cbn [fst] in Hp. discriminate Hp. }
  assert (forall p, ordered_pair (sort_by_date parsed) p ->
                    ordered_pair parsed p) as Hback.
  { intros p (a & b & Ha & Hb & Hab). exists a, b.
    rewrite <- !Hi. auto. }
  destruct (fst st) as [best_pair|] eqn:Eb.
  - intros H. inversion H; subst. apply Hback, Hst. exact Eb.
  - destruct (sort_by_date parsed) as [|a [|b rest]]; try discriminate.
    intros H. inversion H; subst. apply Hback.
    exists (fst a), (fst b). cbn [fst snd].
    rewrite <- !surjective_pairing.
    split; [left; reflexivity|]. split; [right; left; reflexivity|].
    destruct Hs as [Ha _]. apply Ha. left. reflexivity.
Qed.

(** The date strings of [parse_dates] are read back by [strptime] as
    the dates beside them. *)
Lemma parse_dates_read now email_date scanning_year combined :
  forall parsed result,
    (forall t s, In (t, s) parsed -> strptime_ymd s = Ok t) ->
    parse_dates now email_date scanning_year combined parsed = Ok result ->
    forall t s, In (t, s) result -> strptime_ymd s = Ok t.
Proof.
  induction combined as [|[[d mo] y] rest IH]; intros parsed result Hp;
    simpl.
  - intros H. apply ok_inj in H. subst. exact Hp.
  - destruct (swedish_months (lower mo)) as [mm|]; [|apply IH; exact Hp].
    match goal with
    | |- bind ?m _ = _ -> _ => destruct m as [yr|]; [|discriminate]
    end.
    cbn [bind]. cbv zeta.
    destruct (strptime_ymd (fmt_date yr mm d)) as [date_obj|] eqn:E;
      [|apply IH; exact Hp].
    destruct (existsb _ _); apply IH; [exact Hp|].
    intros t s Hin. apply in_app_or in Hin.
    destruct Hin as [Hin|[Hin|[]]]; [apply Hp; exact Hin|].
    inversion Hin; subst. exact E.
Qed.

(** X11.  The final fallback of a confirmation never stores a check-out
    before the check-in: it leaves the two dates as they were, or
    writes two strings that read as dates, the first not after the
    second. *)
Theorem fallback_dates_in_order :
  forall (now : date) (body : text) (email_date : option text)
         (scanning_year : option Z) (data data' : dict),
    fallback_block now body email_date scanning_year data = Ok data' ->
    (data' checkInDate = data checkInDate
     /\ data' checkOutDate = data checkOutDate)
    \/ exists ci co tin tout,
         data' checkInDate = VStr ci /\ data' checkOutDate = VStr co
         /\ strptime_ymd ci = Ok tin /\ strptime_ymd co = Ok tout
         /\ toordinal tin <= toordinal tout.
Proof.
  intros now body email_date scanning_year data data'.
  unfold fallback_block.
  destruct (dates_unsettled data);
    [|intros H; apply ok_inj in H; subst; left; split; reflexivity].
  cbv zeta.
  destruct (parse_dates _ _ _ _ _) as [parsed|] eqn:Ep; [|discriminate].
  cbn [bind].
  destruct (select_best_pair _ _) as [[[ci co]|]|] eqn:Es;
    [| |discriminate]; cbn [bind];
    intros H; apply ok_inj in H; subst;
    [|left; split; reflexivity].
  assert (forall (t : date) (s : text),
            In (t, s) [] -> strptime_ymd s = Ok t) as Hnil
    by (intros t s Hin; destruct Hin).
  right. apply select_best_pair_ordered in Es.
  destruct Es as (a & b & Ha & Hb & Hab). cbn [fst snd] in *.
  exists ci, co, a, b.
  split; [reflexivity|]. split; [reflexivity|].
  split; [apply (parse_dates_read _ _ _ _ _ _ Hnil Ep); exact Ha|].
  split; [apply (parse_dates_read _ _ _ _ _ _ Hnil Ep); exact Hb|].
  exact Hab.
Qed.

(** X10.  The date-pair block never stores a check-out before the
    check-in: it leaves the two dates as they were, or writes two
    strings that read as dates, swapped when needed so that the first
    is not after the second. *)
Theorem date_pair_in_order :
  forall (now : date) (body : text) (email_date : option text)
         (scanning_year : option Z) (data data' : dict),
    date_pair_block now body email_date scanning_year data = Ok data' ->
    (data' checkInDate = data checkInDate
     /\ data' checkOutDate = data checkOutDate)
    \/ exists ci co tin tout,
         data' checkInDate = VStr ci /\ data' checkOutDate = VStr co
         /\ strptime_ymd ci = Ok tin /\ strptime_ymd co = Ok tout
         /\ toordinal tin <= toordinal tout.
Proof.
  intros now body email_date scanning_year data data'.
  unfold date_pair_block.
  destruct (dates_unsettled data);
    [|intros H; apply ok_inj in H; subst; left; split; reflexivity].
  destruct (search true pat_date_pair_pattern body) as [m|];
    [|intros H; apply ok_inj in H; subst; left; split; reflexivity].
  cbv zeta.
  destruct (swedish_months (lower (group_str m 3))) as [mm1|];
    [|intros H; apply ok_inj in H; subst; left; split; reflexivity].
  destruct (swedish_months (lower (group_str m 7))) as [mm2|];
    [|intros H; apply ok_inj in H; subst; left; split; reflexivity].
  match goal with
  | |- bind ?m _ = _ -> _ => destruct m as [year1|]; [|discriminate]
  end.
  cbn [bind].
  match goal with
  | |- bind ?m _ = _ -> _ => destruct m as [year2|]; [|discriminate]
  end.
  cbn [bind].
  destruct (strptime_ymd (fmt_date year1 mm1 _)) as [t1|] eqn:E1;
    [|intros H; apply ok_inj in H; subst; left; split; reflexivity].
  destruct (strptime_ymd (fmt_date year2 mm2 _)) as [t2|] eqn:E2;
    [|intros H; apply ok_inj in H; subst; left; split; reflexivity].
  destruct (Z.leb_spec (toordinal t1) (toordinal t2)) as [Hle|Hgt];
    intros H; apply ok_inj in H; subst; right.
  - exists (fmt_date year1 mm1 (group_str m 2)),
           (fmt_date year2 mm2 (group_str m 6)), t1, t2.
    split; [reflexivity|]. split; [reflexivity|].
    split; [exact E1|]. split; [exact E2|]. exact Hle.
  - exists (fmt_date year2 mm2 (group_str m 6)),
           (fmt_date year1 mm1 (group_str m 2)), t2, t1.
    split; [reflexivity|]. split; [reflexivity|].
    split; [exact E2|]. split; [exact E1|]. lia.
Qed.

(** Three dates in July, the fallback at work. *)
Lemma fallback_dates_in_order_witness :
  exists data',
    fallback_block clock (u "Datum: 13 juli, 27 juli och 15 juli.")
      (Some (u "2025-03-01")) None (initial_data booking_confirmation)
    = Ok data'
    /\ ((data' checkInDate = initial_data booking_confirmation checkInDate
         /\ data' checkOutDate
            = initial_data booking_confirmation checkOutDate)
        \/ exists ci co tin tout,
             data' checkInDate = VStr ci /\ data' checkOutDate = VStr co
             /\ strptime_ymd ci = Ok tin /\ strptime_ymd co = Ok tout
             /\ toordinal tin <= toordinal tout).
Proof.
  assert (E : exists data',
             fallback_block clock (u "Datum: 13 juli, 27 juli och 15 juli.")
               (Some (u "2025-03-01")) None
               (initial_data booking_confirmation) = Ok data').
  { eexists. vm_compute. reflexivity. }
  destruct E as (data' & E). exists data'. split; [exact E|].
  exact (fallback_dates_in_order clock
           (u "Datum: 13 juli, 27 juli och 15 juli.")
           (Some (u "2025-03-01")) None (initial_data booking_confirmation)
           data' E).
Defined.

(** A pair written the later date first. *)
Lemma date_pair_in_order_witness :
  exists data',
    date_pair_block clock (u "tis 15 juli 2025 - sön 13 juli 2025")
      None None (initial_data booking_confirmation) = Ok data'
    /\ ((data' checkInDate = initial_data booking_confirmation checkInDate
         /\ data' checkOutDate
            = initial_data booking_confirmation checkOutDate)
        \/ exists ci co tin tout,
             data' checkInDate = VStr ci /\ data' checkOutDate = VStr co
             /\ strptime_ymd ci = Ok tin /\ strptime_ymd co = Ok tout
             /\ toordinal tin <= toordinal tout).
Proof.
  assert (E : exists data',
             date_pair_block clock (u "tis 15 juli 2025 - sön 13 juli 2025")
               None None (initial_data booking_confirmation) = Ok data').
  { eexists. vm_compute. reflexivity. }
  destruct E as (data' & E). exists data'. split; [exact E|].
  exact (date_pair_in_order clock (u "tis 15 juli 2025 - sön 13 juli 2025")
           None None (initial_data booking_confirmation) data' E).
Defined.

(** ** What the extractor without a model can return *)

Lemma get_put k f v d :
  get f (put k v d) = if text_eqb k f then Some v else get f d.
Proof.
  destruct (text_eqb k f) eqn:E.
  - apply text_eqb_eq in E. subst. apply get_put_same.
  - apply get_put_other. exact E.
Qed.

Lemma insert_entry_in x e l : In e (insert_entry x l) -> e = x \/ In e l.
Proof.
  induction l as [|h t IH]; simpl.
  - intros [H|[]]. left. symmetry. exact H.
  - destruct (entry_priority h <? entry_priority x); simpl.
    + intros [H|H]; [left; symmetry; exact H | right; exact H].
    + intros [H|H]; [right; left; exact H|].
      destruct (IH H) as [H'|H']; [left; exact H' | right; right; exact H'].
Qed.

Lemma sort_priorities_in e l : In e (sort_priorities l) -> In e l.
Proof.
  unfold sort_priorities.
  assert (forall l acc, In e (fold_left (fun acc x => insert_entry x acc) l acc)
                        -> In e l \/ In e acc) as H.
  { clear l. induction l as [|x l IH]; intros acc; simpl; [auto|].
    intros Hin. destruct (IH _ Hin) as [Hl|Hacc]; [auto|].
    destruct (insert_entry_in _ _ _ Hacc) as [->|Ha]; auto. }
  intros Hin. destruct (H _ _ Hin) as [Hl|[]]. exact Hl.
Qed.

Lemma priorities_of_in e amts :
  In e (priorities_of amts) ->
  exists a, In a amts /\ classify_amount a = Some e.
Proof.
  unfold priorities_of. rewrite in_flat_map. intros (a & Ha & He).
  exists a. split; [exact Ha|].
  destruct (classify_amount a) as [e'|]; [|destruct He].
  destruct He as [->|[]]. reflexivity.
Qed.

(** The four amount fields of [basic_extraction]. *)
Definition amount_fields : list text :=
  [u "hostEarningsEur"; u "guestTotalEur"; u "hostEarningsSek";
   u "cleaningFeeEur"].

Lemma classify_amount_entry a e :
  classify_amount a = Some e ->
  In (entry_field e) amount_fields /\ flt_le (entry_value e) 0 = false.
Proof.
  unfold classify_amount.
  destruct (flt_le (amount_of (value a)) 0) eqn:Epos; [discriminate|].
  repeat match goal with
         | |- context [if ?b then _ else _] => destruct b
         | |- context [match ?x with _ => _ end] => destruct x
         end;
    intros H; inversion H; subst; clear H;
    (split; [unfold amount_fields, entry_field; simpl; tauto | exact Epos]).
Qed.

Lemma take_fields_get l :
  forall seen d k v,
    get k (take_fields l seen d) = Some v ->
    get k d = Some v
    \/ exists e, In e l /\ entry_field e = k /\ v = RNum (entry_value e).
Proof.
  induction l as [|e l IH]; intros seen d k v H; simpl in H; [auto|].
  destruct (existsb (text_eqb (entry_field e)) seen).
  - destruct (IH _ _ _ _ H) as [Hd|(e' & Hin & Hf & Hv)]; [auto|].
    right. exists e'. simpl. auto.
  - destruct (IH _ _ _ _ H) as [Hd|(e' & Hin & Hf & Hv)].
    + rewrite get_put in Hd.
      destruct (text_eqb (entry_field e) k) eqn:Ek; [|auto].
      apply text_eqb_eq in Ek. inversion Hd; subst.
      right. exists e. simpl. auto.
    + right. exists e'. simpl. auto.
Qed.

Lemma add_names_get ns :
  forall d k v,
    get k (add_names ns d) = Some v ->
    get k d = Some v
    \/ (k = u "guestName" /\ exists n, In n ns /\ v = RStr (value n)).
Proof.
  induction ns as [|n ns IH]; intros d k v H; simpl in H; [auto|].
  destruct (rval_truthy (get (u "guestName") d)).
  - destruct (IH _ _ _ H) as [Hd|(Hk & n' & Hin & Hv)]; [auto|].
    right. split; [exact Hk|]. exists n'. simpl. auto.
  - destruct (IH _ _ _ H) as [Hd|(Hk & n' & Hin & Hv)].
    + rewrite get_put in Hd.
      destruct (text_eqb (u "guestName") k) eqn:Ek; [|auto].
      apply text_eqb_eq in Ek. inversion Hd; subst.
      right. split; [reflexivity|]. exists n. simpl. auto.
    + right. split; [exact Hk|]. exists n'. simpl. auto.
Qed.

(** A name candidate has three to forty-nine characters and begins
    with a letter. *)
Lemma scan_names_value txt n :
  In n (scan_names txt) ->
  (2 < length (value n) < 50)%nat
  /\ match value n with c :: _ => is_alpha c = true | [] => False end.
Proof.
  unfold scan_names. rewrite in_flat_map. intros (p & _ & Hn).
  unfold names_of_pattern in Hn. rewrite in_flat_map in Hn.
  destruct Hn as (m & _ & Hn).
  destruct (clean_guest_name (strip (group_str m 1))) as [w|] eqn:Ec;
    [|destruct Hn].
  destruct ((2 <? length w)%nat && (length w <? 50)%nat) eqn:El;
    [|destruct Hn].
  destruct Hn as [<-|[]]. cbn [value].
  apply andb_prop in El. destruct El as [E1 E2].
  apply Nat.ltb_lt in E1, E2. split; [lia|].
  unfold clean_guest_name in Ec.
  destruct (negb (truthy _) || negb (truthy _)); [discriminate|].
  cbv zeta in Ec.
  match type of Ec with
  | match ?x with _ => _ end = _ => destruct x as [|c [|c' r]]
  end; try discriminate.
  destruct (is_alpha c) eqn:Ea; [|discriminate].
  inversion Ec; subst. exact Ea.
Qed.

(** X12.  Without a trained model the extractor fills five fields at
    most: host earnings in euro or kronor, guest total and cleaning fee
    in euro, each a positive number, and a guest name of three to
    forty-nine characters that begins with a letter.  The date
    candidates it collects are never used, and it reads no booking
    code, no nights and no dates. *)
Theorem basic_extraction_fields :
  forall (email_text email_type k : text) (v : rval),
    get k (basic_extraction email_text email_type) = Some v ->
    (In k amount_fields /\ exists x, v = RNum x /\ flt_le x 0 = false)
    \/ (k = u "guestName"
        /\ exists w, v = RStr w /\ (2 < length w < 50)%nat
                     /\ match w with
                        | c :: _ => is_alpha c = true
                        | [] => False
                        end).
Proof.
  intros email_text email_type k v H. unfold basic_extraction in H.
  cbv zeta in H. apply add_names_get in H.
  destruct H as [H|(-> & n & Hin & ->)].
  - apply take_fields_get in H. destruct H as [H|(e & Hin & <- & ->)];
      [discriminate H|].
    apply sort_priorities_in, priorities_of_in in Hin.
    destruct Hin as (a & _ & Ha). apply classify_amount_entry in Ha.
    destruct Ha as [Hf Hpos]. left. split; [exact Hf|].
    exists (entry_value e). auto.
  - right. split; [reflexivity|]. exists (value n).
    split; [reflexivity|]. apply (scan_names_value email_text). exact Hin.
Qed.

(** ** Amounts are positive, with or without a model *)

Lemma flt_gt_not_le x : flt_gt x 0 = true -> flt_le x 0 = false.
Proof.
  destruct x as [q|negative|]; simpl.
  - intros H. apply negb_true_iff in H. exact H.
  - intros H. apply negb_true_iff in H. exact H.
  - discriminate.
Qed.

Lemma assign_amounts_positive clf txt email_type amts :
  forall d,
    (forall k x, get k d = Some (RNum x) -> flt_le x 0 = false) ->
    forall k x,
      get k (assign_amounts clf txt email_type amts d) = Some (RNum x) ->
      flt_le x 0 = false.
Proof.
  induction amts as [|a amts IH]; intros d Hd k x; simpl; [apply Hd|].
  destruct (negb _ && negb _ && flt_gt (amount_of (value a)) 0) eqn:E.
  - apply IH. intros k' x'. rewrite get_put.
    destruct (text_eqb _ k').
    + intros H. inversion H; subst.
      apply andb_prop in E. destruct E as [_ E].
      apply flt_gt_not_le. exact E.
    + apply Hd.
  - apply IH. exact Hd.
Qed.

(** X13.  Every number [extract_data] returns is positive, with a
    trained model or without: a candidate that parses to zero or less is
    never assigned. *)
Theorem extracted_amounts_positive :
  forall (amount_classifier : option classifier)
         (email_text email_type k : text) (x : pyfloat),
    get k (extract_data amount_classifier email_text email_type)
    = Some (RNum x) ->
    flt_le x 0 = false.
Proof.
  intros [clf|] email_text email_type k x H; unfold extract_data in H.
  - cbv zeta in H. apply add_names_get in H.
    destruct H as [H|(_ & n & _ & Hv)]; [|discriminate Hv].
    revert H. apply assign_amounts_positive. intros k' x' H'.
    discriminate H'.
  - unfold basic_extraction in H. cbv zeta in H. apply add_names_get in H.
    destruct H as [H|(_ & n & _ & Hv)]; [|discriminate Hv].
    apply take_fields_get in H.
    destruct H as [H|(e & Hin & _ & Hv)]; [discriminate H|].
    inversion Hv; subst.
    apply sort_priorities_in, priorities_of_in in Hin.
    destruct Hin as (a & _ & Ha). apply classify_amount_entry in Ha.
    exact (proj2 Ha).
Qed.

(** The sample mail of the [__main__] block. *)
Lemma basic_extraction_fields_witness :
  (In (u "hostEarningsEur") amount_fields
   /\ exists x, RNum (amount_of (u "389,13")) = RNum x /\ flt_le x 0 = false)
  \/ (u "hostEarningsEur" = u "guestName"
      /\ exists w, RNum (amount_of (u "389,13")) = RStr w
                   /\ (2 < length w < 50)%nat
                   /\ match w with
                      | c :: _ => is_alpha c = true
                      | [] => False
                      end).
Proof.
  apply (basic_extraction_fields henri_mail booking_confirmation
           (u "hostEarningsEur") (RNum (amount_of (u "389,13")))).
  vm_compute. reflexivity.
Defined.

Lemma extracted_amounts_positive_witness :
  flt_le (amount_of (u "389,13")) 0 = false.
Proof.
  apply (extracted_amounts_positive None henri_mail booking_confirmation
           (u "hostEarningsEur") (amount_of (u "389,13"))).
  vm_compute. reflexivity.
Defined.

(** ** Amount candidates do not run into each other *)

(** No candidate begins inside, or ends inside, one that stands before
    it in the list. *)
Fixpoint spans_apart (l : list entity) : bool :=
  match l with
  | [] => true
  | e :: t =>
      forallb (fun e' => negb (overlaps [(start e, end_ e)]
                                        (start e') (end_ e'))) t
      && spans_apart t
  end.

Lemma spans_apart_snoc l x :
  spans_apart l = true ->
  (forall e, In e l ->
             overlaps [(start e, end_ e)] (start x) (end_ x) = false) ->
  spans_apart (l ++ [x]) = true.
Proof.
  induction l as [|e t IH]; intros Hl Hx; [reflexivity|].
  cbn [spans_apart app] in *. apply andb_prop in Hl. destruct Hl as [He Ht].
  apply andb_true_intro. split.
  - rewrite forallb_app, He. cbn [forallb].
    rewrite (Hx e (or_introl eq_refl)). reflexivity.
  - apply IH; [exact Ht|]. intros e' He'. apply Hx. right. exact He'.
Qed.

Lemma overlaps_member mp a b s e :
  overlaps mp a b = false -> In (s, e) mp -> overlaps [(s, e)] a b = false.
Proof.
  unfold overlaps. intros H Hin. cbn [existsb]. rewrite orb_false_r.
  destruct (((s <=? a) && (a <? e) || (s <? b) && (b <=? e))%nat) eqn:E;
    [|reflexivity].
  assert (existsb (fun se : nat * nat =>
                     let '(s, e) := se in
                     ((s <=? a) && (a <? e) || (s <? b) && (b <=? e))%nat)
                  mp = true) as Ht.
  { apply existsb_exists. exists (s, e). split; [exact Hin | exact E]. }
  rewrite Ht in H. discriminate H.
Qed.

Definition claimed (found : list entity) (mp : list (nat * nat)) : Prop :=
  spans_apart found = true
  /\ forall e, In e found -> In (start e, end_ e) mp.

Lemma claim_amounts_claimed txt ms :
  forall found mp,
    claimed found mp ->
    claimed (fst (claim_amounts txt ms found mp))
            (snd (claim_amounts txt ms found mp)).
Proof.
  induction ms as [|m ms IH]; intros found mp Hc; [exact Hc|].
  cbn [claim_amounts].
  destruct (overlaps mp (m_start m) (m_end m)) eqn:Eo; [apply IH; exact Hc|].
  apply IH. destruct Hc as [Hs Hin]. split.
  - apply spans_apart_snoc; [exact Hs|]. intros e He. cbn [start end_].
    apply (overlaps_member mp); [exact Eo | apply Hin; exact He].
  - intros e He. apply in_app_or in He. destruct He as [He|[<-|[]]].
    + right. apply Hin. exact He.
    + left. reflexivity.
Qed.

Lemma scan_amounts_apart txt pats :
  forall found mp,
    claimed found mp -> spans_apart (scan_amounts txt pats found mp) = true.
Proof.
  induction pats as [|p pats IH]; intros found mp Hc; [exact (proj1 Hc)|].
  cbn [scan_amounts].
  pose proof (claim_amounts_claimed txt (finditer true p txt) found mp Hc)
    as H.
  destruct (claim_amounts txt (finditer true p txt) found mp) as [f' m'].
  apply IH. exact H.
Qed.

(** X14.  The amount candidates of [extract_candidate_entities] do not
    run into each other: no candidate begins inside, or ends inside, a
    candidate found before it, whichever of the three patterns found
    them. *)
Theorem amount_candidates_apart :
  forall txt : text,
    spans_apart (amounts (extract_candidate_entities txt)) = true.
Proof.
  intros txt. unfold extract_candidate_entities. cbn [amounts].
  apply scan_amounts_apart. split; [reflexivity|]. intros e [].
Qed.

(** ** The euro breakdown of a payout *)

(** A float as [float] writes it: a fraction in lowest terms. *)
Definition reduced (x : pyfloat) : Prop :=
  match x with
  | Fin q => Qred q = q
  | _ => True
  end.

Lemma decimal_reduced m e : Qred (decimal m e) = decimal m e.
Proof.
  unfold decimal. destruct (0 <=? e); apply Qred_complete, Qred_correct.
Qed.

Lemma py_float_reduced s x : py_float s = Ok x -> reduced x.
Proof.
  unfold py_float.
  destruct (split_sign (strip s)) as [neg r].
  destruct (text_eqb (lower r) (u "inf") || text_eqb (lower r) (u "infinity")).
  { intros H. inversion H. exact I. }
  destruct (text_eqb (lower r) (u "nan")).
  { intros H. inversion H. exact I. }
  destruct (digitpart r) as [ip r1].
  destruct (match r1 with 46%N :: r' => digitpart r' | _ => ([], r1) end)
    as [fp r2].
  destruct (ip ++ fp); [discriminate|].
  destruct (match exponent r2 with
            | Some (e, r') => (e, r')
            | None => (0, r2)
            end) as [ex r3].
  destruct r3; [|discriminate].
  intros H. inversion H. apply decimal_reduced.
Qed.

Lemma normalize_amount_reduced w x :
  ClassifyEmail.normalize_amount w = Ok x -> reduced x.
Proof.
  unfold ClassifyEmail.normalize_amount.
  destruct (negb (truthy w)).
  { intros H. inversion H. reflexivity. }
  destruct (py_float _) as [y|e] eqn:E.
  - intros H. inversion H; subst. exact (py_float_reduced _ _ E).
  - destruct e; simpl; intros H; inversion H. reflexivity.
Qed.

Lemma flt_add_zero x : reduced x -> ClassifyEmail.flt_add x zero = x.
Proof.
  destruct x as [q|s|]; try reflexivity.
  unfold reduced, ClassifyEmail.flt_add, zero. intros H. f_equal.
  transitivity (Qred q); [|exact H].
  apply Qred_complete. change (decimal 0 0) with (0 # 1)%Q. ring.
Qed.

Lemma max_q_in l : l <> [] -> In (MLExtractor.max_q l) l.
Proof.
  destruct l as [|h t]; [congruence|]. intros _. unfold MLExtractor.max_q.
  assert (forall t m, In (fold_left (fun m x => if Qle_bool m x then x else m)
                                    t m) (m :: t)) as H.
  { clear. induction t as [|x t IH]; intros m; simpl; [auto|].
    destruct (Qle_bool m x).
    - destruct (IH x) as [H|H]; [right; left; exact H | right; right; exact H].
    - destruct (IH m) as [H|H]; [left; exact H | right; right; exact H]. }
  apply H.
Qed.

(** X15.  In every breakdown [extract_eur_breakdown] returns, the total
    is the host earnings plus the cleaning fee, whichever pattern was
    used. *)
Theorem eur_breakdown_adds_up :
  forall (body : text) (e : ClassifyEmail.eur_breakdown),
    ClassifyEmail.extract_eur_breakdown body = Ok e ->
    ClassifyEmail.eur_total e
    = ClassifyEmail.flt_add (ClassifyEmail.eur_host e)
                            (ClassifyEmail.eur_cleaning e).
Proof.
  intros body e. unfold ClassifyEmail.extract_eur_breakdown.
  destruct (search true ClassifyEmail.eur_pattern_0 body) as [m|].
  { destruct (ClassifyEmail.norm _) as [x|]; [|discriminate]. cbn [bind].
    destruct (ClassifyEmail.norm _) as [y|]; [|discriminate]. cbn [bind].
    intros H. inversion H; subst. reflexivity. }
  destruct (search true ClassifyEmail.eur_pattern_1 body) as [m|].
  { destruct (ClassifyEmail.norm _) as [x|] eqn:E; [|discriminate].
    cbn [bind]. intros H. inversion H; subst. simpl.
    symmetry. apply flt_add_zero.
    exact (normalize_amount_reduced _ _ E). }
  cbv zeta.
  match goal with
  | |- context [flat_map ?f ?l] => set (found := flat_map f l)
  end.
  assert (forall q, In q found -> Qred q = q) as Hred.
  { intros q Hq. unfold found in Hq. rewrite in_flat_map in Hq.
    destruct Hq as (w & _ & Hq).
    destruct (ClassifyEmail.norm w) as [[q'| |]|] eqn:E; try destruct Hq.
    destruct (negb (Qle_bool q' 0)); [|destruct Hq].
    destruct Hq as [<-|[]].
    exact (normalize_amount_reduced _ _ E). }
  destruct found as [|q0 rest] eqn:Ef.
  - intros H. inversion H; subst. reflexivity.
  - intros H. apply ok_inj in H. subst e.
    cbn [ClassifyEmail.eur_total ClassifyEmail.eur_host
         ClassifyEmail.eur_cleaning].
    symmetry. apply flt_add_zero. unfold reduced.
    apply Hred. apply (max_q_in (q0 :: rest)). discriminate.
Qed.

(** ** The host earnings of a payout, as [main] prints them *)

(** X16.  The host earnings in euro that [main] prints for a payout
    come from the body alone: [extract_booking_data] leaves the field
    empty for a payout, so it is null, or, when the breakdown of the body
    has a positive total, the host part of the breakdown if there is a
    cleaning fee and the total if not. *)
Theorem payout_host_earnings_from_body :
  forall (now : date) (confidence : Q) (subject sender body : text)
         (email_date : option text) (o : list (string * pyval)),
    ClassifyEmail.main now payout confidence subject sender body email_date
    = Ok o ->
    ClassifyEmail.json_get "hostEarningsEur" o = Some VNone
    \/ exists e,
         ClassifyEmail.extract_eur_breakdown body = Ok e
         /\ flt_gt (ClassifyEmail.eur_total e) 0 = true
         /\ ClassifyEmail.json_get "hostEarningsEur" o
            = Some (VFloat (if flt_gt (ClassifyEmail.eur_cleaning e) 0
                            then ClassifyEmail.eur_host e
                            else ClassifyEmail.eur_total e)).
Proof.
  intros now confidence subject sender body email_date o.
  unfold ClassifyEmail.main.
  destruct (extract_booking_data now payout subject sender body
              email_date None) as [d|] eqn:E; [|discriminate].
  cbn [bind]. change (text_eqb payout payout) with true. cbv iota.
  intros H. apply ok_inj in H. subst o.
  pose proof (record_frame _ _ _ _ _ _ _ _ hostEarningsEur E eq_refl)
    as Hnone.
  change (initial_data payout hostEarningsEur) with VNone in Hnone.
  change (ClassifyEmail.json_get "hostEarningsEur"
            (ClassifyEmail.result_json payout confidence subject
               (ClassifyEmail.enhance_payout body d)))
    with (Some (ClassifyEmail.enhance_payout body d hostEarningsEur)).
  unfold ClassifyEmail.enhance_payout.
  destruct (ClassifyEmail.extract_eur_breakdown body) as [e|];
    [|left; rewrite Hnone; reflexivity].
  destruct (flt_gt (ClassifyEmail.eur_total e) 0) eqn:Etot;
    [|left; rewrite Hnone; reflexivity].
  right. exists e. split; [reflexivity|]. split; [exact Etot|].
  destruct (flt_gt (ClassifyEmail.eur_cleaning e) 0); reflexivity.
Qed.

(** The first body of [test_enhanced_parser]: 368,60 and 45,60 euro. *)
Lemma eur_breakdown_adds_up_witness :
  exists e,
    ClassifyEmail.extract_eur_breakdown
      (u "Hej! €368,60 + €45,60 = 4 612,87 kr.") = Ok e
    /\ ClassifyEmail.eur_total e
       = ClassifyEmail.flt_add (ClassifyEmail.eur_host e)
                               (ClassifyEmail.eur_cleaning e).
Proof.
  assert (E : exists e,
             ClassifyEmail.extract_eur_breakdown
               (u "Hej! €368,60 + €45,60 = 4 612,87 kr.") = Ok e).
  { eexists. vm_compute. reflexivity. }
  destruct E as (e & E). exists e. split; [exact E|].
  exact (eur_breakdown_adds_up _ e E).
Defined.

Lemma payout_host_earnings_from_body_witness :
  exists o,
    ClassifyEmail.main clock payout 1
      (u "En utbetalning på 4 612,87 kr skickades") (u "automated@airbnb.com")
      (u "Hej! €368,60 + €45,60 = 4 612,87 kr.") None = Ok o
    /\ (ClassifyEmail.json_get "hostEarningsEur" o = Some VNone
        \/ exists e,
             ClassifyEmail.extract_eur_breakdown
               (u "Hej! €368,60 + €45,60 = 4 612,87 kr.") = Ok e
             /\ flt_gt (ClassifyEmail.eur_total e) 0 = true
             /\ ClassifyEmail.json_get "hostEarningsEur" o
                = Some (VFloat (if flt_gt (ClassifyEmail.eur_cleaning e) 0
                                then ClassifyEmail.eur_host e
                                else ClassifyEmail.eur_total e))).
Proof.
  assert (E : exists o,
             ClassifyEmail.main clock payout 1
               (u "En utbetalning på 4 612,87 kr skickades")
               (u "automated@airbnb.com")
               (u "Hej! €368,60 + €45,60 = 4 612,87 kr.") None = Ok o).
  { eexists. vm_compute. reflexivity. }
  destruct E as (o & E). exists o. split; [exact E|].
  exact (payout_host_earnings_from_body clock 1
           (u "En utbetalning på 4 612,87 kr skickades")
           (u "automated@airbnb.com")
           (u "Hej! €368,60 + €45,60 = 4 612,87 kr.") None o E).
Defined.

(** ** What the bridge takes from each extractor *)


Lemma rget_rput k f v d :
  rget f (rput k v d) = if text_eqb k f then Some v else rget f d.
Proof.
  induction d as [|[k' v'] d IH]; simpl.
  - reflexivity.
  - destruct (text_eqb k' k) eqn:E; simpl.
    + apply text_eqb_eq in E. subst k'.
      destruct (text_eqb k f); reflexivity.
    + destruct (text_eqb k' f) eqn:E'; [|exact IH].
      destruct (text_eqb k f) eqn:E''; [|reflexivity].
      apply text_eqb_eq in E', E''. subst. rewrite text_eqb_refl in E.
      discriminate E.
Qed.

Lemma key_name_eqb k k' :
  text_eqb (key_name k) (key_name k') = key_beq k k'.
Proof. destruct k, k'; reflexivity. Qed.

Lemma key_beq_eq k k' : key_beq k k' = true -> k = k'.
Proof. destruct k, k'; intros H; try discriminate H; reflexivity. Qed.

Lemma key_beq_same k : key_beq k k = true.
Proof. destruct k; reflexivity. Qed.

Lemma copy_old_get old_data k :
  forall keys acc,
    rget (key_name k) (copy_old keys old_data acc)
    = if existsb (key_beq k) keys && negb (is_none (old_data k))
      then Some (old_data k)
      else rget (key_name k) acc.
Proof.
  induction keys as [|k' keys IH]; intros acc; [reflexivity|].
  cbn [copy_old existsb].
  destruct (key_beq k k') eqn:Ek.
  - apply key_beq_eq in Ek. subst k'. cbn [orb].
    destruct (is_none (old_data k)) eqn:En; rewrite IH, ?En; cbn [negb].
    + rewrite !andb_false_r. reflexivity.
    + rewrite !andb_true_r, rget_rput, text_eqb_refl.
      destruct (existsb (key_beq k) keys); reflexivity.
  - cbn [orb].
    destruct (is_none (old_data k')); rewrite IH; [reflexivity|].
    rewrite rget_rput, key_name_eqb.
    assert (key_beq k' k = false) as ->.
    { destruct (key_beq k' k) eqn:E; [|reflexivity].
      apply key_beq_eq in E. subst. rewrite key_beq_same in Ek.
      discriminate Ek. }
    reflexivity.
Qed.

Lemma override_other f :
  forall items acc,
    (forall k v, In (k, v) items -> text_eqb k f = false) ->
    rget f (override items acc) = rget f acc.
Proof.
  induction items as [|[k v] items IH]; intros acc Hk; [reflexivity|].
  cbn [override].
  assert (forall k' v', In (k', v') items -> text_eqb k' f = false) as Hk'
    by (intros k' v' Hin; apply (Hk k' v'); right; exact Hin).
  destruct (text_eqb k (u "guestName") && _is_invalid_guest_name v).
  - apply IH. exact Hk'.
  - rewrite IH by exact Hk'. rewrite rget_rput.
    rewrite (Hk k v (or_introl eq_refl)). reflexivity.
Qed.

Lemma in_get k v d : In (k, v) d -> exists v', get k d = Some v'.
Proof.
  induction d as [|[k' w] d IH]; [intros []|].
  intros [H|H]; simpl.
  - inversion H; subst. rewrite text_eqb_refl. eauto.
  - destruct (text_eqb k' k); [eauto | apply IH; exact H].
Qed.

(** The keys the extractor without a model never fills. *)
Definition rules_only (k : key) : bool :=
  match k with
  | emailType | guestName | hostEarningsEur | guestTotalEur
  | hostEarningsSek | cleaningFeeEur => false
  | _ => true
  end.

(** X17.  With no trained model, the bridge takes the booking code, the
    dates, the nights, the guest count, the payout amount, the
    currency and every fee but the cleaning fee in euro from the
    rule-based extractor alone: each is its value there, and absent when
    that is [None]. *)
Theorem bridge_keeps_the_rules :
  forall (now : date) (email_type : text) (confidence : Q)
         (subject sender body : text) (email_date : option text)
         (old_data : dict) (result : record) (k : key),
    extract_booking_data now email_type subject sender body email_date None
    = Ok old_data ->
    classify_and_extract now None email_type confidence subject sender body
                         email_date = Ok result ->
    rules_only k = true ->
    rget (key_name k) result
    = if is_none (old_data k) then None else Some (old_data k).
Proof.
  intros now email_type confidence subject sender body email_date old_data
         result k Hold H Hk.
  unfold classify_and_extract in H. rewrite Hold in H. cbn [bind] in H.
  cbv zeta in H. apply ok_inj in H. subst result.
  rewrite !rget_rput.
  assert (text_eqb (u "confidence") (key_name k) = false) as ->
    by (destruct k; reflexivity).
  assert (text_eqb (u "emailType") (key_name k) = false) as ->
    by (destruct k; try discriminate Hk; reflexivity).
  rewrite override_other.
  - rewrite copy_old_get.
    assert (existsb (key_beq k) data_keys = true) as ->
      by (destruct k; reflexivity).
    cbn [andb rget]. destruct (is_none (old_data k)); reflexivity.
  - intros f v Hin. apply in_get in Hin. destruct Hin as [v' Hget].
    unfold extract_data in Hget.
    assert (In f amount_fields \/ f = u "guestName") as Hf.
    { unfold basic_extraction in Hget. cbv zeta in Hget.
      apply add_names_get in Hget.
      destruct Hget as [Hget|[-> _]]; [|right; reflexivity].
      apply take_fields_get in Hget.
      destruct Hget as [Hget|(e & Hin & <- & _)]; [discriminate Hget|].
      apply sort_priorities_in, priorities_of_in in Hin.
      destruct Hin as (a & _ & Ha). apply classify_amount_entry in Ha.
      left. exact (proj1 Ha). }
    destruct Hf as [Hf| ->].
    + unfold amount_fields in Hf. cbn [In] in Hf.
      destruct Hf as [<-|[<-|[<-|[<-|[]]]]];
        destruct k; try discriminate Hk; reflexivity.
    + destruct k; try discriminate Hk; reflexivity.
Qed.

(** The keys of a [results] dictionary are written once each. *)
Lemma put_keys k v d :
  map fst (put k v d)
  = if existsb (text_eqb k) (map fst d) then map fst d
    else map fst d ++ [k].
Proof.
  induction d as [|[k' v'] d IH]; [reflexivity|].
  cbn [put map fst existsb].
  destruct (text_eqb k' k) eqn:E.
  - apply text_eqb_eq in E. subst. rewrite text_eqb_refl. reflexivity.
  - cbn [map fst]. rewrite IH.
    assert (text_eqb k k' = false) as ->.
    { destruct (text_eqb k k') eqn:E'; [|reflexivity].
      apply text_eqb_eq in E'. subst. rewrite text_eqb_refl in E.
      discriminate E. }
    cbn [orb]. destruct (existsb (text_eqb k) (map fst d)); reflexivity.
Qed.

Lemma existsb_text_in k l : existsb (text_eqb k) l = false -> ~ In k l.
Proof.
  intros H Hin.
  assert (existsb (text_eqb k) l = true) as Ht.
  { apply existsb_exists. exists k. split; [exact Hin|apply text_eqb_refl]. }
  rewrite Ht in H. discriminate H.
Qed.

Lemma put_nodup k v d :
  NoDup (map fst d) -> NoDup (map fst (put k v d)).
Proof.
  intros H. rewrite put_keys.
  destruct (existsb (text_eqb k) (map fst d)) eqn:E; [exact H|].
  apply existsb_text_in in E.
  apply NoDup_rev in H. rewrite <- (rev_involutive (map fst d ++ [k])).
  apply NoDup_rev. rewrite rev_app_distr. cbn [rev app].
  constructor; [|exact H]. intros Hin. apply in_rev in Hin. contradiction.
Qed.

Lemma take_fields_nodup l :
  forall seen d, NoDup (map fst d) ->
                 NoDup (map fst (take_fields l seen d)).
Proof.
  induction l as [|e l IH]; intros seen d H; [exact H|].
  cbn [take_fields]. destruct (existsb _ seen); apply IH; [exact H|].
  apply put_nodup. exact H.
Qed.

Lemma add_names_nodup ns :
  forall d, NoDup (map fst d) -> NoDup (map fst (add_names ns d)).
Proof.
  induction ns as [|n ns IH]; intros d H; [exact H|].
  cbn [add_names]. destruct (rval_truthy _); apply IH; [exact H|].
  apply put_nodup. exact H.
Qed.

Lemma assign_amounts_nodup clf txt email_type amts :
  forall d, NoDup (map fst d) ->
            NoDup (map fst (assign_amounts clf txt email_type amts d)).
Proof.
  induction amts as [|a amts IH]; intros d H; [exact H|].
  cbn [assign_amounts]. cbv zeta.
  destruct (negb _ && negb _ && flt_gt _ 0); apply IH; [|exact H].
  apply put_nodup. exact H.
Qed.

Lemma extract_data_nodup amount_classifier email_text email_type :
  NoDup (map fst (extract_data amount_classifier email_text email_type)).
Proof.
  unfold extract_data, basic_extraction.
  destruct amount_classifier as [clf|]; cbv zeta; apply add_names_nodup.
  - apply assign_amounts_nodup. constructor.
  - apply take_fields_nodup. constructor.
Qed.

Lemma get_absent k d : ~ In k (map fst d) -> get k d = None.
Proof.
  induction d as [|[k' v] d IH]; [reflexivity|].
  cbn [map fst In get]. intros H.
  destruct (text_eqb k' k) eqn:E.
  - apply text_eqb_eq in E. subst. exfalso. apply H. left. reflexivity.
  - apply IH. intros Hin. apply H. right. exact Hin.
Qed.

(** [override] on a dictionary: the value of the extractor, unless it
    is a guest name the bridge refuses. *)
Lemma override_get f :
  forall items acc,
    NoDup (map fst items) ->
    rget f (override items acc)
    = match get f items with
      | Some v =>
          if text_eqb f (u "guestName") && _is_invalid_guest_name v
          then rget f acc
          else Some (to_pyval v)
      | None => rget f acc
      end.
Proof.
  induction items as [|[k v] items IH]; intros acc Hnd; [reflexivity|].
  cbn [map fst] in Hnd. inversion Hnd as [|? ? Hk Hrest]; subst.
  cbn [override get].
  destruct (text_eqb k f) eqn:Ekf.
  - apply text_eqb_eq in Ekf. subst f.
    destruct (text_eqb k (u "guestName") && _is_invalid_guest_name v);
      rewrite (IH _ Hrest), (get_absent _ _ Hk); [reflexivity|].
    rewrite rget_rput, text_eqb_refl. reflexivity.
  - destruct (text_eqb k (u "guestName") && _is_invalid_guest_name v);
      rewrite (IH _ Hrest); [reflexivity|].
    rewrite rget_rput, Ekf. reflexivity.
Qed.

(** X18.  The merge of the bridge, for every key but the two it adds
    itself: the value of the learned extractor when it has one, except
    a guest name that [_is_invalid_guest_name] refuses; otherwise the
    value of the rule-based extractor when that is not [None]. *)
Theorem bridge_prefers_the_model :
  forall (now : date) (amount_classifier : option classifier)
         (email_type : text) (confidence : Q)
         (subject sender body : text) (email_date : option text)
         (old_data : dict) (result : record) (f : text),
    extract_booking_data now email_type subject sender body email_date None
    = Ok old_data ->
    classify_and_extract now amount_classifier email_type confidence
                         subject sender body email_date = Ok result ->
    text_eqb (u "emailType") f = false ->
    text_eqb (u "confidence") f = false ->
    rget f result
    = match get f (extract_data amount_classifier body email_type) with
      | Some v =>
          if text_eqb f (u "guestName") && _is_invalid_guest_name v
          then rget f (copy_old data_keys old_data [])
          else Some (to_pyval v)
      | None => rget f (copy_old data_keys old_data [])
      end.
Proof.
  intros now amount_classifier email_type confidence subject sender body
         email_date old_data result f Hold H Htype Hconf.
  unfold classify_and_extract in H. rewrite Hold in H. cbn [bind] in H.
  cbv zeta in H. apply ok_inj in H. subst result.
  rewrite !rget_rput, Hconf, Htype.
  apply override_get, extract_data_nodup.
Qed.

(** A cancellation through the bridge: the dates are those of the
    rules. *)
Lemma bridge_keeps_the_rules_witness :
  exists old_data result,
    classify_and_extract clock None cancellation 1
      (u "Avbokad: bokning HMABCDEFGH 3–7 jul") (u "automated@airbnb.com")
      (u "Bokningen har avbokats.") None = Ok result
    /\ rget (key_name checkInDate) result
       = if is_none (old_data checkInDate) then None
         else Some (old_data checkInDate).
Proof.
  assert (E : exists old_data result,
             extract_booking_data clock cancellation
               (u "Avbokad: bokning HMABCDEFGH 3–7 jul")
               (u "automated@airbnb.com") (u "Bokningen har avbokats.")
               None None = Ok old_data
             /\ classify_and_extract clock None cancellation 1
                  (u "Avbokad: bokning HMABCDEFGH 3–7 jul")
                  (u "automated@airbnb.com") (u "Bokningen har avbokats.")
                  None = Ok result).
  { eexists. eexists. split; [reflexivity|]. vm_compute. reflexivity. }
  destruct E as (old_data & result & Eold & Eres).
  exists old_data, result. split; [exact Eres|].
  exact (bridge_keeps_the_rules clock cancellation 1
           (u "Avbokad: bokning HMABCDEFGH 3–7 jul")
           (u "automated@airbnb.com") (u "Bokningen har avbokats.") None
           old_data result checkInDate Eold Eres eq_refl).
Defined.

(** The sample mail through the bridge: the host earnings are those of
    the extractor. *)
Lemma bridge_prefers_the_model_witness :
  exists old_data result,
    classify_and_extract clock None booking_confirmation 1
      (u "Bokning") (u "automated@airbnb.com") henri_mail None = Ok result
    /\ rget (u "hostEarningsEur") result
       = match get (u "hostEarningsEur")
                   (extract_data None henri_mail booking_confirmation) with
         | Some v =>
             if text_eqb (u "hostEarningsEur") (u "guestName")
                && _is_invalid_guest_name v
             then rget (u "hostEarningsEur") (copy_old data_keys old_data [])
             else Some (to_pyval v)
         | None => rget (u "hostEarningsEur") (copy_old data_keys old_data [])
         end.
Proof.
  assert (E : exists old_data result,
             extract_booking_data clock booking_confirmation (u "Bokning")
               (u "automated@airbnb.com") henri_mail None None = Ok old_data
             /\ classify_and_extract clock None booking_confirmation 1
                  (u "Bokning") (u "automated@airbnb.com") henri_mail None
                = Ok result).
  { eexists. eexists. split; vm_compute; reflexivity. }
  destruct E as (old_data & result & Eold & Eres).
  exists old_data, result. split; [exact Eres|].
  exact (bridge_prefers_the_model clock None booking_confirmation 1
           (u "Bokning") (u "automated@airbnb.com") henri_mail None
           old_data result (u "hostEarningsEur") Eold Eres eq_refl eq_refl).
Defined.

(** ** Amounts are never negative *)

(** The characters the amount groups of the patterns read: digits, white
    space, the comma and the dot. *)
Definition amount_char (x : code) : bool :=
  is_digit x || is_space x || (x =? 44)%N || (x =? 46)%N.

Definition amount_item (it : citem) : bool :=
  match it with
  | CDigit | CSpace => true
  | CChar c => (c =? 44)%N || (c =? 46)%N || (c =? 160)%N
  | _ => false
  end.

(** A pattern that reads amount characters only. *)
Fixpoint amount_only (r : regex) : bool :=
  match r with
  | REmpty | RBol | REol | RBehind _ _ => true
  | RChar c => (c =? 44)%N || (c =? 46)%N
  | RAny => false
  | RSet negated items => negb negated && forallb amount_item items
  | RCat a b | RAlt a b => amount_only a && amount_only b
  | RRep a _ _ _ => amount_only a
  | RGroup _ a => amount_only a
  end.

(** A pattern whose groups all read amount characters only. *)
Fixpoint amount_groups (r : regex) : bool :=
  match r with
  | RCat a b | RAlt a b => amount_groups a && amount_groups b
  | RRep a _ _ _ => amount_groups a
  | RGroup _ a => amount_only a
  | _ => true
  end.

Definition amount_text (w : text) : Prop :=
  Forall (fun x => amount_char x = true) w.

Definition amount_caps (cs : caps) : Prop :=
  Forall (fun e => amount_text (snd (snd e))) cs.

Ltac to_arith :=
  repeat match goal with
         | H : _ && _ = true |- _ => apply andb_prop in H; destruct H
         | H : _ || _ = true |- _ => apply orb_prop in H; destruct H
         | H : _ && _ = false |- _ => apply andb_false_iff in H; destruct H
         | H : _ || _ = false |- _ => apply orb_false_iff in H; destruct H
         | H : negb _ = true |- _ => apply negb_true_iff in H
         | H : negb _ = false |- _ => apply negb_false_iff in H
         | H : (_ <=? _)%N = true |- _ => apply N.leb_le in H
         | H : (_ <=? _)%N = false |- _ => apply N.leb_gt in H
         | H : (_ =? _)%N = true |- _ => apply N.eqb_eq in H
         | H : (_ =? _)%N = false |- _ => apply N.eqb_neq in H
         end.

Lemma amount_char_cases x :
  amount_char x = true ->
  ((48 <= x <= 57) \/ (9 <= x <= 13) \/ (28 <= x <= 32) \/ x = 44
   \/ x = 46 \/ x = 133 \/ x = 160 \/ 5760 <= x)%N.
Proof.
  unfold amount_char, is_digit, is_space, between. intros H.
  to_arith; lia.
Qed.

Lemma amount_char_lower x :
  amount_char (lower_code x) = true -> lower_code x = x.
Proof.
  intros H. apply amount_char_cases in H. revert H.
  unfold lower_code, between.
  destruct ((65 <=? x)%N && (x <=? 90)%N) eqn:E1; [to_arith; lia|].
  destruct ((192 <=? x)%N && (x <=? 222)%N && negb (x =? 215)%N) eqn:E2;
    [to_arith; lia|].
  destruct (x =? 376)%N eqn:E3; [to_arith; lia|].
  reflexivity.
Qed.

Lemma amount_char_upper x :
  amount_char (upper_code x) = true -> upper_code x = x.
Proof.
  intros H. apply amount_char_cases in H. revert H.
  unfold upper_code, between.
  destruct ((97 <=? x)%N && (x <=? 122)%N) eqn:E1; [to_arith; lia|].
  destruct ((224 <=? x)%N && (x <=? 254)%N && negb (x =? 247)%N) eqn:E2;
    [to_arith; lia|].
  destruct (x =? 255)%N eqn:E3; [to_arith; lia|].
  reflexivity.
Qed.

Lemma amount_item_char it x :
  amount_item it = true -> item_has it x = true -> amount_char x = true.
Proof.
  destruct it as [c|lo hi| | |]; simpl; try discriminate; intros Hit Hx.
  - apply N.eqb_eq in Hx. subst x. unfold amount_char, is_space.
    to_arith; subst; reflexivity.
  - unfold amount_char. rewrite Hx. reflexivity.
  - unfold amount_char. rewrite Hx, orb_true_r. reflexivity.
Qed.

(** Ignoring case adds no character to an amount class. *)
Lemma amount_class ic items x :
  forallb amount_item items = true ->
  set_has ic items x = true -> amount_char x = true.
Proof.
  intros Hall H. unfold set_has in H. apply existsb_exists in H.
  destruct H as (it & Hin & H).
  rewrite forallb_forall in Hall. specialize (Hall it Hin).
  apply orb_prop in H. destruct H as [H|H].
  - exact (amount_item_char it x Hall H).
  - apply andb_prop in H. destruct H as [_ H].
    apply orb_prop in H. destruct H as [H|H].
    + pose proof (amount_item_char _ _ Hall H) as Hc.
      rewrite (amount_char_lower x Hc) in Hc. exact Hc.
    + pose proof (amount_item_char _ _ Hall H) as Hc.
      rewrite (amount_char_upper x Hc) in Hc. exact Hc.
Qed.

Lemma amount_literal ic c x :
  (c =? 44)%N || (c =? 46)%N = true ->
  char_eq ic c x = true -> amount_char x = true.
Proof.
  intros Hc H. unfold char_eq in H.
  assert (amount_char c = true) as Ha.
  { unfold amount_char. to_arith; subst; reflexivity. }
  destruct ic.
  - apply N.eqb_eq in H.
    assert (lower_code c = c) as Hlc by (to_arith; subst; reflexivity).
    rewrite Hlc in H. rewrite H in Ha.
    rewrite (amount_char_lower x Ha) in Ha. exact Ha.
  - apply N.eqb_eq in H. subst. exact Ha.
Qed.

(** What a pattern of amount characters reads, and the groups it
    binds. *)
Lemma amount_only_reads ic r p s cs p' s' cs' :
  matches ic r p s cs p' s' cs' ->
  amount_only r = true -> amount_caps cs ->
  (exists w, s = w ++ s' /\ amount_text w) /\ amount_caps cs'.
Proof.
  induction 1; cbn [amount_only]; intros Hr Hcs;
    try (split; [exists []; split; [reflexivity|constructor] | exact Hcs]).
  - split; [|exact Hcs]. exists [x]. split; [reflexivity|].
    constructor; [|constructor]. exact (amount_literal _ _ _ Hr H).
  - discriminate Hr.
  - split; [|exact Hcs]. exists [x]. split; [reflexivity|].
    apply andb_prop in Hr. destruct Hr as [Hn Hall].
    apply negb_true_iff in Hn. subst negated. cbn [xorb] in H.
    constructor; [|constructor]. exact (amount_class _ _ _ Hall H).
  - apply andb_prop in Hr. destruct Hr as [Ha Hb].
    destruct (IHmatches1 Ha Hcs) as [(w1 & -> & Hw1) Hc1].
    destruct (IHmatches2 Hb Hc1) as [(w2 & -> & Hw2) Hc2].
    split; [|exact Hc2]. exists (w1 ++ w2).
    split; [apply app_assoc | apply Forall_app; split; assumption].
  - apply andb_prop in Hr. destruct Hr as [Ha _]. exact (IHmatches Ha Hcs).
  - apply andb_prop in Hr. destruct Hr as [_ Hb]. exact (IHmatches Hb Hcs).
  - destruct (IHmatches1 Hr Hcs) as [(w1 & -> & Hw1) Hc1].
    destruct (IHmatches2 Hr Hc1) as [(w2 & -> & Hw2) Hc2].
    split; [|exact Hc2]. exists (w1 ++ w2).
    split; [apply app_assoc | apply Forall_app; split; assumption].
  - destruct (IHmatches Hr Hcs) as [(w & -> & Hw) Hc].
    split; [exists w; split; [reflexivity | exact Hw]|].
    constructor; [|exact Hc]. cbn [snd]. rewrite firstn_consumed. exact Hw.
Qed.

Lemma amount_groups_caps ic r p s cs p' s' cs' :
  matches ic r p s cs p' s' cs' ->
  amount_groups r = true -> amount_caps cs -> amount_caps cs'.
Proof.
  induction 1; cbn [amount_groups]; intros Hr Hcs; try exact Hcs.
  - apply andb_prop in Hr. destruct Hr as [Ha Hb]. auto.
  - apply andb_prop in Hr. destruct Hr as [Ha _]. auto.
  - apply andb_prop in Hr. destruct Hr as [_ Hb]. auto.
  - auto.
  - destruct (amount_only_reads _ _ _ _ _ _ _ _ H Hr Hcs)
      as [(w & -> & Hw) Hc].
    constructor; [|exact Hc]. cbn [snd]. rewrite firstn_consumed. exact Hw.
Qed.

Lemma amount_caps_get k cs n w :
  amount_caps cs -> cap_get k cs = Some (n, w) -> amount_text w.
Proof.
  induction cs as [|[j e] cs IH]; simpl; [discriminate|].
  intros Hcs H. inversion Hcs; subst.
  destruct (j =? k)%nat; [|auto].
  inversion H; subst. assumption.
Qed.

(** The groups of a match of such a pattern hold amount characters. *)
Lemma search_amount_groups ic r body m k :
  amount_groups r = true -> search ic r body = Some m ->
  amount_text (group_str m k).
Proof.
  intros Hr H. unfold search in H. apply search_from_matches in H.
  destruct H as (prev0 & s0 & p' & s' & H).
  apply amount_groups_caps in H; [|exact Hr|constructor].
  unfold group_str, group.
  destruct (cap_get k (m_caps m)) as [[n w]|] eqn:E; [|constructor].
  exact (amount_caps_get _ _ _ _ H E).
Qed.

(** *** What [float] makes of amount characters *)

Lemma decimal_nonneg m e : 0 <= m -> Qle_bool 0 (decimal m e) = true.
Proof.
  intros Hm. apply Qle_bool_iff. unfold decimal.
  destruct (0 <=? e) eqn:E; rewrite Qred_correct; unfold Qle; simpl.
  - apply Z.leb_le in E.
    pose proof (Z.pow_nonneg 10 e ltac:(lia)). nia.
  - lia.
Qed.

(** The value [float] returns: finite unless the text spells "inf",
    "infinity" or "nan", which all hold an "n"; a mantissa of digits,
    negated under a leading minus sign. *)
Lemma py_float_value s x :
  py_float s = Ok x ->
  (forall c, In c (snd (split_sign (strip s))) -> lower_code c <> 110%N) ->
  exists m e,
    0 <= m
    /\ x = Fin (decimal (if fst (split_sign (strip s)) then - m else m) e).
Proof.
  unfold py_float.
  destruct (split_sign (strip s)) as [neg r]. cbn [fst snd].
  intros H Hn.
  assert (forall w, In 110%N w -> text_eqb (lower r) w = false) as Hno.
  { intros w Hw. destruct (text_eqb (lower r) w) eqn:E; [|reflexivity].
    apply text_eqb_eq in E. rewrite <- E in Hw. unfold lower in Hw.
    apply in_map_iff in Hw. destruct Hw as (c & Hc & Hin).
    exfalso. exact (Hn c Hin Hc). }
  rewrite (Hno (u "inf")) in H by (vm_compute; tauto).
  rewrite (Hno (u "infinity")) in H by (vm_compute; tauto).
  rewrite (Hno (u "nan")) in H by (vm_compute; tauto).
  cbn [orb] in H.
  destruct (digitpart r) as [ip r1].
  destruct (match r1 with 46%N :: r' => digitpart r' | _ => ([], r1) end)
    as [fp r2].
  destruct (ip ++ fp) as [|d ds]; [discriminate|].
  destruct (match exponent r2 with Some (e, r') => (e, r') | None => (0, r2) end)
    as [ex r3].
  destruct r3; [|discriminate].
  apply ok_inj in H. subst x.
  exists (digits_val (d :: ds)), (ex - Z.of_nat (length fp)).
  split; [apply digits_val_nonneg | reflexivity].
Qed.

Lemma amount_char_unchanged c : amount_char c = true -> lower_code c = c.
Proof.
  intros H. apply amount_char_cases in H. unfold lower_code, between.
  destruct ((65 <=? c)%N && (c <=? 90)%N) eqn:E1; [to_arith; lia|].
  destruct ((192 <=? c)%N && (c <=? 222)%N && negb (c =? 215)%N) eqn:E2;
    [to_arith; lia|].
  destruct (c =? 376)%N eqn:E3; [to_arith; lia|].
  reflexivity.
Qed.

Lemma amount_char_no_n c : amount_char c = true -> lower_code c <> 110%N.
Proof.
  intros H. rewrite (amount_char_unchanged c H).
  apply amount_char_cases in H. lia.
Qed.

Lemma lstrip_suffix p (s : text) : exists w, s = w ++ lstrip_by p s.
Proof.
  unfold lstrip_by. induction s as [|x s IH].
  - exists []. reflexivity.
  - destruct (p x); [|exists []; reflexivity].
    destruct IH as [w IH]. exists (x :: w). simpl. f_equal. exact IH.
Qed.

Lemma strip_within (P : code -> Prop) s : Forall P s -> Forall P (strip s).
Proof.
  intros H. unfold strip, strip_by. apply Forall_rev.
  destruct (lstrip_suffix is_space (rev (lstrip_by is_space s))) as [w1 E1].
  destruct (lstrip_suffix is_space s) as [w2 E2].
  rewrite E2 in H. apply Forall_app in H. destruct H as [_ H].
  apply Forall_rev in H. rewrite E1 in H. apply Forall_app in H. tauto.
Qed.

Lemma split_sign_within (P : code -> Prop) s :
  Forall P s -> Forall P (snd (split_sign s)).
Proof.
  intros H. unfold split_sign. destruct s as [|x s]; [exact H|].
  inversion H; subst.
  destruct x as [|p]; [exact H|].
  do 6 (destruct p as [p|p|]; try exact H); cbn [snd]; assumption.
Qed.

Lemma split_sign_amount c s :
  amount_char c = true -> split_sign (c :: s) = (false, c :: s).
Proof.
  intros H. apply amount_char_cases in H. unfold split_sign.
  destruct c as [|p]; [reflexivity|].
  do 6 (destruct p as [p|p|]; try reflexivity); lia.
Qed.

(** [float] of amount characters: a finite number, not negative. *)
Lemma py_float_amount s x :
  amount_text s -> py_float s = Ok x ->
  exists q, x = Fin q /\ Qle_bool 0 q = true.
Proof.
  intros Hs H. apply py_float_value in H.
  - destruct H as (m & e & Hm & ->).
    assert (fst (split_sign (strip s)) = false) as Hneg.
    { pose proof (strip_within _ s Hs) as Hst.
      destruct (strip s) as [|c r]; [reflexivity|].
      inversion Hst; subst. rewrite split_sign_amount by assumption.
      reflexivity. }
    rewrite Hneg. eexists. split; [reflexivity | apply decimal_nonneg, Hm].
  - intros c Hin. apply amount_char_no_n.
    pose proof (split_sign_within _ _ (strip_within _ s Hs)) as Hr.
    unfold amount_text in Hr. rewrite Forall_forall in Hr. exact (Hr c Hin).
Qed.

(** With a minus sign put before them: a finite number. *)
Lemma py_float_signed_amount s x :
  amount_text s -> py_float (45%N :: s) = Ok x -> exists q, x = Fin q.
Proof.
  intros Hs H. apply py_float_value in H.
  - destruct H as (m & e & _ & ->). eexists. reflexivity.
  - assert (Forall (fun c => lower_code c <> 110%N) (45%N :: s)) as Hall.
    { constructor; [vm_compute; discriminate|].
      unfold amount_text in Hs. rewrite Forall_forall in *.
      intros c Hc. apply amount_char_no_n, Hs, Hc. }
    pose proof (split_sign_within _ _ (strip_within _ _ Hall)) as Hr.
    rewrite Forall_forall in Hr. exact Hr.
Qed.

Lemma remove_spaces_amount w : amount_text w -> amount_text (remove_spaces w).
Proof.
  unfold amount_text, remove_spaces. rewrite !Forall_forall.
  intros H x Hx. apply filter_In in Hx. apply H, Hx.
Qed.

Lemma remove_char_amount c w : amount_text w -> amount_text (remove_char c w).
Proof.
  unfold amount_text, remove_char. rewrite !Forall_forall.
  intros H x Hx. apply filter_In in Hx. apply H, Hx.
Qed.

Lemma replace_char_amount w :
  amount_text w -> amount_text (replace_char 44 46 w).
Proof.
  unfold amount_text, replace_char. rewrite !Forall_forall.
  intros H x Hx. apply in_map_iff in Hx. destruct Hx as (y & <- & Hy).
  destruct (y =? 44)%N; [reflexivity | apply H, Hy].
Qed.

Lemma swedish_float_amount w x :
  amount_text w -> swedish_float w = Some x ->
  exists q, x = Fin q /\ Qle_bool 0 q = true.
Proof.
  intros Hw. unfold swedish_float.
  destruct (py_float _) as [y|] eqn:E; [|discriminate].
  intros H. inversion H; subst.
  apply (py_float_amount _ _ (replace_char_amount _ (remove_spaces_amount _ Hw)) E).
Qed.

(** *** The amounts of a record *)

(** [None], or a float [x] with [x >= 0]. *)
Definition not_negative (v : pyval) : bool :=
  match v with
  | VNone => true
  | VFloat x => flt_ge x 0
  | _ => false
  end.

(** [None], or a float other than NaN. *)
Definition a_number (v : pyval) : bool :=
  match v with
  | VNone => true
  | VFloat NaN => false
  | VFloat _ => true
  | _ => false
  end.

(** What a key may hold: an amount is absent or a number that is not
    negative; the service fee in kronor, which the 2020 layout prints
    with a minus sign, is absent or a number of either sign. *)
Definition amount_value (k : key) (v : pyval) : bool :=
  match k with
  | amount | guestTotalEur | hostEarningsEur | cleaningFeeEur
  | nightlyRateEur | serviceFeeEur | propertyTaxEur
  | guestTotalSek | hostEarningsSek | cleaningFeeSek => not_negative v
  | serviceFeeSek => a_number v
  | _ => true
  end.

Definition sound_amounts (d : dict) : Prop :=
  forall k, amount_value k (d k) = true.

Lemma set_sound k v d :
  amount_value k v = true -> sound_amounts d -> sound_amounts (set k v d).
Proof.
  intros Hv Hd k'. unfold set.
  destruct (key_beq k k') eqn:E; [|apply Hd].
  apply key_beq_eq in E. subst. exact Hv.
Qed.

Lemma amount_value_nonneg k q :
  Qle_bool 0 q = true -> amount_value k (VFloat (Fin q)) = true.
Proof. intros H. destruct k; try reflexivity; exact H. Qed.

Lemma group_amount ic r body m k w :
  amount_groups r = true -> search ic r body = Some m ->
  group m k = Some w -> amount_text w.
Proof.
  intros Hr Hs Hg. pose proof (search_amount_groups ic r body m k Hr Hs) as H.
  unfold group_str in H. rewrite Hg in H. exact H.
Qed.

Lemma group_or_amount a b w :
  (forall v, a = Some v -> amount_text v) ->
  (forall v, b = Some v -> amount_text v) ->
  group_or a b = Some w -> amount_text w.
Proof.
  intros Ha Hb. unfold group_or.
  destruct a as [[|c v]|]; intros H; try (apply Hb; exact H).
  inversion H; subst. apply Ha. reflexivity.
Qed.

Lemma search2_amount_groups a b body m k :
  amount_groups a = true -> amount_groups b = true ->
  search2 a b body = Some m -> amount_text (group_str m k).
Proof.
  intros Ha Hb. unfold search2.
  destruct (search true a body) as [m1|] eqn:E.
  - intros H. inversion H; subst.
    exact (search_amount_groups _ _ _ _ _ Ha E).
  - intros H. exact (search_amount_groups _ _ _ _ _ Hb H).
Qed.

Lemma amount_field_sound ic r k body d :
  amount_groups r = true -> sound_amounts d ->
  sound_amounts (amount_field ic r k body d).
Proof.
  intros Hr Hd. unfold amount_field.
  destruct (search ic r body) as [m|] eqn:E; [|exact Hd].
  destruct (swedish_float _) as [x|] eqn:Ex; [|exact Hd].
  apply swedish_float_amount in Ex;
    [|exact (search_amount_groups _ _ _ _ _ Hr E)].
  destruct Ex as (q & -> & Hq).
  apply set_sound; [apply amount_value_nonneg, Hq | exact Hd].
Qed.

Lemma group_or3_amount ic r body m w :
  amount_groups r = true -> search ic r body = Some m ->
  group_or3 m = Some w -> amount_text w.
Proof.
  intros Hr Hs. unfold group_or3.
  apply group_or_amount; [intros v; apply (group_amount _ _ _ _ _ _ Hr Hs)|].
  intros v. apply group_or_amount;
    intros v'; apply (group_amount _ _ _ _ _ _ Hr Hs).
Qed.

Lemma host_earnings_eur_sound body d d' :
  sound_amounts d -> host_earnings_eur_block body d = Ok d' ->
  sound_amounts d'.
Proof.
  intros Hd. unfold host_earnings_eur_block.
  destruct (search true pat_host_earnings_eur body) as [m|] eqn:E;
    [|intros H; apply ok_inj in H; subst; exact Hd].
  destruct (group_or3 m) as [w|] eqn:Ew; [|discriminate].
  apply (group_or3_amount true pat_host_earnings_eur _ _ _ eq_refl E) in Ew.
  cbv zeta.
  match goal with
  | |- context [py_float ?a] =>
      assert (amount_text a) as Ha;
      [|destruct (py_float a) as [x|] eqn:Ex]
  end.
  - apply remove_spaces_amount in Ew.
    repeat match goal with
           | |- context [if ?b then _ else _] => destruct b
           end;
      [apply remove_char_amount | apply replace_char_amount | ]; exact Ew.
  - intros H. apply ok_inj in H. subst d'.
    destruct (py_float_amount _ _ Ha Ex) as (q & -> & Hq).
    apply set_sound; [reflexivity|].
    apply set_sound; [exact Hq | exact Hd].
  - intros H. apply ok_inj in H. subst. exact Hd.
Qed.

Lemma host_earnings_sek_sound body d d' :
  sound_amounts d -> host_earnings_sek_block body d = Ok d' ->
  sound_amounts d'.
Proof.
  intros Hd. unfold host_earnings_sek_block.
  destruct (has d hostEarningsEur);
    [intros H; apply ok_inj in H; subst; exact Hd|].
  destruct (search true pat_host_earnings_sek body) as [m|] eqn:E;
    [|intros H; apply ok_inj in H; subst; exact Hd].
  destruct (group_or3 m) as [w|] eqn:Ew; [|discriminate].
  apply (group_or3_amount true pat_host_earnings_sek _ _ _ eq_refl E) in Ew.
  destruct (swedish_float w) as [x|] eqn:Ex;
    intros H; apply ok_inj in H; subst d'; [|exact Hd].
  destruct (swedish_float_amount _ _ Ew Ex) as (q & -> & Hq).
  apply set_sound; [reflexivity|].
  apply set_sound; [exact Hq | exact Hd].
Qed.

(** One field of the 2020 layout. *)
Lemma field_2020_sound a b body k g d :
  amount_groups a = true -> amount_groups b = true -> sound_amounts d ->
  sound_amounts
    match search2 a b body with
    | Some m =>
        match swedish_float (group_str m g) with
        | Some x => set k (VFloat x) d
        | None => d
        end
    | None => d
    end.
Proof.
  intros Ha Hb Hd.
  destruct (search2 a b body) as [m|] eqn:E; [|exact Hd].
  destruct (swedish_float _) as [x|] eqn:Ex; [|exact Hd].
  destruct (swedish_float_amount _ _
              (search2_amount_groups _ _ _ _ g Ha Hb E) Ex) as (q & -> & Hq).
  apply set_sound; [apply amount_value_nonneg, Hq | exact Hd].
Qed.

Lemma sek_2020_sound body d :
  sound_amounts d -> sound_amounts (sek_2020_block body d).
Proof.
  intros Hd. unfold sek_2020_block.
  destruct (negb (has d hostEarningsEur) && negb (has d hostEarningsSek));
    [|exact Hd].
  cbv zeta.
  set (d1 := match search2 pat_host_earnings_2020_sek
                     pat_host_earnings_2020_sek_en body with
             | Some m => _
             | None => d
             end).
  assert (sound_amounts d1) as H1.
  { unfold d1.
    destruct (search2 _ _ body) as [m|] eqn:E; [|exact Hd].
    destruct (swedish_float _) as [x|] eqn:Ex; [|exact Hd].
    destruct (swedish_float_amount _ _
                (search2_amount_groups pat_host_earnings_2020_sek
                   pat_host_earnings_2020_sek_en _ _ 2%nat eq_refl eq_refl E)
                Ex)
      as (q & -> & Hq).
    apply set_sound; [reflexivity|].
    apply set_sound; [exact Hq | exact Hd]. }
  clearbody d1. clear Hd d.
  set (d2 := if has d1 guestTotalSek then d1 else _).
  assert (sound_amounts d2) as H2.
  { unfold d2. destruct (has d1 guestTotalSek); [exact H1|].
    apply field_2020_sound; [reflexivity | reflexivity | exact H1]. }
  clearbody d2. clear H1 d1.
  set (d3 := if has d2 cleaningFeeSek then d2 else _).
  assert (sound_amounts d3) as H3.
  { unfold d3. destruct (has d2 cleaningFeeSek); [exact H2|].
    apply field_2020_sound; [reflexivity | reflexivity | exact H2]. }
  clearbody d3. clear H2 d2.
  destruct (has d3 serviceFeeSek); [exact H3|].
  destruct (search2 _ _ body) as [m|] eqn:E; [|exact H3].
  pose proof (search2_amount_groups pat_service_fee_2020_sek
                pat_service_fee_2020_sek_en _ _ 1%nat eq_refl eq_refl E)
    as Hg.
  apply remove_spaces_amount, replace_char_amount in Hg.
  destruct (has_char 8722 (m_text m) || has_char 45 (m_text m)).
  - destruct (py_float _) as [x|] eqn:Ex; [|exact H3].
    destruct (py_float_signed_amount _ _ Hg Ex) as (q & ->).
    apply set_sound; [reflexivity | exact H3].
  - destruct (py_float _) as [x|] eqn:Ex; [|exact H3].
    destruct (py_float_amount _ _ Hg Ex) as (q & -> & Hq).
    apply set_sound; [reflexivity | exact H3].
Qed.

Lemma amounts_between_in lo hi ws q :
  In q (amounts_between lo hi ws) -> Qle_bool lo q = true.
Proof.
  unfold amounts_between. intros H. apply in_flat_map in H.
  destruct H as (w & _ & H).
  destruct (swedish_float w) as [[v| |]|]; try contradiction.
  destruct (Qle_bool lo v) eqn:E; [|contradiction].
  destruct (Qle_bool v hi); [|contradiction].
  destruct H as [<-|[]]. exact E.
Qed.

Lemma insert_q_in x l q : In q (insert_q x l) -> q = x \/ In q l.
Proof.
  induction l as [|h t IH]; simpl.
  - intros [<-|[]]. left. reflexivity.
  - destruct (Qle_bool h x).
    + intros [<-|H]; [right; left; reflexivity|].
      destruct (IH H) as [->|Hin]; [left; reflexivity | right; right; exact Hin].
    + intros [<-|H]; [left; reflexivity | right; exact H].
Qed.

Lemma sort_q_in l q : In q (sort_q l) -> In q l.
Proof.
  unfold sort_q.
  assert (forall l acc, In q (fold_left (fun acc x => insert_q x acc) l acc) ->
            In q l \/ In q acc) as H.
  { clear. induction l as [|x l IH]; intros acc H; cbn [fold_left] in H.
    - right. exact H.
    - destruct (IH _ H) as [Hin|Hin]; [left; right; exact Hin|].
      destruct (insert_q_in _ _ _ Hin) as [->|Ha];
        [left; left; reflexivity | right; exact Ha]. }
  intros Hin. destruct (H _ _ Hin) as [Hl|[]]. exact Hl.
Qed.

Lemma last_in (x : Q) l : In (last l x) (x :: l).
Proof.
  destruct l as [|y l]; [left; reflexivity|]. right.
  assert (In (last (y :: l) x)
             (removelast (y :: l) ++ [last (y :: l) x])) as H
    by (apply in_or_app; right; left; reflexivity).
  rewrite <- app_removelast_last in H by discriminate. exact H.
Qed.

Lemma above_is_nonneg lo q :
  Qle_bool 0 lo = true -> Qle_bool lo q = true -> Qle_bool 0 q = true.
Proof.
  rewrite !Qle_bool_iff. intros H1 H2. exact (Qle_trans _ _ _ H1 H2).
Qed.

Lemma earnings_fallback_sound body d :
  sound_amounts d -> sound_amounts (earnings_fallback_block body d).
Proof.
  intros Hd. unfold earnings_fallback_block.
  destruct (negb (has d hostEarningsEur) && negb (has d hostEarningsSek));
    [|exact Hd].
  cbv zeta.
  set (d1 := match search true du_tjanar_pattern body with
             | Some _ => _
             | None => _
             end).
  assert (sound_amounts d1) as H1.
  { unfold d1.
    destruct (search true du_tjanar_pattern body) as [m|] eqn:E.
    - destruct (swedish_float _) as [x|] eqn:Ex; [|exact Hd].
      destruct (swedish_float_amount _ _
                  (search_amount_groups true du_tjanar_pattern _ _ 1%nat
                     eq_refl E) Ex) as (q & -> & Hq).
      apply set_sound; [reflexivity|].
      apply set_sound; [exact Hq | exact Hd].
    - destruct (search true du_tjanar_sek_pattern body) as [m|] eqn:E2;
        [|exact Hd].
      destruct (swedish_float _) as [x|] eqn:Ex; [|exact Hd].
      destruct (swedish_float_amount _ _
                  (search_amount_groups true du_tjanar_sek_pattern _ _ 1%nat
                     eq_refl E2) Ex) as (q & -> & Hq).
      apply set_sound; [reflexivity|].
      apply set_sound; [exact Hq | exact Hd]. }
  clearbody d1. clear Hd d.
  destruct (negb (has d1 hostEarningsEur) && negb (has d1 hostEarningsSek));
    [|exact H1].
  destruct (8 <=? length (findall1 false euro_amounts_re body))%nat.
  - destruct (sort_q _) as [|smallest others] eqn:Es; [exact H1|].
    apply set_sound; [|exact H1]. cbn [amount_value not_negative flt_ge].
    assert (forall q, In q (smallest :: others) -> Qle_bool 0 q = true) as Hin.
    { intros q Hq. rewrite <- Es in Hq. apply sort_q_in in Hq.
      apply amounts_between_in in Hq.
      exact (above_is_nonneg 1 q eq_refl Hq). }
    destruct (Qle_bool smallest 100).
    + apply Hin. left. reflexivity.
    + apply Hin, last_in.
  - destruct (4 <=? length (findall1 false euro_amounts_re body))%nat;
      [|exact H1].
    destruct (rev _) as [|q rest] eqn:Er; [exact H1|].
    destruct (flt_truthy (Fin q)); [|exact H1].
    apply set_sound; [|exact H1]. cbn [amount_value not_negative flt_ge].
    assert (In q (q :: rest)) as Hq by (left; reflexivity).
    rewrite <- Er in Hq. apply in_rev in Hq.
    apply amounts_between_in in Hq.
    exact (above_is_nonneg 20 q eq_refl Hq).
Qed.

Lemma guest_count_sound body d :
  sound_amounts d -> sound_amounts (guest_count_block body d).
Proof.
  intros Hd. unfold guest_count_block.
  destruct (search false pat_guest_count body); [|exact Hd].
  destruct (group_or _ _); [|exact Hd].
  destruct (py_int _); [|exact Hd].
  apply set_sound; [reflexivity | exact Hd].
Qed.

Lemma payout_amount_sound full_text d :
  sound_amounts d -> sound_amounts (payout_amount_block full_text d).
Proof.
  intros Hd. unfold payout_amount_block.
  destruct (search false pat_amount_sek full_text) as [m|] eqn:E; [|exact Hd].
  pose proof (search_amount_groups false pat_amount_sek _ _ 1%nat eq_refl E)
    as Hg.
  cbv zeta.
  match goal with
  | |- context [py_float ?a] =>
      assert (amount_text a) as Ha;
      [|destruct (py_float a) as [x|] eqn:Ex; [|exact Hd]]
  end.
  - repeat match goal with
           | |- context [if ?b then _ else _] => destruct b
           end;
      [ apply remove_char_amount
      | apply replace_char_amount, remove_spaces_amount
      | apply remove_spaces_amount ]; exact Hg.
  - destruct (py_float_amount _ _ Ha Ex) as (q & -> & Hq).
    apply set_sound; [reflexivity|].
    apply set_sound; [exact Hq | exact Hd].
Qed.

(** A record whose amounts are as the first record has them. *)
Lemma untouched_sound email_type (d : dict) :
  (forall k, amount_value k (VStr []) = false ->
             d k = initial_data email_type k) ->
  sound_amounts d.
Proof.
  intros H k.
  destruct (amount_value k (VStr [])) eqn:E.
  - destruct k; try reflexivity; discriminate E.
  - rewrite (H k E). destruct k; try reflexivity; discriminate E.
Qed.

Lemma record_sound now email_type subject sender body email_date
    scanning_year data :
  extract_booking_data now email_type subject sender body
                       email_date scanning_year = Ok data ->
  sound_amounts data.
Proof.
  intros H.
  assert (forall k, match k with bookingCode => false | _ => true end = true ->
            booking_code_block (subject ++ u " " ++ body)
              (initial_data email_type) k = initial_data email_type k)
    as Hcode.
  { intros k Hk. unfold booking_code_block.
    destruct (search false pat_booking_code _); [|reflexivity].
    unfold set. destruct k; try discriminate Hk; reflexivity. }
  destruct (text_eqb email_type booking_confirmation) eqn:Econf.
  - unfold extract_booking_data in H. rewrite Econf in H.
    apply confirmation_branch_split in H.
    destruct H as (d6 & Hdates & Hmoney).
    assert (sound_amounts (nights_block body d6)) as H7.
    { apply (untouched_sound email_type). intros k Hk.
      rewrite nights_block_keeps
        by (destruct k; try discriminate Hk; reflexivity).
      rewrite (date_blocks_frame now email_date scanning_year subject body
                 (booking_code_block (subject ++ u " " ++ body)
                    (initial_data email_type)) d6 k);
        try exact Hdates;
        try (destruct k; try discriminate Hk; reflexivity).
      apply Hcode. destruct k; try discriminate Hk; reflexivity. }
    revert Hmoney. generalize (nights_block body d6) H7. clear.
    intros d7 H7 H.
    pose proof (amount_field_sound true pat_guest_total_eur guestTotalEur
                  body d7 eq_refl H7) as H8.
    change (amount_field true pat_guest_total_eur guestTotalEur body d7)
      with (guest_total_block body d7) in H8.
    destruct (host_earnings_eur_block body (guest_total_block body d7))
      as [d9|] eqn:E9; [|discriminate].
    cbn [bind] in H.
    destruct (host_earnings_sek_block body d9) as [d10|] eqn:E10;
      [|discriminate].
    cbn [bind] in H. apply ok_inj in H. subst data.
    apply guest_count_sound.
    do 4 (apply amount_field_sound; [reflexivity|]).
    apply earnings_fallback_sound, sek_2020_sound.
    apply (host_earnings_sek_sound _ _ _
             (host_earnings_eur_sound _ _ _ H8 E9) E10).
  - destruct (text_eqb email_type payout) eqn:Epay.
    + unfold extract_booking_data in H. rewrite Econf in H.
      destruct (text_eqb email_type booking_reminder) eqn:Erem.
      { apply text_eqb_eq in Erem. apply text_eqb_eq in Epay.
        rewrite Erem in Epay. discriminate Epay. }
      rewrite Epay in H.
      assert (sound_amounts
                (payout_amount_block (subject ++ u " " ++ body)
                   (booking_code_block (subject ++ u " " ++ body)
                      (initial_data email_type)))) as Hp.
      { apply payout_amount_sound. apply (untouched_sound email_type).
        intros k Hk. apply Hcode.
        destruct k; try discriminate Hk; reflexivity. }
      intros k.
      destruct (amount_value k (VStr [])) eqn:Ek.
      * destruct k; try reflexivity; discriminate Ek.
      * rewrite (payout_dates_loop_frame now email_date scanning_year
                   _ _ k ltac:(destruct k; try discriminate Ek; reflexivity)
                   _ _ H).
        apply Hp.
    + apply (untouched_sound email_type). intros k Hk.
      apply (record_frame _ _ _ _ _ _ _ _ k H).
      unfold record_fields, branch_writes. rewrite Econf, Epay.
      destruct k; try discriminate Hk;
        repeat match goal with
               | |- context [if ?b then _ else _] => destruct b
               end; reflexivity.
Qed.

(** X19.  No amount of a record is negative or NaN: each of amount,
    guestTotalEur, hostEarningsEur, cleaningFeeEur, nightlyRateEur,
    serviceFeeEur, propertyTaxEur, guestTotalSek, hostEarningsSek and
    cleaningFeeSek is None or a float [x] with [x >= 0]; serviceFeeSek,
    which takes the minus sign of the 2020 layout, is None or a float
    other than NaN. *)
Theorem amounts_never_negative :
  forall (now : date) (email_type subject sender body : text)
         (email_date : option text) (scanning_year : option Z)
         (data : dict) (k : key),
    extract_booking_data now email_type subject sender body
                         email_date scanning_year = Ok data ->
    amount_value k (data k) = true.
Proof.
  intros now email_type subject sender body email_date scanning_year data k H.
  exact (record_sound _ _ _ _ _ _ _ _ H k).
Qed.

(** A payout of 4 612,87 kr. *)
Lemma amounts_never_negative_witness :
  exists data,
    extract_booking_data clock payout
      (u "En utbetalning på 4 612,87 kr skickades") (u "automated@airbnb.com")
      (u "Hej!") None None = Ok data
    /\ amount_value amount (data amount) = true.
Proof.
  assert (E : exists data,
             extract_booking_data clock payout
               (u "En utbetalning på 4 612,87 kr skickades")
               (u "automated@airbnb.com") (u "Hej!") None None = Ok data).
  { eexists. vm_compute. reflexivity. }
  destruct E as (data & E). exists data. split; [exact E|].
  exact (amounts_never_negative clock payout
           (u "En utbetalning på 4 612,87 kr skickades")
           (u "automated@airbnb.com") (u "Hej!") None None data amount E).
Defined.

(** *** The amounts [main] prints *)

Lemma parts_amount a b w :
  split_on 44 w = [a; b] -> amount_text w -> amount_text a /\ amount_text b.
Proof.
  intros E Hw. pose proof (split_on_join 44 w) as Hj. rewrite E in Hj.
  cbn in Hj. rewrite <- Hj in Hw. unfold amount_text in *.
  apply Forall_app in Hw. destruct Hw as [Ha Hb].
  inversion Hb; subst. split; assumption.
Qed.

Lemma cleaned_amount_chars w :
  amount_text w -> amount_text (ClassifyEmail.cleaned_amount w).
Proof.
  intros Hw. unfold ClassifyEmail.cleaned_amount, ClassifyEmail.despace.
  cbv zeta.
  pose proof (remove_char_amount 160 _ (remove_char_amount 32 _ Hw)) as Hc.
  destruct (has_char 44 _ && has_char 46 _).
  - destruct (_ <? _);
      [apply remove_char_amount
      | apply replace_char_amount, remove_char_amount]; exact Hc.
  - destruct (has_char 44 _); [|exact Hc].
    destruct (split_on 44 _) as [|a [|b [|c l]]] eqn:E; try exact Hc.
    destruct (length b =? 2)%nat; [|exact Hc].
    destruct (parts_amount _ _ _ E Hc) as [Ha Hb].
    apply Forall_app. split; [exact Ha|].
    apply Forall_app. split; [|exact Hb].
    constructor; [reflexivity | constructor].
Qed.

(** [normalize_amount] of amount characters is not negative. *)
Lemma normalize_amount_chars w x :
  amount_text w -> ClassifyEmail.normalize_amount w = Ok x ->
  flt_ge x 0 = true.
Proof.
  intros Hw. unfold ClassifyEmail.normalize_amount.
  destruct (negb (truthy w)); [intros H; apply ok_inj in H; subst; reflexivity|].
  destruct (py_float _) as [y|e] eqn:E.
  - cbn. intros H. apply ok_inj in H. subst y.
    destruct (py_float_amount _ _ (cleaned_amount_chars _ Hw) E)
      as (q & -> & Hq).
    exact Hq.
  - destruct e; cbn; intros H; try discriminate H.
    apply ok_inj in H. subst. reflexivity.
Qed.

Lemma flt_gt_ge x : flt_gt x 0 = true -> flt_ge x 0 = true.
Proof.
  destruct x as [q|negative|]; cbn; intros H; try exact H.
  apply negb_true_iff in H. apply Qle_bool_iff.
  destruct (Qle_bool q 0) eqn:E; [discriminate|].
  apply Qlt_le_weak, Qnot_le_lt. intros Hle.
  apply Qle_bool_iff in Hle. congruence.
Qed.

(** The host part of a breakdown is not negative. *)
Lemma eur_host_not_negative body e :
  ClassifyEmail.extract_eur_breakdown body = Ok e ->
  flt_ge (ClassifyEmail.eur_host e) 0 = true.
Proof.
  unfold ClassifyEmail.extract_eur_breakdown, ClassifyEmail.norm.
  destruct (search true ClassifyEmail.eur_pattern_0 body) as [m|] eqn:E0.
  { destruct (ClassifyEmail.normalize_amount (group_str m 1)) as [x1|] eqn:E1;
      [|discriminate].
    cbn [bind].
    destruct (ClassifyEmail.normalize_amount (group_str m 2)) as [x2|];
      [|discriminate].
    cbn [bind]. intros H. apply ok_inj in H. subst e.
    cbn [ClassifyEmail.eur_host].
    apply (normalize_amount_chars _ _
             (search_amount_groups true ClassifyEmail.eur_pattern_0 _ _ 1%nat
                eq_refl E0) E1). }
  destruct (search true ClassifyEmail.eur_pattern_1 body) as [m|] eqn:E1.
  { destruct (ClassifyEmail.normalize_amount (group_str m 1)) as [x1|] eqn:En;
      [|discriminate].
    cbn [bind]. intros H. apply ok_inj in H. subst e.
    cbn [ClassifyEmail.eur_host].
    apply (normalize_amount_chars _ _
             (search_amount_groups true ClassifyEmail.eur_pattern_1 _ _ 1%nat
                eq_refl E1) En). }
  cbv zeta.
  destruct (flat_map _ _) as [|q0 rest] eqn:Ef.
  { intros H. apply ok_inj in H. subst e. reflexivity. }
  intros H. apply ok_inj in H. subst e. cbn [ClassifyEmail.eur_host flt_ge].
  assert (forall q, In q (q0 :: rest) -> Qle_bool 0 q = true) as Hall.
  { intros q Hq. rewrite <- Ef in Hq. apply in_flat_map in Hq.
    destruct Hq as (w & _ & Hq).
    destruct (ClassifyEmail.normalize_amount w) as [[v| |]|];
      try contradiction.
    destruct (negb (Qle_bool v 0)) eqn:Ev; [|contradiction].
    destruct Hq as [<-|[]].
    exact (flt_gt_ge (Fin v) Ev). }
  apply Hall, max_q_in. discriminate.
Qed.

Lemma enhance_payout_sound body d :
  sound_amounts d -> sound_amounts (ClassifyEmail.enhance_payout body d).
Proof.
  intros Hd. unfold ClassifyEmail.enhance_payout.
  destruct (ClassifyEmail.extract_eur_breakdown body) as [e|] eqn:E;
    [|exact Hd].
  destruct (flt_gt (ClassifyEmail.eur_total e) 0) eqn:Et; [|exact Hd].
  cbv zeta.
  assert (sound_amounts
            (set hostEarningsEur (VFloat (ClassifyEmail.eur_total e)) d))
    as H1 by (apply set_sound; [exact (flt_gt_ge _ Et) | exact Hd]).
  destruct (flt_gt (ClassifyEmail.eur_cleaning e) 0) eqn:Ec; [|exact H1].
  apply set_sound; [exact (eur_host_not_negative _ _ E)|].
  apply set_sound; [exact (flt_gt_ge _ Ec) | exact H1].
Qed.

(** X20.  The object [main] prints shows a record whose amounts are
    not negative either, the euro amounts a payout takes from the body
    included: each amount is None or a float [x >= 0], and
    serviceFeeSek is None or a float other than NaN. *)
Theorem main_amounts_never_negative :
  forall (now : date) (email_type : text) (confidence : Q)
         (subject sender body : text) (email_date : option text)
         (o : list (string * pyval)),
    ClassifyEmail.main now email_type confidence subject sender body
                       email_date = Ok o ->
    exists data,
      o = ClassifyEmail.result_json email_type confidence subject data
      /\ forall k, amount_value k (data k) = true.
Proof.
  intros now email_type confidence subject sender body email_date o.
  unfold ClassifyEmail.main.
  destruct (extract_booking_data now email_type subject sender body
              email_date None) as [d|] eqn:E; [|discriminate].
  cbn [bind]. cbv zeta. intros H. apply ok_inj in H.
  pose proof (record_sound _ _ _ _ _ _ _ _ E) as Hd.
  eexists. split; [symmetry; exact H|].
  destruct (text_eqb email_type payout);
    [apply enhance_payout_sound|]; exact Hd.
Qed.

(** A payout with its euro amounts in the body. *)
Lemma main_amounts_never_negative_witness :
  exists o data,
    ClassifyEmail.main clock payout (1 # 1)
      (u "En utbetalning på 4 612,87 kr skickades") (u "automated@airbnb.com")
      (u "€368,60 + €45,60 = 4 612,87 kr") None = Ok o
    /\ o = ClassifyEmail.result_json payout (1 # 1)
             (u "En utbetalning på 4 612,87 kr skickades") data
    /\ forall k, amount_value k (data k) = true.
Proof.
  assert (E : exists o,
             ClassifyEmail.main clock payout (1 # 1)
               (u "En utbetalning på 4 612,87 kr skickades")
               (u "automated@airbnb.com")
               (u "€368,60 + €45,60 = 4 612,87 kr") None = Ok o).
  { eexists. vm_compute. reflexivity. }
  destruct E as (o & E).
  destruct (main_amounts_never_negative clock payout (1 # 1)
              (u "En utbetalning på 4 612,87 kr skickades")
              (u "automated@airbnb.com")
              (u "€368,60 + €45,60 = 4 612,87 kr") None o E)
    as (data & Ho & Hd).
  exists o, data. split; [exact E|]. split; [exact Ho | exact Hd].
Defined.

(** ** The payout parser of [enhanced_payout_parser.py] *)

(** Without a sum in the body the breakdown has no cleaning fee and no
    amount in kronor: the pattern of the form "€X = Y kr" has two
    groups, and the loop asks for three. *)
Lemma no_sum_breakdown body b :
  PayoutParser.extract_eur_breakdown body = Ok b ->
  search true PayoutParser.eur_pattern_0 body = None ->
  search true PayoutParser.eur_pattern_2 body = None ->
  PayoutParser.cleaningFeeEur b = zero /\ PayoutParser.totalEur b = PayoutParser.hostEarningsEur b
  /\ PayoutParser.payoutSek b = zero.
Proof.
  intros H E0 E2. unfold PayoutParser.extract_eur_breakdown in H.
  change (firstn 3 PayoutParser.eur_patterns)
    with [(PayoutParser.eur_source_0, PayoutParser.eur_pattern_0); (PayoutParser.eur_source_1, PayoutParser.eur_pattern_1);
          (PayoutParser.eur_source_2, PayoutParser.eur_pattern_2)] in H.
  cbn [PayoutParser.calculation_loop] in H. rewrite E0, E2 in H.
  change (PayoutParser.group_count PayoutParser.eur_pattern_1 =? 3)%nat with false in H.
  destruct (search true PayoutParser.eur_pattern_1 body); cbv iota in H;
    cbn [bind] in H;
    destruct (PayoutParser.generic_amounts _ body); apply ok_inj in H; subst b;
    repeat split; reflexivity.
Qed.

(** X21.  [parse_payout_email] reads the amount in kronor of the body
    from a sum only.  When the body holds no sum "€X + €Y = Z kr" - the
    form "€X = Y kr" included - the cleaning fee is 0.0, the total is
    the host earnings, and the amount in kronor is that of the subject,
    or 0.0 with no exchange rate. *)
Theorem payout_sek_from_sum_or_subject :
  forall (subject body : text) (r : PayoutParser.payout_email),
    PayoutParser.parse_payout_email subject body = Ok r ->
    search true PayoutParser.eur_pattern_0 body = None ->
    search true PayoutParser.eur_pattern_2 body = None ->
    PayoutParser.cleaningFeeEur (PayoutParser.amounts r) = zero
    /\ PayoutParser.totalEur (PayoutParser.amounts r) = PayoutParser.hostEarningsEur (PayoutParser.amounts r)
    /\ (PayoutParser.extract_sek_from_subject subject = Ok (Some (PayoutParser.payoutSek (PayoutParser.amounts r)))
        \/ (PayoutParser.payoutSek (PayoutParser.amounts r) = zero /\ PayoutParser.exchangeRate r = None)).
Proof.
  intros subject body r H E0 E2. unfold PayoutParser.parse_payout_email in H.
  destruct (PayoutParser.extract_sek_from_subject subject) as [sek_amount|];
    [|discriminate].
  cbn [bind] in H. cbv zeta in H.
  destruct (PayoutParser.extract_eur_breakdown body) as [b|] eqn:Eb; [|discriminate].
  cbn [bind] in H.
  destruct (no_sum_breakdown _ _ Eb E0 E2) as (Hc & Ht & Hs).
  rewrite Hs in H.
  change (flt_gt zero 0) with false in H.
  change (negb (flt_truthy zero)) with true in H.
  cbv iota in H.
  destruct sek_amount as [x|].
  - destruct (flt_truthy x).
    + apply ok_inj in H. subst r.
      cbn [PayoutParser.amounts PayoutParser.exchangeRate PayoutParser.with_sek PayoutParser.cleaningFeeEur PayoutParser.totalEur
           PayoutParser.hostEarningsEur PayoutParser.payoutSek].
      repeat split; try assumption. left. reflexivity.
    + apply ok_inj in H. subst r. cbn [PayoutParser.amounts PayoutParser.exchangeRate].
      rewrite Hs. change (flt_gt zero 0) with false.
      rewrite andb_false_r.
      repeat split; try assumption. right. split; reflexivity.
  - apply ok_inj in H. subst r. cbn [PayoutParser.amounts PayoutParser.exchangeRate].
    rewrite Hs. change (flt_gt zero 0) with false.
    rewrite andb_false_r.
    repeat split; try assumption. right. split; reflexivity.
Qed.

(** The second test of the file without its subject: the body states
    2 475,08 kr, the result has 0.0 and no exchange rate. *)
Lemma payout_sek_from_sum_or_subject_witness :
  exists r,
    PayoutParser.parse_payout_email (u "Utbetalning") (u "€211,94 = 2 475,08 kr.") = Ok r
    /\ PayoutParser.cleaningFeeEur (PayoutParser.amounts r) = zero
    /\ PayoutParser.totalEur (PayoutParser.amounts r) = PayoutParser.hostEarningsEur (PayoutParser.amounts r)
    /\ (PayoutParser.extract_sek_from_subject (u "Utbetalning")
        = Ok (Some (PayoutParser.payoutSek (PayoutParser.amounts r)))
        \/ (PayoutParser.payoutSek (PayoutParser.amounts r) = zero /\ PayoutParser.exchangeRate r = None)).
Proof.
  assert (E : exists r,
             PayoutParser.parse_payout_email (u "Utbetalning")
               (u "€211,94 = 2 475,08 kr.") = Ok r).
  { eexists. vm_compute. reflexivity. }
  destruct E as (r & E). exists r. split; [exact E|].
  apply (payout_sek_from_sum_or_subject (u "Utbetalning")
           (u "€211,94 = 2 475,08 kr.") r E);
    vm_compute; reflexivity.
Defined.

(** X22.  On a body with a sum "€X + €Y = Z kr" the parser of
    [enhanced_payout_parser.py] and its copy in [classify_email.py]
    return the same three amounts in euro. *)
Theorem breakdown_copies_agree :
  forall (body : text) (m : rmatch_obj) (b : PayoutParser.breakdown)
         (e : ClassifyEmail.eur_breakdown),
    search true PayoutParser.eur_pattern_0 body = Some m ->
    PayoutParser.extract_eur_breakdown body = Ok b ->
    ClassifyEmail.extract_eur_breakdown body = Ok e ->
    PayoutParser.hostEarningsEur b = ClassifyEmail.eur_host e
    /\ PayoutParser.cleaningFeeEur b = ClassifyEmail.eur_cleaning e
    /\ PayoutParser.totalEur b = ClassifyEmail.eur_total e.
Proof.
  intros body m b e E0 Hb He.
  assert (forall s, PayoutParser.normalize_amount s = ClassifyEmail.normalize_amount s)
    as Hnorm.
  { intros s. unfold PayoutParser.normalize_amount, EnhancedPayoutParser.normalize_amount,
      ClassifyEmail.normalize_amount.
    destruct (negb (truthy s)); [reflexivity|].
    destruct (cleaned_amounts_agree s) as [->|[-> ->]]; reflexivity. }
  unfold PayoutParser.extract_eur_breakdown in Hb.
  change (firstn 3 PayoutParser.eur_patterns)
    with [(PayoutParser.eur_source_0, PayoutParser.eur_pattern_0); (PayoutParser.eur_source_1, PayoutParser.eur_pattern_1);
          (PayoutParser.eur_source_2, PayoutParser.eur_pattern_2)] in Hb.
  cbn [PayoutParser.calculation_loop] in Hb. rewrite E0 in Hb.
  change (PayoutParser.group_count PayoutParser.eur_pattern_0 =? 3)%nat with true in Hb.
  change (has_char 43 (u PayoutParser.eur_source_0)) with true in Hb.
  cbv iota in Hb.
  unfold ClassifyEmail.extract_eur_breakdown, ClassifyEmail.norm in He.
  change ClassifyEmail.eur_pattern_0 with PayoutParser.eur_pattern_0 in He.
  rewrite E0 in He. rewrite !Hnorm in Hb.
  destruct (ClassifyEmail.normalize_amount (group_str m 1)) as [x1|];
    [|discriminate].
  cbn [bind] in Hb, He.
  destruct (ClassifyEmail.normalize_amount (group_str m 2)) as [x2|];
    [|discriminate].
  cbn [bind] in Hb, He.
  destruct (ClassifyEmail.normalize_amount (group_str m 3)) as [x3|];
    [|discriminate].
  cbn [bind] in Hb. apply ok_inj in Hb. apply ok_inj in He. subst.
  repeat split; reflexivity.
Qed.

(** The first test of the file. *)
Lemma breakdown_copies_agree_witness :
  exists m b e,
    search true PayoutParser.eur_pattern_0 (u "€368,60 + €45,60 = 4 612,87 kr.") = Some m
    /\ PayoutParser.hostEarningsEur b = ClassifyEmail.eur_host e
    /\ PayoutParser.cleaningFeeEur b = ClassifyEmail.eur_cleaning e
    /\ PayoutParser.totalEur b = ClassifyEmail.eur_total e.
Proof.
  assert (E : exists m b e,
             search true PayoutParser.eur_pattern_0 (u "€368,60 + €45,60 = 4 612,87 kr.")
             = Some m
             /\ PayoutParser.extract_eur_breakdown (u "€368,60 + €45,60 = 4 612,87 kr.")
                = Ok b
             /\ ClassifyEmail.extract_eur_breakdown
                  (u "€368,60 + €45,60 = 4 612,87 kr.") = Ok e).
  { do 3 eexists. split; [|split]; vm_compute; reflexivity. }
  destruct E as (m & b & e & E0 & Eb & Ee). exists m, b, e.
  split; [exact E0|].
  exact (breakdown_copies_agree _ m b e E0 Eb Ee).
Defined.
